(** * BroCode spot app: order, payment and attendance bookkeeping

    A model of the slice of the application that keeps the
    per-(spot, user) state: the service layer of [services/database.ts]
    (invitation, payment, drink, selection and attendance services), the
    page handlers that call it ([handleRSVP], [handleCreateRSVP],
    [handleUpdateQuantity]) and the two database triggers of the SQL
    migrations ([update_payment_drink_total],
    [update_mission_count_on_attendance]).

    Conventions of the model.
    - A table is the list of its rows in insertion order, which is the
      order of [created_at]; joined profile data is left out, as are
      columns no modelled operation reads or writes and the timestamp
      columns other than [user_drink_selections.updated_at].
    - UUIDs are natural numbers; [gen_random_uuid()] is a counter kept in
      the database state.
    - Amounts are whole numbers: a price or a total is an integer-valued
      JavaScript number, with the rounding of double arithmetic written
      out (section Numbers).  Fractional prices are outside the model and
      no property below speaks about them.
    - INTEGER columns ([quantity], [votes], [mission_count]) hold 32-bit
      values; a statement that would store a larger one fails as a whole.
    - Identifiers passed to the services name existing spots, profiles and
      brands, so foreign keys hold; row-level security admits the caller.
    - A request either reaches the database and runs as one statement, or
      fails as a whole (the [fault] argument of each service function)
      and leaves the database as it was. *)

From Stdlib Require Import ZArith List Bool Lia PeanoNat Permutation.
From Stdlib Require String.
Import ListNotations.
Open Scope Z_scope.

(** ** Identifiers, enumerations, errors *)

(** A client timestamp, as a count of clock ticks. *)
Abbreviation timestamp := nat.

Abbreviation uuid := nat.

Inductive InvitationStatus := CONFIRMED | PENDING | DECLINED.
Inductive PaymentStatus := PAID | NOT_PAID.

Definition InvitationStatus_eqb (a b : InvitationStatus) : bool :=
  match a, b with
  | CONFIRMED, CONFIRMED | PENDING, PENDING | DECLINED, DECLINED => true
  | _, _ => false
  end.

(** What a rejected request carries: a violated CHECK constraint, a
    [.single()] that did not find exactly one row, a transport or service
    failure, an exception thrown by client code, an integer out of the
    range of its column (SQLSTATE 22003), or a null in a NOT NULL column
    (SQLSTATE 23502). *)
Inductive error :=
| check_violation
| not_single_row
| backend_failure
| client_exception
| numeric_value_out_of_range
| not_null_violation.

Inductive result (A : Type) :=
| Ok (a : A)
| Err (e : error).
Arguments Ok {A} a.
Arguments Err {A} e.

(** ** SQL three-valued logic

    A nullable value is an [option]; a comparison with NULL is NULL, and a
    WHERE clause or an IF keeps only what is true. *)
Module Sql.

Definition field {R A : Type} (f : R -> A) (r : option R) : option A :=
  option_map f r.

Definition eq_uuid (a b : option uuid) : option bool :=
  match a, b with
  | Some x, Some y => Some (Nat.eqb x y)
  | _, _ => None
  end.

Definition eq_bool (a b : option bool) : option bool :=
  match a, b with
  | Some x, Some y => Some (Bool.eqb x y)
  | _, _ => None
  end.

Definition and3 (a b : option bool) : option bool :=
  match a, b with
  | Some false, _ | _, Some false => Some false
  | Some true, Some true => Some true
  | _, _ => None
  end.

Definition or3 (a b : option bool) : option bool :=
  match a, b with
  | Some true, _ | _, Some true => Some true
  | Some false, Some false => Some false
  | _, _ => None
  end.

Definition is_null {A : Type} (a : option A) : option bool :=
  match a with
  | None => Some true
  | Some _ => Some false
  end.

Definition holds (c : option bool) : bool :=
  match c with
  | Some true => true
  | _ => false
  end.

Definition coalesce (a : option Z) (d : Z) : Z :=
  match a with
  | Some x => x
  | None => d
  end.

(** SUM over a column: NULL on no rows. *)
Definition sum (xs : list Z) : option Z :=
  match xs with
  | [] => None
  | _ => Some (fold_right Z.add 0 xs)
  end.

End Sql.

(** ** Numbers

    PostgreSQL's INTEGER is a 32-bit signed integer; a statement that
    would store a value outside its range raises "integer out of range"
    and is rolled back. *)
Definition INT4_MIN : Z := -2147483648.
Definition INT4_MAX : Z := 2147483647.

Definition int4_range (z : Z) : bool := (INT4_MIN <=? z) && (z <=? INT4_MAX).

(** A JavaScript number is an IEEE 754 double.  On whole numbers, the
    product or the sum of two doubles is the exact result rounded to 53
    significant bits, ties to even: exact up to [2 ^ 53] in absolute
    value, a multiple of a power of two beyond. *)
Definition round53 (z : Z) : Z :=
  let a := Z.abs z in
  if a <=? 2 ^ 53 then z
  else
    let e := Z.log2 a - 52 in
    let q := a / 2 ^ e in
    let r := a mod 2 ^ e in
    let half := 2 ^ (e - 1) in
    let q' := if r <? half then q
              else if half <? r then q + 1
              else if Z.even q then q else q + 1 in
    Z.sgn z * (q' * 2 ^ e).

(** A number as the client holds it: the double of a whole value, or one
    of Infinity, -Infinity and NaN, which [JSON.stringify] writes as null.
    A rounded result of magnitude [2 ^ 1024] or more is an infinity. *)
Inductive number :=
| num (z : Z)
| not_finite.

Definition js_round (z : Z) : number :=
  let r := round53 z in
  if Z.abs r <? 2 ^ 1024 then num r else not_finite.

Definition js_mul (a b : number) : number :=
  match a, b with
  | num x, num y => js_round (x * y)
  | _, _ => not_finite
  end.

Definition js_add (a b : number) : number :=
  match a, b with
  | num x, num y => js_round (x + y)
  | _, _ => not_finite
  end.

(** An integer argument [z] of a service function stands for the number
    [num z]; the pages pass values a double holds.  A NUMERIC column keeps
    the decimal text the client sent: up to [2 ^ 53] that is the number
    itself; beyond, it is the shortest decimal that reads back as the same
    double, for which the model records the double's value. *)

(** ** Rows and tables *)

(** Modelled from the spec: the [invitations] and [payments] tables are
    created by a migration that is not among the sources; the spec gives
    them one row per (spot_id, user_id), which the services' [onConflict]
    targets presuppose. *)
Record invitation_row := mk_invitation {
  inv_id : uuid;
  inv_spot_id : uuid;
  inv_user_id : uuid;
  inv_status : InvitationStatus
}.

Record payment_row := mk_payment {
  pay_id : uuid;
  pay_spot_id : uuid;
  pay_user_id : uuid;
  pay_status : PaymentStatus;
  pay_drink_total_amount : Z
}.

Record attendance_row := mk_attendance {
  att_id : uuid;
  att_spot_id : uuid;
  att_user_id : uuid;
  att_attended : bool
}.

Record selection_row := mk_selection {
  sel_id : uuid;
  sel_spot_id : uuid;
  sel_user_id : uuid;
  sel_drink_brand_id : uuid;
  sel_quantity : Z;
  sel_unit_price : Z;
  sel_total_price : Z;
  sel_updated_at : timestamp
}.

Record drink_row := mk_drink {
  drink_id : uuid;
  drink_spot_id : uuid;
  drink_votes : option Z;
  drink_suggested_by : uuid;
  drink_voted_by : option (list uuid)
}.

Record profile_row := mk_profile {
  prof_id : uuid;
  prof_mission_count : option Z
}.

Record database := mk_database {
  invitations : list invitation_row;
  payments : list payment_row;
  attendance : list attendance_row;
  user_drink_selections : list selection_row;
  drinks : list drink_row;
  profiles : list profile_row;
  next_uuid : uuid
}.

Definition empty_database : database :=
  mk_database [] [] [] [] [] [] 0%nat.

Definition set_invitations (l : list invitation_row) (db : database) :=
  mk_database l (payments db) (attendance db) (user_drink_selections db)
    (drinks db) (profiles db) (next_uuid db).
Definition set_payments (l : list payment_row) (db : database) :=
  mk_database (invitations db) l (attendance db) (user_drink_selections db)
    (drinks db) (profiles db) (next_uuid db).
Definition set_attendance (l : list attendance_row) (db : database) :=
  mk_database (invitations db) (payments db) l (user_drink_selections db)
    (drinks db) (profiles db) (next_uuid db).
Definition set_user_drink_selections (l : list selection_row) (db : database) :=
  mk_database (invitations db) (payments db) (attendance db) l
    (drinks db) (profiles db) (next_uuid db).
Definition set_drinks (l : list drink_row) (db : database) :=
  mk_database (invitations db) (payments db) (attendance db)
    (user_drink_selections db) l (profiles db) (next_uuid db).
Definition set_profiles (l : list profile_row) (db : database) :=
  mk_database (invitations db) (payments db) (attendance db)
    (user_drink_selections db) (drinks db) l (next_uuid db).

(** [gen_random_uuid()] *)
Definition gen_random_uuid (db : database) : uuid * database :=
  (next_uuid db,
   mk_database (invitations db) (payments db) (attendance db)
     (user_drink_selections db) (drinks db) (profiles db) (S (next_uuid db))).

(** ** Requests: state and errors

    A computation reads and writes the database and either returns a value
    or throws.  What was written before a throw stays written: each
    request is its own transaction. *)
Definition M (A : Type) : Type := database -> result A * database.

Definition ret {A : Type} (a : A) : M A := fun db => (Ok a, db).
Definition throw {A : Type} (e : error) : M A := fun db => (Err e, db).
Definition bind {A B : Type} (m : M A) (k : A -> M B) : M B :=
  fun db =>
    match m db with
    | (Ok a, db') => k a db'
    | (Err e, db') => (Err e, db')
    end.
(** [try { m } catch (err) { h err }] *)
Definition try_catch {A : Type} (m : M A) (h : error -> M A) : M A :=
  fun db =>
    match m db with
    | (Ok a, db') => (Ok a, db')
    | (Err e, db') => h e db'
    end.

Declare Scope request_scope.
Delimit Scope request_scope with request.
Notation "x <- m ;; k" := (bind m (fun x => k))
  (at level 61, m at next level, right associativity) : request_scope.
Notation "m ;;; k" := (bind m (fun _ => k))
  (at level 61, right associativity) : request_scope.
Open Scope request_scope.

(** A request that the transport or the service may fail before it runs. *)
Definition request {A : Type} (fault : option error) (statement : M A) : M A :=
  match fault with
  | Some e => throw e
  | None => statement
  end.

Definition run {A : Type} (m : M A) (db : database) : database := snd (m db).

(** ** Drink selections and the payment drink total *)

(** The row-level trigger function of the drink-selection migration:
<<
  UPDATE payments
  SET drink_total_amount = (SELECT COALESCE(SUM(total_price), 0)
                            FROM user_drink_selections
                            WHERE spot_id = NEW.spot_id AND user_id = NEW.user_id)
  WHERE spot_id = NEW.spot_id AND user_id = NEW.user_id;
>>
    It reads NEW only.  PostgreSQL passes a null NEW to a row trigger that
    fires for DELETE, so there both comparisons are NULL. *)
Definition of_new_pair (NEW : option selection_row) (spot_id user_id : uuid) : bool :=
  Sql.holds
    (Sql.and3 (Sql.eq_uuid (Some spot_id) (Sql.field sel_spot_id NEW))
              (Sql.eq_uuid (Some user_id) (Sql.field sel_user_id NEW))).

Definition update_payment_drink_total
    (OLD NEW : option selection_row) (db : database) : database :=
  let total :=
    Sql.coalesce
      (Sql.sum (map sel_total_price
                  (filter (fun r => of_new_pair NEW (sel_spot_id r) (sel_user_id r))
                          (user_drink_selections db))))
      0 in
  set_payments
    (map (fun p =>
            if of_new_pair NEW (pay_spot_id p) (pay_user_id p)
            then mk_payment (pay_id p) (pay_spot_id p) (pay_user_id p)
                            (pay_status p) total
            else p)
         (payments db))
    db.

(** The conflict target UNIQUE(spot_id, user_id, drink_brand_id). *)
Definition line_is (spot_id user_id drink_brand_id : uuid) (r : selection_row) : bool :=
  Nat.eqb (sel_spot_id r) spot_id
  && Nat.eqb (sel_user_id r) user_id
  && Nat.eqb (sel_drink_brand_id r) drink_brand_id.

(** [INSERT ... ON CONFLICT (spot_id, user_id, drink_brand_id) DO UPDATE]
    on [user_drink_selections] of the row the client sent as JSON, with
    [quantity INTEGER NOT NULL CHECK (quantity > 0)],
    [total_price NUMERIC NOT NULL] and the AFTER INSERT OR UPDATE OR
    DELETE row trigger.  The body is read into a row first (an integer
    out of range fails there), then the row's constraints are checked. *)
Definition upsert_user_drink_selections
    (spot_id user_id drink_brand_id : uuid) (quantity unit_price : Z)
    (total_price : number) (updated_at : timestamp)
  : M selection_row :=
  fun db =>
    if negb (int4_range quantity) then (Err numeric_value_out_of_range, db)
    else
      match total_price with
      | not_finite => (Err not_null_violation, db)
      | num total_price =>
          if quantity <=? 0 then (Err check_violation, db)
          else
            match find (line_is spot_id user_id drink_brand_id) (user_drink_selections db) with
            | Some old =>
                let new := mk_selection (sel_id old) spot_id user_id drink_brand_id
                                        quantity unit_price total_price updated_at in
                let db1 :=
                  set_user_drink_selections
                    (map (fun r => if line_is spot_id user_id drink_brand_id r
                                   then mk_selection (sel_id r) spot_id user_id drink_brand_id
                                                     quantity unit_price total_price updated_at
                                   else r)
                         (user_drink_selections db))
                    db in
                (Ok new, update_payment_drink_total (Some old) (Some new) db1)
            | None =>
                let (id, db0) := gen_random_uuid db in
                let new := mk_selection id spot_id user_id drink_brand_id
                                        quantity unit_price total_price updated_at in
                let db1 :=
                  set_user_drink_selections (user_drink_selections db0 ++ [new]) db0 in
                (Ok new, update_payment_drink_total None (Some new) db1)
            end
      end.

(** [DELETE FROM user_drink_selections WHERE id = ...]; the row trigger
    fires once per deleted row, with a null NEW. *)
Definition delete_user_drink_selections (id : uuid) : M unit :=
  fun db =>
    let deleted := filter (fun r => Nat.eqb (sel_id r) id) (user_drink_selections db) in
    let db1 :=
      set_user_drink_selections
        (filter (fun r => negb (Nat.eqb (sel_id r) id)) (user_drink_selections db))
        db in
    (Ok tt,
     fold_left (fun d old => update_payment_drink_total (Some old) None d) deleted db1).

Module userDrinkSelectionService.

(** Rows of one user for one spot, newest first. *)
Definition getUserSelections (spotId userId : uuid) (db : database)
  : list selection_row :=
  rev (filter (fun r => Nat.eqb (sel_spot_id r) spotId && Nat.eqb (sel_user_id r) userId)
              (user_drink_selections db)).

(** [now] is the client's clock at the call, [new Date().toISOString()],
    sent as [updated_at]. *)
Definition upsertSelection (fault : option error) (now : timestamp)
    (spot_id user_id drink_brand_id : uuid) (quantity unit_price : Z)
  : M selection_row :=
  let total_price := js_mul (num quantity) (num unit_price) in
  request fault
    (upsert_user_drink_selections spot_id user_id drink_brand_id
       quantity unit_price total_price now).

Definition deleteSelection (fault : option error) (selectionId : uuid) : M unit :=
  request fault (delete_user_drink_selections selectionId).

End userDrinkSelectionService.
Import userDrinkSelectionService.

(** The pages' [fetchData] re-reads the tables into component state and
    handles its own errors; it writes nothing. *)
Definition fetchData : M unit := ret tt.

(** [handleUpdateQuantity] of the drinks pages; it has no try/catch. *)
Definition handleUpdateQuantity (fault : option error) (now : timestamp)
    (selection : selection_row) (newQuantity : Z) : M unit :=
  (if newQuantity <=? 0
   then deleteSelection fault (sel_id selection)
   else
     _ <- upsertSelection fault now (sel_spot_id selection) (sel_user_id selection)
            (sel_drink_brand_id selection) newQuantity (sel_unit_price selection) ;;
     ret tt) ;;;
  fetchData.

(** *** What the claims speak about *)

Definition sel_key (r : selection_row) : uuid * uuid * uuid :=
  (sel_spot_id r, sel_user_id r, sel_drink_brand_id r).

(** UNIQUE(spot_id, user_id, drink_brand_id) as a property of the state. *)
Definition selections_unique (db : database) : Prop :=
  NoDup (map sel_key (user_drink_selections db)).

(** Sum of [total_price] over the lines of one (spot, user); 0 for none. *)
Definition lines_total (spot_id user_id : uuid) (db : database) : Z :=
  fold_right Z.add 0
    (map sel_total_price
       (filter (fun r => Nat.eqb (sel_spot_id r) spot_id && Nat.eqb (sel_user_id r) user_id)
               (user_drink_selections db))).

(** Every payment row of the pair carries the current sum. *)
Definition payment_in_sync (spot_id user_id : uuid) (db : database) : Prop :=
  forall p, In p (payments db) ->
            pay_spot_id p = spot_id -> pay_user_id p = user_id ->
            pay_drink_total_amount p = lines_total spot_id user_id db.

(** Calling [upsertSelection] twice with the same arguments, at the times
    [t1] and [t2], leaves exactly one row under the key, with
    [total_price = quantity * unit_price]. *)
Definition upsert_twice_one_row (t1 t2 : timestamp)
    (spot_id user_id drink_brand_id : uuid) (quantity unit_price : Z)
    (db : database) : Prop :=
  let db2 :=
    run (upsertSelection None t1 spot_id user_id drink_brand_id quantity unit_price ;;;
         upsertSelection None t2 spot_id user_id drink_brand_id quantity unit_price) db in
  exists r,
    filter (line_is spot_id user_id drink_brand_id) (user_drink_selections db2) = [r]
    /\ sel_total_price r = quantity * unit_price.

(** ** Invitations and payments *)

Definition pair_is {R : Type} (spot_of user_of : R -> uuid)
    (spot_id user_id : uuid) (r : R) : bool :=
  Nat.eqb (spot_of r) spot_id && Nat.eqb (user_of r) user_id.

Definition inv_is := pair_is inv_spot_id inv_user_id.
Definition pay_is := pair_is pay_spot_id pay_user_id.
Definition att_is := pair_is att_spot_id att_user_id.

(** The objects the services hand to the pages ([types.ts]); an optional
    property that a service does not set reads as [None]. *)
Record Invitation := mk_Invitation {
  Invitation_id : uuid;
  Invitation_spot_id : uuid;
  Invitation_user_id : uuid;
  Invitation_status : InvitationStatus
}.

Record Payment := mk_Payment {
  Payment_id : uuid;
  Payment_spot_id : uuid;
  Payment_user_id : uuid;
  Payment_status : PaymentStatus;
  Payment_drink_total_amount : option Z
}.

Module invitationService.

Definition toInvitation (inv : invitation_row) : Invitation :=
  mk_Invitation (inv_id inv) (inv_spot_id inv) (inv_user_id inv) (inv_status inv).

Definition getInvitations (spotId : uuid) (db : database) : list Invitation :=
  map toInvitation
      (filter (fun r => Nat.eqb (inv_spot_id r) spotId) (invitations db)).

(** upsert with [onConflict: 'spot_id,user_id'] *)
Definition upsertInvitation (fault : option error)
    (spot_id user_id : uuid) (status : InvitationStatus) : M Invitation :=
  request fault
    (fun db =>
       match find (inv_is spot_id user_id) (invitations db) with
       | Some old =>
           (Ok (mk_Invitation (inv_id old) spot_id user_id status),
            set_invitations
              (map (fun r => if inv_is spot_id user_id r
                             then mk_invitation (inv_id r) spot_id user_id status
                             else r)
                   (invitations db))
              db)
       | None =>
           let (id, db0) := gen_random_uuid db in
           (Ok (mk_Invitation id spot_id user_id status),
            set_invitations
              (invitations db0 ++ [mk_invitation id spot_id user_id status]) db0)
       end).

(** [update({ status }).eq('id', invitationId)] *)
Definition updateInvitationStatus (fault : option error)
    (invitationId : uuid) (status : InvitationStatus) : M unit :=
  request fault
    (fun db =>
       (Ok tt,
        set_invitations
          (map (fun r => if Nat.eqb (inv_id r) invitationId
                         then mk_invitation (inv_id r) (inv_spot_id r) (inv_user_id r) status
                         else r)
               (invitations db))
          db)).

End invitationService.
Import invitationService.

Module paymentService.

(** The mapping both [getPayments] and [upsertPayment] apply to a row:
    id, spot_id, user_id, profiles and status are copied. *)
Definition toPayment (pay : payment_row) : Payment :=
  mk_Payment (pay_id pay) (pay_spot_id pay) (pay_user_id pay) (pay_status pay) None.

Definition getPayments (spotId : uuid) (db : database) : list Payment :=
  map toPayment
      (filter (fun r => Nat.eqb (pay_spot_id r) spotId) (payments db)).

(** upsert of [{spot_id, user_id, status}] with
    [onConflict: 'spot_id,user_id']; a new row takes the column default
    [drink_total_amount NUMERIC DEFAULT 0]. *)
Definition upsertPayment (fault : option error)
    (spot_id user_id : uuid) (status : PaymentStatus) : M Payment :=
  request fault
    (fun db =>
       match find (pay_is spot_id user_id) (payments db) with
       | Some old =>
           (Ok (toPayment (mk_payment (pay_id old) spot_id user_id status
                                      (pay_drink_total_amount old))),
            set_payments
              (map (fun r => if pay_is spot_id user_id r
                             then mk_payment (pay_id r) spot_id user_id status
                                             (pay_drink_total_amount r)
                             else r)
                   (payments db))
              db)
       | None =>
           let (id, db0) := gen_random_uuid db in
           let new := mk_payment id spot_id user_id status 0 in
           (Ok (toPayment new), set_payments (payments db0 ++ [new]) db0)
       end).

(** [update({ status }).eq('id', paymentId)]: the admin's mark paid and
    mark unpaid. *)
Definition updatePaymentStatus (fault : option error)
    (paymentId : uuid) (status : PaymentStatus) : M unit :=
  request fault
    (fun db =>
       (Ok tt,
        set_payments
          (map (fun r => if Nat.eqb (pay_id r) paymentId
                         then mk_payment (pay_id r) (pay_spot_id r) (pay_user_id r)
                                         status (pay_drink_total_amount r)
                         else r)
               (payments db))
          db)).

End paymentService.
Import paymentService.

(** *** The RSVP handlers of the home page *)

(** What a handler leaves the user with: nothing, or an alert box. *)
Inductive outcome := done | alerted.

(** The handler's surroundings: whether a profile is loaded, the page's
    spot, what [getUserIdAsUUID(profile.id)] gives, the fate of each
    request, and whether [getUserIdAsUUID] had to create the profile.

    [getUserIdAsUUID] returns the session id itself when it is a UUID, and
    otherwise looks the profile up by phone, email and username; when no
    lookup finds it, it inserts a profiles row and returns the id the
    database gave it.  It throws when the insert fails and a last lookup
    finds nothing; a failed insert writes nothing. *)
Record rsvp_env := make_rsvp_env {
  env_profile : bool;
  env_spot : option uuid;
  env_getUserIdAsUUID : result uuid;
  env_invitation_fault : option error;
  env_payment_fault : option error;
  env_inserts_profile : bool
}.

(** The surroundings of a session whose profile is in the database. *)
Definition mk_rsvp_env (profile : bool) (spot : option uuid) (userId : result uuid)
    (invitation_fault payment_fault : option error) : rsvp_env :=
  make_rsvp_env profile spot userId invitation_fault payment_fault false.

(** The inserted row takes the column default [mission_count INTEGER DEFAULT 0]. *)
Definition getUserIdAsUUID (env : rsvp_env) : M uuid :=
  fun db =>
    match env_getUserIdAsUUID env with
    | Ok newProfile_id =>
        if env_inserts_profile env
        then (Ok newProfile_id,
              set_profiles (profiles db ++ [mk_profile newProfile_id (Some 0)]) db)
        else (Ok newProfile_id, db)
    | Err e => (Err e, db)
    end.

Definition handleRSVP (env : rsvp_env)
    (invitationId : uuid) (status : InvitationStatus) : M outcome :=
  match env_profile env, env_spot env with
  | true, Some spot =>
      try_catch
        (updateInvitationStatus (env_invitation_fault env) invitationId status ;;;
         (if InvitationStatus_eqb status CONFIRMED
          then
            try_catch
              (userId <- getUserIdAsUUID env ;;
               _ <- upsertPayment (env_payment_fault env) spot userId NOT_PAID ;;
               ret tt)
              (fun paymentError => ret tt)
          else ret tt) ;;;
         fetchData ;;;
         ret done)
        (fun error => ret alerted)
  | _, _ => ret done
  end.

Definition handleCreateRSVP (env : rsvp_env) (status : InvitationStatus) : M outcome :=
  match env_profile env, env_spot env with
  | true, Some spot =>
      try_catch
        (userId <- getUserIdAsUUID env ;;
         _ <- upsertInvitation (env_invitation_fault env) spot userId status ;;
         (if InvitationStatus_eqb status CONFIRMED
          then
            try_catch
              (_ <- upsertPayment (env_payment_fault env) spot userId NOT_PAID ;;
               ret tt)
              (fun paymentError => ret tt)
          else ret tt) ;;;
         fetchData ;;;
         ret done)
        (fun error => ret alerted)
  | _, _ => ret done
  end.

(** UNIQUE(spot_id, user_id) on payments as a property of the state. *)
Definition pay_key (r : payment_row) : uuid * uuid := (pay_spot_id r, pay_user_id r).
Definition payments_unique (db : database) : Prop :=
  NoDup (map pay_key (payments db)).

(** The rows [getPayments] returns for one user. *)
Definition payments_of (spot_id user_id : uuid) (db : database) : list Payment :=
  filter (fun p => Nat.eqb (Payment_user_id p) user_id) (getPayments spot_id db).

(** ** Attendance and the mission count *)

(** The trigger function of the extended migration:
<<
  IF NEW.attended = true AND (OLD.attended IS NULL OR OLD.attended = false) THEN
    UPDATE profiles SET mission_count = COALESCE(mission_count, 0) + 1
    WHERE id = NEW.user_id;
  END IF;
>>
    OLD is null when the trigger fires for an INSERT.  [mission_count] is
    an INTEGER: the UPDATE raises an error when a new count does not fit. *)
Definition update_mission_count_on_attendance
    (OLD NEW : option attendance_row) (db : database) : result database :=
  if Sql.holds
       (Sql.and3
          (Sql.eq_bool (Sql.field att_attended NEW) (Some true))
          (Sql.or3 (Sql.is_null (Sql.field att_attended OLD))
                   (Sql.eq_bool (Sql.field att_attended OLD) (Some false))))
  then
    if forallb (fun p => int4_range (Sql.coalesce (prof_mission_count p) 0 + 1))
               (filter (fun p => Sql.holds (Sql.eq_uuid (Some (prof_id p))
                                                        (Sql.field att_user_id NEW)))
                       (profiles db))
    then
      Ok (set_profiles
            (map (fun p =>
                    if Sql.holds (Sql.eq_uuid (Some (prof_id p)) (Sql.field att_user_id NEW))
                    then mk_profile (prof_id p)
                                    (Some (Sql.coalesce (prof_mission_count p) 0 + 1))
                    else p)
                 (profiles db))
            db)
    else Err numeric_value_out_of_range
  else Ok db.

(** [AFTER INSERT OR UPDATE ON attendance FOR EACH ROW WHEN (NEW.attended = true)] *)
Definition trigger_update_mission_count
    (OLD NEW : option attendance_row) (db : database) : result database :=
  if Sql.holds (Sql.eq_bool (Sql.field att_attended NEW) (Some true))
  then update_mission_count_on_attendance OLD NEW db
  else Ok db.

Module attendanceService.

Definition getUserAttendance (spotId userId : uuid) (db : database)
  : option attendance_row :=
  find (att_is spotId userId) (attendance db).

(** The statement of an upsert and its trigger commit together: an error
    raised in the trigger rolls the row back. *)
Definition with_trigger {R : Type} (db : database) (new : R)
    (fired : result database) : result R * database :=
  match fired with
  | Ok db2 => (Ok new, db2)
  | Err e => (Err e, db)
  end.

(** upsert with [onConflict: 'spot_id,user_id'] *)
Definition upsertAttendance (fault : option error)
    (spot_id user_id : uuid) (attended : bool) : M attendance_row :=
  request fault
    (fun db =>
       match find (att_is spot_id user_id) (attendance db) with
       | Some old =>
           let new := mk_attendance (att_id old) spot_id user_id attended in
           let db1 :=
             set_attendance
               (map (fun r => if att_is spot_id user_id r
                              then mk_attendance (att_id r) spot_id user_id attended
                              else r)
                    (attendance db))
               db in
           with_trigger db new (trigger_update_mission_count (Some old) (Some new) db1)
       | None =>
           let (id, db0) := gen_random_uuid db in
           let new := mk_attendance id spot_id user_id attended in
           let db1 := set_attendance (attendance db0 ++ [new]) db0 in
           with_trigger db new (trigger_update_mission_count None (Some new) db1)
       end).

End attendanceService.
Import attendanceService.

(** The profile's counter as a query sees it. *)
Definition mission_count (user_id : uuid) (db : database) : option Z :=
  match find (fun p => Nat.eqb (prof_id p) user_id) (profiles db) with
  | Some p => prof_mission_count p
  | None => None
  end.

(** ** Drink suggestions and votes *)

Record Drink := mk_Drink {
  Drink_id : uuid;
  Drink_spot_id : uuid;
  Drink_votes : Z;
  Drink_suggested_by : uuid;
  Drink_voted_by : list uuid
}.

(** JavaScript's [x || 0] and [x || []] on a nullable column. *)
Definition or_zero (x : option Z) : Z :=
  match x with
  | Some v => v
  | None => 0
  end.
Definition or_empty (x : option (list uuid)) : list uuid :=
  match x with
  | Some l => l
  | None => []
  end.

(** [.single()]: exactly one row, or an error. *)
Definition single {R : Type} (rows : list R) : result R :=
  match rows with
  | [r] => Ok r
  | _ => Err not_single_row
  end.

Module drinkService.

Definition toDrink (data : drink_row) : Drink :=
  mk_Drink (drink_id data) (drink_spot_id data) (or_zero (drink_votes data))
           (drink_suggested_by data) (or_empty (drink_voted_by data)).

Definition createDrink (fault : option error)
    (spot_id suggested_by : uuid) : M Drink :=
  request fault
    (fun db =>
       let (id, db0) := gen_random_uuid db in
       let new := mk_drink id spot_id (Some 0) suggested_by (Some []) in
       (Ok (toDrink new), set_drinks (drinks db0 ++ [new]) db0)).

(** [votes] is an INTEGER column: the update of a count that does not fit
    fails. *)
Definition voteForDrink (fetch_fault update_fault : option error)
    (drinkId userId : uuid) : M Drink :=
  drink <- request fetch_fault
             (fun db => (single (filter (fun d => Nat.eqb (drink_id d) drinkId)
                                        (drinks db)), db)) ;;
  let votedBy := or_empty (drink_voted_by drink) in
  let hasVoted := existsb (Nat.eqb userId) votedBy in
  let updatedVotedBy :=
    if hasVoted
    then filter (fun id => negb (Nat.eqb id userId)) votedBy
    else votedBy ++ [userId] in
  let votes :=
    if hasVoted
    then Z.max 0 (or_zero (drink_votes drink) - 1)
    else or_zero (drink_votes drink) + 1 in
  request update_fault
    (fun db =>
       if negb (int4_range votes) then (Err numeric_value_out_of_range, db)
       else
         let db1 :=
           set_drinks
             (map (fun d => if Nat.eqb (drink_id d) drinkId
                            then mk_drink (drink_id d) (drink_spot_id d) (Some votes)
                                          (drink_suggested_by d) (Some updatedVotedBy)
                            else d)
                  (drinks db))
             db in
         match single (filter (fun d => Nat.eqb (drink_id d) drinkId) (drinks db1)) with
         | Ok data => (Ok (toDrink data), db1)
         | Err e => (Err e, db)
         end).

End drinkService.
Import drinkService.

(** The stored drink with a given id, as the services map it. *)
Definition stored_drink (drinkId : uuid) (db : database) : result Drink :=
  match single (filter (fun d => Nat.eqb (drink_id d) drinkId) (drinks db)) with
  | Ok data => Ok (toDrink data)
  | Err e => Err e
  end.

(** ** Sample states *)

(** User 2 has a payment row for spot 1 (row 0) and has ordered two units
    of brand 3 at 100 (line 1). *)
Definition one_line_db : database :=
  run (upsertPayment None 1%nat 2%nat NOT_PAID ;;;
       upsertSelection None 0%nat 1%nat 2%nat 3%nat 2 100)
      empty_database.

(** User 7 is recorded as a voter of drink 0 while the counter is 0. *)
Definition floor_db : database :=
  set_drinks [mk_drink 0%nat 1%nat (Some 0) 9%nat (Some [7%nat])] empty_database.

(** User 2 confirmed spot 1 (invitation 0, payment 1), the admin marked
    the payment paid, and the user then declined. *)
Definition paid_then_declined_db : database :=
  run (upsertInvitation None 1%nat 2%nat CONFIRMED ;;;
       upsertPayment None 1%nat 2%nat NOT_PAID ;;;
       updatePaymentStatus None 1%nat PAID ;;;
       updateInvitationStatus None 0%nat DECLINED)
      empty_database.

(** ** Named statements *)

(** Two [voteForDrink] calls by the same user both succeed and bring the
    stored drink back to its votes count and to the same set of voters. *)
Definition vote_twice_restores (drinkId userId : uuid) (db : database) : Prop :=
  forall d, stored_drink drinkId db = Ok d ->
    exists d2 db2,
      (voteForDrink None None drinkId userId ;;;
       voteForDrink None None drinkId userId) db = (Ok d2, db2)
      /\ stored_drink drinkId db2 = Ok d2
      /\ Drink_votes d2 = Drink_votes d
      /\ forall x, In x (Drink_voted_by d2) <-> In x (Drink_voted_by d).

(** The counter agrees with the voter list, which has no repetition. *)
Definition votes_match (d : Drink) : Prop :=
  NoDup (Drink_voted_by d)
  /\ Drink_votes d = Z.of_nat (length (Drink_voted_by d)).

(** The RSVP scenario: confirm, bootstrap the payment, then order two
    units at 100. *)
Definition after_confirmation (spot user : uuid) (db : database) : database :=
  run (upsertInvitation None spot user CONFIRMED ;;; upsertPayment None spot user NOT_PAID) db.

Definition after_order (spot user brandX : uuid) (db : database) : database :=
  run (upsertSelection None 0%nat spot user brandX 2 100) (after_confirmation spot user db).

Definition scenario_as_stated (spot user brandX : uuid) (db : database) : Prop :=
  (exists p, payments_of spot user (after_confirmation spot user db) = [p]
             /\ Payment_status p = NOT_PAID
             /\ Payment_drink_total_amount p = Some 0)
  /\ (exists p, payments_of spot user (after_order spot user brandX db) = [p]
                /\ Payment_drink_total_amount p = Some 200).

(** The stored payment rows of one pair. *)
Definition payment_rows (spot_id user_id : uuid) (db : database) : list payment_row :=
  filter (pay_is spot_id user_id) (payments db).

(** ** The rest of the selection service and the drinks page *)

(** All lines of a spot, newest first (the admin view). *)
Definition getAllSelections (spotId : uuid) (db : database) : list selection_row :=
  rev (filter (fun r => Nat.eqb (sel_spot_id r) spotId) (user_drink_selections db)).

(** [DELETE FROM user_drink_selections WHERE spot_id = ... AND user_id = ...];
    the row trigger fires once per deleted row, with a null NEW. *)
Definition delete_user_drink_selections_of (spot_id user_id : uuid) : M unit :=
  fun db =>
    let mine := fun r => Nat.eqb (sel_spot_id r) spot_id && Nat.eqb (sel_user_id r) user_id in
    let deleted := filter mine (user_drink_selections db) in
    let db1 :=
      set_user_drink_selections
        (filter (fun r => negb (mine r)) (user_drink_selections db)) db in
    (Ok tt,
     fold_left (fun d old => update_payment_drink_total (Some old) None d) deleted db1).

Definition deleteAllUserSelections (fault : option error) (spotId userId : uuid) : M unit :=
  request fault (delete_user_drink_selections_of spotId userId).

(** The cart figures of the drinks pages:
    [userSelections.reduce((sum, sel) => sum + sel.total_price, 0)] and
    [userSelections.reduce((sum, sel) => sum + sel.quantity, 0)], in the
    client's double arithmetic. *)
Definition totalCartAmount (userSelections : list selection_row) : number :=
  fold_left (fun sum sel => js_add sum (num (sel_total_price sel))) userSelections (num 0).

Definition cartItemCount (userSelections : list selection_row) : number :=
  fold_left (fun sum sel => js_add sum (num (sel_quantity sel))) userSelections (num 0).

(** A catalog brand as the cart uses it. *)
Record DrinkBrand := mk_DrinkBrand {
  DrinkBrand_id : uuid;
  DrinkBrand_base_price : Z
}.

(** The surroundings of a drinks-page handler: the profile, the spot,
    what the page's [getUserIdAsUUID] gives (it only reads), the fate of
    the request and the client's clock. *)
Record cart_env := mk_cart_env {
  cart_profile : bool;
  cart_spot : option uuid;
  cart_getUserIdAsUUID : result uuid;
  cart_fault : option error;
  cart_now : timestamp
}.

Definition handleAddToCart (env : cart_env) (brand : DrinkBrand) (quantity : Z) : M outcome :=
  match cart_spot env, cart_profile env with
  | Some spot, true =>
      try_catch
        (userId <- (fun db => (cart_getUserIdAsUUID env, db)) ;;
         _ <- upsertSelection (cart_fault env) (cart_now env) spot userId
                (DrinkBrand_id brand) quantity (DrinkBrand_base_price brand) ;;
         fetchData ;;;
         ret done)
        (fun error => ret alerted)
  | _, _ => ret done
  end.

(** [handleRemoveSelection]; [confirmed] is the answer to the confirm box. *)
Definition handleRemoveSelection (confirmed : bool) (fault : option error)
    (selectionId : uuid) : M outcome :=
  if negb confirmed then ret done
  else
    try_catch
      (deleteSelection fault selectionId ;;;
       fetchData ;;;
       ret done)
      (fun error => ret alerted).

(** [handleVote] of the drinks page. *)
Definition handleVote (env : cart_env) (fetch_fault : option error)
    (drinkId : option uuid) : M outcome :=
  match cart_profile env, drinkId with
  | true, Some drinkId =>
      try_catch
        (userId <- (fun db => (cart_getUserIdAsUUID env, db)) ;;
         _ <- voteForDrink fetch_fault (cart_fault env) drinkId userId ;;
         fetchData ;;;
         ret done)
        (fun error => ret alerted)
  | _, _ => ret done
  end.

(** [drinkService.deleteDrink] *)
Definition deleteDrink (fault : option error) (drinkId : uuid) : M unit :=
  request fault
    (fun db =>
       (Ok tt,
        set_drinks (filter (fun d => negb (Nat.eqb (drink_id d) drinkId)) (drinks db)) db)).

(** Every stored line has a quantity between 1 and the largest INTEGER,
    and its [total_price] is the client's product of quantity and unit
    price. *)
Definition lines_priced (db : database) : Prop :=
  forall r, In r (user_drink_selections db) ->
            0 < sel_quantity r <= INT4_MAX
            /\ num (sel_total_price r) = js_mul (num (sel_quantity r)) (num (sel_unit_price r)).

(** The primary key of profiles as a property of the state. *)
Definition profiles_unique (db : database) : Prop :=
  NoDup (map prof_id (profiles db)).

(** ** The payment page *)

(** The page's surroundings: what [getUpcomingSpot] gives, the fate of the
    two reads and of the final read, the fate of the bootstrap upsert for
    each user, and whether the profile is an admin. *)
Record payment_page_env := mk_payment_page_env {
  pp_getUpcomingSpot : result (option uuid);
  pp_getInvitations_fault : option error;
  pp_getPayments_fault : option error;
  pp_upsert_fault : uuid -> option error;
  pp_refetch_fault : option error;
  pp_isAdmin : bool
}.

(** The bootstrap requests of [fetchData], each with its own [.catch];
    they are issued together and address one (spot, user) key each, and
    run here in the order of the invitation list. *)
Fixpoint bootstrap_payments (fault : uuid -> option error) (spot : uuid)
    (users : list uuid) : M unit :=
  match users with
  | [] => ret tt
  | u :: rest =>
      try_catch (_ <- upsertPayment (fault u) spot u NOT_PAID ;; ret tt)
                (fun err => ret tt) ;;;
      bootstrap_payments fault spot rest
  end.

(** [fetchData] of the payment page; the value is the new [payments]
    state of the component, [prev] being the old one. *)
Definition PaymentPage_fetchData (env : payment_page_env) (prev : list Payment)
  : M (list Payment) :=
  try_catch
    (spotData <- (fun db => (pp_getUpcomingSpot env, db)) ;;
     match spotData with
     | Some spot =>
         invitations <- request (pp_getInvitations_fault env)
                          (fun db => (Ok (getInvitations spot db), db)) ;;
         let confirmedInvitations :=
           filter (fun inv => InvitationStatus_eqb (Invitation_status inv) CONFIRMED)
                  invitations in
         existingPayments <- request (pp_getPayments_fault env)
                               (fun db => (Ok (getPayments spot db), db)) ;;
         let existingPaymentUserIds := map Payment_user_id existingPayments in
         bootstrap_payments (pp_upsert_fault env) spot
           (map Invitation_user_id
              (filter (fun inv => negb (existsb (Nat.eqb (Invitation_user_id inv))
                                                existingPaymentUserIds))
                      confirmedInvitations)) ;;;
         request (pp_refetch_fault env) (fun db => (Ok (getPayments spot db), db))
     | None => ret []
     end)
    (fun error => ret prev).

Definition handleMarkPaid (env : payment_page_env) (prev : list Payment)
    (fault : option error) (paymentId : uuid) : M outcome :=
  if negb (pp_isAdmin env) then ret done
  else
    try_catch
      (updatePaymentStatus fault paymentId PAID ;;;
       _ <- PaymentPage_fetchData env prev ;;
       ret done)
      (fun error => ret alerted).

Definition handleMarkUnpaid (env : payment_page_env) (prev : list Payment)
    (fault : option error) (paymentId : uuid) : M outcome :=
  if negb (pp_isAdmin env) then ret done
  else
    try_catch
      (updatePaymentStatus fault paymentId NOT_PAID ;;;
       _ <- PaymentPage_fetchData env prev ;;
       ret done)
      (fun error => ret alerted).

(** ** The past-spots page *)

(** [handleAttendance]; [profile] is the session profile's id, if any. *)
Definition handleAttendance (profile : option uuid) (fault : option error)
    (spotId : uuid) (attended : bool) : M outcome :=
  match profile with
  | None => ret done
  | Some profile_id =>
      try_catch
        (_ <- upsertAttendance fault spotId profile_id attended ;;
         ret done)
        (fun err => ret alerted)
  end.

(** UNIQUE(spot_id, user_id) on attendance and on invitations. *)
Definition att_key (r : attendance_row) : uuid * uuid := (att_spot_id r, att_user_id r).
Definition attendance_unique (db : database) : Prop :=
  NoDup (map att_key (attendance db)).
Definition inv_key (r : invitation_row) : uuid * uuid := (inv_spot_id r, inv_user_id r).
Definition invitations_unique (db : database) : Prop :=
  NoDup (map inv_key (invitations db)).

(** A computation keeps a property of the database, whatever it returns. *)
Definition preserves {A : Type} (P : database -> Prop) (m : M A) : Prop :=
  forall db, P db -> P (snd (m db)).

(** Both RSVP tables respect their unique (spot_id, user_id) key. *)
Definition rsvp_keys_unique (db : database) : Prop :=
  invitations_unique db /\ payments_unique db.

(** A payment row as the bootstrap writes it. *)
Definition bootstrapped (spot : uuid) (r : payment_row) : Prop :=
  pay_spot_id r = spot /\ pay_status r = NOT_PAID /\ pay_drink_total_amount r = 0.

(** ** Notifications

    The notifications table and the context that mirrors it in component
    state.  The table is kept apart from the other tables: no operation
    above reads or writes it. *)

Record notification_row := mk_notification {
  notif_id : uuid;
  notif_user_id : uuid;
  notif_title : String.string;
  notif_message : String.string;
  notif_read : bool
}.

Record notification_store := mk_notification_store {
  notifications : list notification_row;
  notifications_next_uuid : uuid
}.

(** The object the service hands out: id, title, message, timestamp, read. *)
Record Notification := mk_Notification {
  Notification_id : uuid;
  Notification_title : String.string;
  Notification_message : String.string;
  Notification_read : bool
}.

Module notificationService.

Definition toNotification (notif : notification_row) : Notification :=
  mk_Notification (notif_id notif) (notif_title notif) (notif_message notif)
                  (notif_read notif).

(** A user's notifications, newest first. *)
Definition getNotifications (userId : uuid) (st : notification_store) : list Notification :=
  map toNotification
      (rev (filter (fun n => Nat.eqb (notif_user_id n) userId) (notifications st))).

Definition createNotification (fault : option error)
    (user_id : uuid) (title message : String.string) (st : notification_store)
  : result Notification * notification_store :=
  match fault with
  | Some e => (Err e, st)
  | None =>
      let new := mk_notification (notifications_next_uuid st) user_id title message false in
      (Ok (toNotification new),
       mk_notification_store (notifications st ++ [new]) (S (notifications_next_uuid st)))
  end.

(** The bulk insert of one row per listed user. *)
Fixpoint insert_notifications (users : list uuid) (title message : String.string)
    (st : notification_store) : notification_store :=
  match users with
  | [] => st
  | u :: rest =>
      insert_notifications rest title message
        (mk_notification_store
           (notifications st
            ++ [mk_notification (notifications_next_uuid st) u title message false])
           (S (notifications_next_uuid st)))
  end.

(** [createNotificationForAllUsers]: reads the profile ids, inserts one
    row per profile; every error is logged and swallowed. *)
Definition createNotificationForAllUsers (users_fault insert_fault : option error)
    (title message : String.string) (db : database) (st : notification_store)
  : notification_store :=
  match users_fault with
  | Some usersError => st
  | None =>
      let allUsers := map prof_id (profiles db) in
      match allUsers with
      | [] => st
      | _ =>
          match insert_fault with
          | Some insertError => st
          | None => insert_notifications allUsers title message st
          end
      end
  end.

(** [update({ read: true }).eq('id', notificationId)] *)
Definition markAsRead (fault : option error) (notificationId : uuid)
    (st : notification_store) : result unit * notification_store :=
  match fault with
  | Some e => (Err e, st)
  | None =>
      (Ok tt,
       mk_notification_store
         (map (fun n => if Nat.eqb (notif_id n) notificationId
                        then mk_notification (notif_id n) (notif_user_id n) (notif_title n)
                                             (notif_message n) true
                        else n)
              (notifications st))
         (notifications_next_uuid st))
  end.

(** [update({ read: true }).eq('user_id', userId).eq('read', false)] *)
Definition markAllAsRead (fault : option error) (userId : uuid)
    (st : notification_store) : result unit * notification_store :=
  match fault with
  | Some e => (Err e, st)
  | None =>
      (Ok tt,
       mk_notification_store
         (map (fun n => if Nat.eqb (notif_user_id n) userId && Bool.eqb (notif_read n) false
                        then mk_notification (notif_id n) (notif_user_id n) (notif_title n)
                                             (notif_message n) true
                        else n)
              (notifications st))
         (notifications_next_uuid st))
  end.

End notificationService.

(** The notifications context: the component's list and its operations.
    Each operation updates the list in its [try] and again, the same way,
    in its [catch]. *)
Module NotificationsContext.

Definition read_locally (n : Notification) : Notification :=
  mk_Notification (Notification_id n) (Notification_title n) (Notification_message n) true.

Definition unreadCount (local : list Notification) : nat :=
  length (filter (fun n => negb (Notification_read n)) local).

Definition markAsRead (fault : option error) (id : uuid)
    (st : notification_store) (local : list Notification)
  : notification_store * list Notification :=
  match notificationService.markAsRead fault id st with
  | (Ok _, st') =>
      (st', map (fun n => if Nat.eqb (Notification_id n) id then read_locally n else n) local)
  | (Err error, st') =>
      (st', map (fun n => if Nat.eqb (Notification_id n) id then read_locally n else n) local)
  end.

(** [session] is the resolved user id, absent when nobody is logged in. *)
Definition markAllAsRead (fault : option error) (session : option uuid)
    (st : notification_store) (local : list Notification)
  : notification_store * list Notification :=
  match session with
  | None => (st, map read_locally local)
  | Some userId =>
      match notificationService.markAllAsRead fault userId st with
      | (Ok _, st') => (st', map read_locally local)
      | (Err error, st') => (st', map read_locally local)
      end
  end.

End NotificationsContext.

(** The sum of the magnitudes of the line totals of a cart: while it stays
    within [2 ^ 53], the page's double additions are exact. *)
Definition cart_magnitude (userSelections : list selection_row) : Z :=
  fold_right Z.add 0 (map (fun sel => Z.abs (sel_total_price sel)) userSelections).

(** A line and a database with the client's [updated_at] stamps blanked. *)
Definition without_updated_at (r : selection_row) : selection_row :=
  mk_selection (sel_id r) (sel_spot_id r) (sel_user_id r) (sel_drink_brand_id r)
               (sel_quantity r) (sel_unit_price r) (sel_total_price r) 0%nat.

Definition forget_updated_at (db : database) : database :=
  set_user_drink_selections (map without_updated_at (user_drink_selections db)) db.

(** Two [upsertAttendance(spot, user, true)] calls in a row, for a user
    whose counter is [N] and who has no attendance row for the spot,
    leave the counter at [N + 1]. *)
Definition attendance_twice_counts_once (spot_id user_id : uuid) (N : Z)
    (db : database) : Prop :=
  getUserAttendance spot_id user_id db = None ->
  mission_count user_id db = Some N ->
  mission_count user_id
    (run (upsertAttendance None spot_id user_id true ;;;
          upsertAttendance None spot_id user_id true) db)
  = Some (N + 1).

(** [handleUpdateQuantity] on a stored line: with [newQuantity <= 0] the
    user's selections for the spot no longer include the line; with
    [newQuantity > 0] the line's key holds one row, with the new quantity
    and the line's unit price. *)
Definition quantity_update_deletes_or_upserts (now : timestamp)
    (selection : selection_row) (newQuantity : Z) (db : database) : Prop :=
  In selection (user_drink_selections db) ->
  let s := sel_spot_id selection in
  let u := sel_user_id selection in
  let b := sel_drink_brand_id selection in
  let db' := run (handleUpdateQuantity None now selection newQuantity) db in
  (newQuantity <= 0 -> ~ In selection (getUserSelections s u db'))
  /\ (0 < newQuantity ->
      exists r, filter (line_is s u b) (user_drink_selections db') = [r]
                /\ sel_quantity r = newQuantity
                /\ sel_unit_price r = sel_unit_price selection).

(** * Properties *)

(** ** Lists under a unique key *)

Section UniqueKey.

Context {R K : Type}.
Variables (key : R -> K) (hit : R -> bool) (k : K).
Hypothesis hit_key : forall r, hit r = true <-> key r = k.
Variable upd : R -> R.
Hypothesis upd_key : forall r, hit r = true -> key (upd r) = k.

Local Abbreviation replace_hits := (map (fun r => if hit r then upd r else r)).

Lemma find_none_filter (l : list R) :
  find hit l = None -> filter hit l = [].
Proof.
  induction l as [|a l IH]; simpl; [reflexivity|].
  destruct (hit a); [discriminate | exact IH].
Qed.

Lemma filter_snoc_fresh (l : list R) (new : R) :
  find hit l = None -> hit new = true -> filter hit (l ++ [new]) = [new].
Proof.
  intros Hnone Hnew. rewrite filter_app, (find_none_filter l Hnone).
  simpl. now rewrite Hnew.
Qed.

Lemma map_key_replace_hits (l : list R) :
  map key (replace_hits l) = map key l.
Proof.
  induction l as [|a l IH]; simpl; [reflexivity|].
  rewrite IH. f_equal. destruct (hit a) eqn:Ha; [|reflexivity].
  rewrite (upd_key a Ha). symmetry. now apply hit_key.
Qed.

Lemma no_hit_outside (l : list R) :
  ~ In k (map key l) -> filter hit (replace_hits l) = [].
Proof.
  induction l as [|a l IH]; simpl; intros Hk; [reflexivity|].
  destruct (hit a) eqn:Ha.
  - exfalso. apply Hk. left. now apply hit_key.
  - rewrite Ha. apply IH. intros Hin. apply Hk. now right.
Qed.

Lemma filter_replace_hits (l : list R) (old : R) :
  NoDup (map key l) -> find hit l = Some old ->
  filter hit (replace_hits l) = [upd old].
Proof.
  induction l as [|a l IH]; simpl; intros Hnd Hfind; [discriminate|].
  inversion Hnd as [|x xs Hnotin Hnd']; subst.
  destruct (hit a) eqn:Ha.
  - injection Hfind as <-.
    assert (Hu : hit (upd a) = true) by (apply hit_key; now apply upd_key).
    rewrite Hu. f_equal. apply no_hit_outside.
    assert (Hk : key a = k) by now apply hit_key.
    now rewrite <- Hk.
  - rewrite Ha. now apply IH.
Qed.

Lemma NoDup_snoc_fresh (l : list R) (new : R) :
  NoDup (map key l) -> find hit l = None -> key new = k ->
  NoDup (map key (l ++ [new])).
Proof.
  intros Hnd Hnone Hnew. rewrite map_app. simpl.
  apply NoDup_app; [exact Hnd | repeat constructor; intros [] | ].
  intros x Hx [<-|[]]. rewrite Hnew in Hx.
  apply in_map_iff in Hx as (r & Hr & Hin).
  apply hit_key in Hr.
  pose proof (find_none _ _ Hnone _ Hin) as Hf. congruence.
Qed.

End UniqueKey.

Lemma find_unique {R K : Type} (key : R -> K) (hit : R -> bool) (l : list R) (r : R) :
  (forall x y, hit x = true -> hit y = true -> key x = key y) ->
  NoDup (map key l) -> In r l -> hit r = true -> find hit l = Some r.
Proof.
  intros Hsame. induction l as [|a l IH]; simpl; intros Hnd Hin Hr; [contradiction|].
  inversion Hnd as [|x xs Hnotin Hnd']; subst.
  destruct (hit a) eqn:Ha.
  - destruct Hin as [->|Hin]; [reflexivity|].
    exfalso. apply Hnotin. rewrite (Hsame a r Ha Hr). now apply in_map.
  - destruct Hin as [->|Hin]; [congruence|]. now apply IH.
Qed.

Lemma NoDup_key_inj {R K : Type} (key : R -> K) (l : list R) (x y : R) :
  NoDup (map key l) -> In x l -> In y l -> key x = key y -> x = y.
Proof.
  induction l as [|a l IH]; simpl; intros Hnd Hx Hy Hk; [contradiction|].
  inversion Hnd as [|z zs Hnotin Hnd']; subst.
  destruct Hx as [->|Hx], Hy as [->|Hy]; try reflexivity.
  - exfalso. apply Hnotin. rewrite Hk. now apply in_map.
  - exfalso. apply Hnotin. rewrite <- Hk. now apply in_map.
  - now apply IH.
Qed.

(** ** Numbers *)

Lemma round53_exact (z : Z) : Z.abs z <= 2 ^ 53 -> round53 z = z.
Proof.
  intros Hz. unfold round53. apply Z.leb_le in Hz. now rewrite Hz.
Qed.

Lemma js_round_exact (z : Z) : Z.abs z <= 2 ^ 53 -> js_round z = num z.
Proof.
  intros Hz. unfold js_round. rewrite (round53_exact z Hz).
  assert (H : 2 ^ 53 < 2 ^ 1024) by (apply Z.pow_lt_mono_r; lia).
  assert (Hlt : Z.abs z < 2 ^ 1024) by (eapply Z.le_lt_trans; eassumption).
  apply Z.ltb_lt in Hlt. now rewrite Hlt.
Qed.


Lemma js_add_exact (a b : Z) :
  Z.abs (a + b) <= 2 ^ 53 -> js_add (num a) (num b) = num (a + b).
Proof. exact (js_round_exact (a + b)). Qed.

(** Past [2 ^ 53] a product is rounded to the nearest double, ties to
    even; past the largest double it is an infinity. *)
Example js_mul_rounds :
  js_mul (num 3) (num 3002399751580331) = num 9007199254740992
  /\ js_mul (num 3) (num 3002399751580333) = num 9007199254741000
  /\ js_mul (num (2 ^ 1023)) (num 2) = not_finite.
Proof. repeat split; vm_compute; reflexivity. Qed.

Lemma int4_range_iff (z : Z) : int4_range z = true <-> INT4_MIN <= z <= INT4_MAX.
Proof. unfold int4_range. rewrite andb_true_iff, !Z.leb_le. tauto. Qed.

Lemma int4_range_positive (z : Z) : 0 < z <= INT4_MAX -> int4_range z = true.
Proof. intros Hz. apply int4_range_iff. unfold INT4_MIN. lia. Qed.

(** ** SQL logic on known values *)

Lemma holds_both (a b c d : uuid) :
  Sql.holds (Sql.and3 (Sql.eq_uuid (Some a) (Some b)) (Sql.eq_uuid (Some c) (Some d)))
  = Nat.eqb a b && Nat.eqb c d.
Proof. simpl. now destruct (Nat.eqb a b), (Nat.eqb c d). Qed.

Lemma coalesce_sum (xs : list Z) :
  Sql.coalesce (Sql.sum xs) 0 = fold_right Z.add 0 xs.
Proof. now destruct xs. Qed.

Lemma of_new_pair_some (new : selection_row) (s u : uuid) :
  of_new_pair (Some new) s u
  = Nat.eqb s (sel_spot_id new) && Nat.eqb u (sel_user_id new).
Proof. unfold of_new_pair. simpl Sql.field. apply holds_both. Qed.

Lemma of_new_pair_null (s u : uuid) : of_new_pair None s u = false.
Proof. reflexivity. Qed.

(** ** Selections *)

Lemma line_is_key (s u b : uuid) (r : selection_row) :
  line_is s u b r = true <-> sel_key r = (s, u, b).
Proof.
  unfold line_is, sel_key. rewrite !andb_true_iff, !Nat.eqb_eq.
  split; [intros [[-> ->] ->]; reflexivity | intros [= -> -> ->]; auto].
Qed.

Lemma pair_is_key {R : Type} (sp us : R -> uuid) (s u : uuid) (r : R) :
  pair_is sp us s u r = true <-> (sp r, us r) = (s, u).
Proof.
  unfold pair_is. rewrite andb_true_iff, !Nat.eqb_eq.
  split; [intros [-> ->]; reflexivity | intros [= -> ->]; auto].
Qed.

Lemma pair_is_refl (s u id : uuid) (a : bool) :
  att_is s u (mk_attendance id s u a) = true.
Proof. unfold att_is, pair_is. simpl. now rewrite !Nat.eqb_refl. Qed.

Lemma update_payment_drink_total_selections (OLD NEW : option selection_row) (db : database) :
  user_drink_selections (update_payment_drink_total OLD NEW db)
  = user_drink_selections db.
Proof. reflexivity. Qed.

(** With a null NEW the trigger function selects no payment row. *)
Lemma update_payment_drink_total_null (OLD : option selection_row) (db : database) :
  update_payment_drink_total OLD None db = db.
Proof.
  unfold update_payment_drink_total, set_payments. simpl.
  rewrite map_id. now destruct db.
Qed.

(** After the trigger has run for a written row, the payment rows of the
    row's pair carry the sum over the pair's lines. *)
Lemma update_payment_drink_total_in_sync
    (OLD : option selection_row) (new : selection_row) (db : database) :
  payment_in_sync (sel_spot_id new) (sel_user_id new)
    (update_payment_drink_total OLD (Some new) db).
Proof.
  intros p Hin Hs Hu. unfold update_payment_drink_total in Hin. simpl in Hin.
  apply in_map_iff in Hin as (p0 & Hp & _).
  rewrite of_new_pair_some in Hp.
  destruct (Nat.eqb (pay_spot_id p0) (sel_spot_id new)
            && Nat.eqb (pay_user_id p0) (sel_user_id new)) eqn:Hhit.
  - subst p. simpl. rewrite coalesce_sum. unfold lines_total.
    rewrite update_payment_drink_total_selections.
    do 2 f_equal. apply filter_ext. intros r. now rewrite of_new_pair_some.
  - subst p0. rewrite Hs, Hu, !Nat.eqb_refl in Hhit. discriminate.
Qed.

(** One successful [upsertSelection]: the key holds exactly the written
    row, the table stays unique, and the pair's payment rows are in sync. *)
Lemma upsertSelection_step (now : timestamp) (s u b : uuid) (q up t : Z) (db : database) :
  selections_unique db -> 0 < q <= INT4_MAX -> js_mul (num q) (num up) = num t ->
  exists r db',
    upsertSelection None now s u b q up db = (Ok r, db')
    /\ selections_unique db'
    /\ r = mk_selection (sel_id r) s u b q up t now
    /\ filter (line_is s u b) (user_drink_selections db') = [r]
    /\ (forall old, find (line_is s u b) (user_drink_selections db) = Some old ->
                    sel_id r = sel_id old)
    /\ payment_in_sync s u db'.
Proof.
  intros Huniq Hq Ht.
  unfold upsertSelection, request, upsert_user_drink_selections.
  rewrite Ht, (int4_range_positive q Hq). cbn [negb].
  destruct (q <=? 0) eqn:Hle; [apply Z.leb_le in Hle; lia|].
  set (upd := fun r : selection_row => mk_selection (sel_id r) s u b q up t now).
  assert (Hupd : forall r, line_is s u b r = true -> sel_key (upd r) = (s, u, b))
    by reflexivity.
  destruct (find (line_is s u b) (user_drink_selections db)) as [old|] eqn:Hfind.
  - eexists; eexists. split; [reflexivity|].
    rewrite update_payment_drink_total_selections.
    unfold selections_unique. rewrite update_payment_drink_total_selections. simpl.
    repeat split.
    + rewrite (map_key_replace_hits sel_key (line_is s u b) (s, u, b)
                 (line_is_key s u b) upd Hupd). exact Huniq.
    + exact (filter_replace_hits sel_key (line_is s u b) (s, u, b)
               (line_is_key s u b) upd Hupd _ old Huniq Hfind).
    + intros ? [= <-]. reflexivity.
    + exact (update_payment_drink_total_in_sync (Some old) (upd old) _).
  - eexists; eexists. split; [reflexivity|].
    unfold selections_unique. rewrite update_payment_drink_total_selections. simpl.
    repeat split.
    + apply (NoDup_snoc_fresh sel_key (line_is s u b) (s, u, b) (line_is_key s u b));
        [exact Huniq | exact Hfind | reflexivity].
    + apply (filter_snoc_fresh (line_is s u b)); [exact Hfind|].
      now apply line_is_key.
    + discriminate.
    + exact (update_payment_drink_total_in_sync None
               (mk_selection (next_uuid db) s u b q up t now) _).
Qed.

Lemma filter_single_find {R : Type} (hit : R -> bool) (l : list R) (r : R) :
  filter hit l = [r] -> find hit l = Some r.
Proof.
  induction l as [|a l IH]; simpl; [discriminate|].
  destruct (hit a); [now intros [= ->] | exact IH].
Qed.

(** A rejected upsert (quantity not between 1 and the largest INTEGER)
    changes nothing. *)
Lemma upsertSelection_rejected (fault : option error) (now : timestamp)
    (s u b : uuid) (q up : Z) (db : database) :
  ~ 0 < q <= INT4_MAX ->
  exists e, upsertSelection fault now s u b q up db = (Err e, db).
Proof.
  intros Hq. unfold upsertSelection, request.
  destruct fault as [e|]; [now exists e|].
  unfold upsert_user_drink_selections.
  destruct (int4_range q) eqn:Hr; cbn [negb]; [|now eexists].
  destruct (js_mul (num q) (num up)); [|now eexists].
  apply int4_range_iff in Hr.
  destruct (q <=? 0) eqn:Hle; [now eexists|].
  apply Z.leb_gt in Hle. lia.
Qed.

(** [deleteSelection] removes the rows with the id and, the trigger
    function seeing a null NEW, leaves every payment row as it was. *)
Lemma deleteSelection_run (fault : option error) (id : uuid) (db : database) :
  deleteSelection fault id db
  = match fault with
    | Some e => (Err e, db)
    | None =>
        (Ok tt,
         set_user_drink_selections
           (filter (fun r => negb (Nat.eqb (sel_id r) id)) (user_drink_selections db)) db)
    end.
Proof.
  destruct fault; [reflexivity|].
  unfold deleteSelection, request, delete_user_drink_selections. f_equal.
  generalize (filter (fun r => Nat.eqb (sel_id r) id) (user_drink_selections db)).
  intros deleted.
  generalize (set_user_drink_selections
                (filter (fun r => negb (Nat.eqb (sel_id r) id)) (user_drink_selections db)) db).
  induction deleted as [|a l IH]; intros d; simpl; [reflexivity|].
  rewrite update_payment_drink_total_null. apply IH.
Qed.

Lemma deleteSelection_payments_unchanged (fault : option error) (id : uuid) (db : database) :
  payments (run (deleteSelection fault id) db) = payments db.
Proof. unfold run. rewrite deleteSelection_run. now destruct fault. Qed.

(** *** Claims on selections *)

(** C1, delete path.  In the state reached by confirming and ordering one
    line (payment total 200, in sync), deleting that line through
    [deleteSelection] leaves user 2 without lines for spot 1, so the sum
    of the remaining lines is 0, while the payment row still carries 200:
    the trigger function compares with the null NEW of a DELETE and
    updates no payment row. *)
Theorem deleteSelection_keeps_stale_drink_total :
  payment_in_sync 1%nat 2%nat one_line_db
  /\ map sel_id (getUserSelections 1%nat 2%nat one_line_db) = [1%nat]
  /\ let db' := run (deleteSelection None 1%nat) one_line_db in
     getUserSelections 1%nat 2%nat db' = []
     /\ lines_total 1%nat 2%nat db' = 0
     /\ map pay_drink_total_amount (payments db') = [200]
     /\ ~ payment_in_sync 1%nat 2%nat db'.
Proof.
  split; [|split; [reflexivity|]].
  - intros p [<-|[]] _ _. reflexivity.
  - cbv zeta. repeat split; try reflexivity.
    intros Hsync.
    specialize (Hsync (mk_payment 0%nat 1%nat 2%nat NOT_PAID 200)
                      (or_introl eq_refl) eq_refl eq_refl).
    vm_compute in Hsync. discriminate.
Qed.


(** It fails as well past the largest INTEGER, where both upserts are
    rejected, and where the product is not a double: 3 times
    3002399751580331 is stored as 9007199254740992. *)
Lemma upsert_twice_out_of_range_no_row :
  ~ upsert_twice_one_row 0%nat 0%nat 1%nat 2%nat 3%nat 2147483648 100 empty_database.
Proof. intros (r & Hr & _). vm_compute in Hr. discriminate. Qed.

Lemma upsert_twice_rounded_total :
  ~ upsert_twice_one_row 0%nat 0%nat 1%nat 2%nat 3%nat 3 3002399751580331 empty_database.
Proof.
  intros (r & Hr & Ht). vm_compute in Hr. injection Hr as <-.
  vm_compute in Ht. discriminate.
Qed.



(** C9 as stated fails past the largest INTEGER: for a stored line,
    [handleUpdateQuantity] with [newQuantity = 2147483648] throws and
    leaves the line with its old quantity. *)
Lemma handleUpdateQuantity_out_of_range_keeps_line :
  ~ quantity_update_deletes_or_upserts 7%nat
      (mk_selection 1%nat 1%nat 2%nat 3%nat 2 100 200 0%nat) 2147483648 one_line_db.
Proof.
  intros H. destruct (H (or_introl eq_refl)) as (_ & Hup).
  destruct Hup as (r & Hr & Hq & _); [lia|].
  vm_compute in Hr. injection Hr as <-. vm_compute in Hq. discriminate.
Qed.

Lemma handleUpdateQuantity_out_of_range_throws :
  handleUpdateQuantity None 7%nat (mk_selection 1%nat 1%nat 2%nat 3%nat 2 100 200 0%nat)
    2147483648 one_line_db
  = (Err numeric_value_out_of_range, one_line_db).
Proof. reflexivity. Qed.

(** C9, amended to the quantities the column takes.  For a line stored in
    a table that respects its unique key, [handleUpdateQuantity] with
    [newQuantity <= 0] completes and leaves no row with the line's id or
    under the line's brand among the user's selections for the spot; with
    [0 < newQuantity <= 2147483647] and a finite product of the new
    quantity and the line's unit price, it completes and leaves, under the
    line's key, exactly the line's row with the new quantity, the line's
    own unit price, that product and the time of the call. *)
Theorem handleUpdateQuantity_deletes_or_upserts (now : timestamp)
    (selection : selection_row) (newQuantity : Z) (db : database) :
  selections_unique db -> In selection (user_drink_selections db) ->
  let s := sel_spot_id selection in
  let u := sel_user_id selection in
  let b := sel_drink_brand_id selection in
  let db' := run (handleUpdateQuantity None now selection newQuantity) db in
  (newQuantity <= 0 ->
   fst (handleUpdateQuantity None now selection newQuantity db) = Ok tt
   /\ ~ In selection (getUserSelections s u db')
   /\ forall r, In r (getUserSelections s u db') ->
                sel_id r <> sel_id selection /\ sel_drink_brand_id r <> b)
  /\ (0 < newQuantity <= INT4_MAX ->
      forall total_price,
        js_mul (num newQuantity) (num (sel_unit_price selection)) = num total_price ->
        fst (handleUpdateQuantity None now selection newQuantity db) = Ok tt
        /\ filter (line_is s u b) (user_drink_selections db')
           = [mk_selection (sel_id selection) s u b newQuantity (sel_unit_price selection)
                           total_price now]).
Proof.
  intros Huniq Hin s u b. subst s u b. cbv zeta.
  set (s := sel_spot_id selection). set (u := sel_user_id selection).
  set (b := sel_drink_brand_id selection).
  unfold handleUpdateQuantity, run, bind, fetchData, ret. fold s u b.
  destruct (newQuantity <=? 0) eqn:Hle.
  - apply Z.leb_le in Hle. rewrite deleteSelection_run. simpl.
    split; [|lia]. intros _. split; [reflexivity|].
    assert (Hrows : forall r, In r (getUserSelections s u
               (set_user_drink_selections
                  (filter (fun r => negb (Nat.eqb (sel_id r) (sel_id selection)))
                          (user_drink_selections db)) db)) ->
             sel_id r <> sel_id selection /\ sel_drink_brand_id r <> b).
    { intros r Hr. unfold getUserSelections in Hr. simpl in Hr.
      apply in_rev in Hr. apply filter_In in Hr as (Hr & Hsu).
      apply filter_In in Hr as (Hr & Hid).
      apply negb_true_iff, Nat.eqb_neq in Hid. split; [exact Hid|].
      intros Hb. apply Hid. f_equal.
      apply (NoDup_key_inj sel_key (user_drink_selections db)); auto.
      apply andb_true_iff in Hsu as (Hs & Hu). apply Nat.eqb_eq in Hs, Hu.
      unfold sel_key. now rewrite Hs, Hu, Hb. }
    split; [|exact Hrows].
    intros Hsel. destruct (Hrows _ Hsel) as (Hid & _). now apply Hid.
  - apply Z.leb_gt in Hle. split; [lia|]. intros Hq total_price Ht.
    destruct (upsertSelection_step now s u b newQuantity (sel_unit_price selection)
                total_price db Huniq Hq Ht) as (r & db1 & E & _ & Hr & Hrows & Hid & _).
    rewrite E. simpl. split; [reflexivity|].
    rewrite Hrows, Hr. simpl. do 2 f_equal. apply Hid.
    apply (find_unique sel_key); auto.
    + intros x y Hx Hy. apply line_is_key in Hx, Hy. congruence.
    + now apply line_is_key.
Qed.

Lemma handleUpdateQuantity_deletes_or_upserts_witness :
  let selection := mk_selection 1%nat 1%nat 2%nat 3%nat 2 100 200 0%nat in
  (fst (handleUpdateQuantity None 7%nat selection 0 one_line_db) = Ok tt
   /\ getUserSelections 1%nat 2%nat (run (handleUpdateQuantity None 7%nat selection 0) one_line_db)
      = [])
  /\ (fst (handleUpdateQuantity None 7%nat selection 5 one_line_db) = Ok tt
      /\ filter (line_is 1%nat 2%nat 3%nat)
           (user_drink_selections (run (handleUpdateQuantity None 7%nat selection 5) one_line_db))
         = [mk_selection 1%nat 1%nat 2%nat 3%nat 5 100 500 7%nat]).
Proof.
  intros selection.
  assert (Huniq : selections_unique one_line_db)
    by (repeat constructor; intros []).
  assert (Hin : In selection (user_drink_selections one_line_db))
    by (left; reflexivity).
  split.
  - destruct (handleUpdateQuantity_deletes_or_upserts 7%nat selection 0 one_line_db Huniq Hin)
      as (Hdel & _).
    destruct Hdel as (Hok & _); [lia|].
    split; [exact Hok | reflexivity].
  - destruct (handleUpdateQuantity_deletes_or_upserts 7%nat selection 5 one_line_db Huniq Hin)
      as (_ & Hup).
    apply Hup; [unfold INT4_MAX; lia | reflexivity].
Defined.

(** ** Attendance *)

Lemma find_map_same_hit {R : Type} (hit : R -> bool) (f : R -> R) (l : list R) :
  (forall r, hit (f r) = hit r) ->
  find hit (map f l) = option_map f (find hit l).
Proof.
  intros Hf. induction l as [|a l IH]; simpl; [reflexivity|].
  rewrite Hf. destruct (hit a); [reflexivity | exact IH].
Qed.

Lemma find_snoc_fresh {R : Type} (hit : R -> bool) (l : list R) (new : R) :
  find hit l = None -> hit new = true -> find hit (l ++ [new]) = Some new.
Proof.
  intros Hnone Hnew. induction l as [|a l IH]; simpl in *.
  - now rewrite Hnew.
  - destruct (hit a); [discriminate | now apply IH].
Qed.

(** The guarded increment: a write of [true] over a row that already says
    [true] leaves every profile alone. *)
Lemma trigger_update_mission_count_repeat
    (old new : attendance_row) (db : database) :
  att_attended old = true ->
  trigger_update_mission_count (Some old) (Some new) db = Ok db.
Proof.
  intros Hold. unfold trigger_update_mission_count, update_mission_count_on_attendance.
  simpl. rewrite Hold. now destruct (att_attended new).
Qed.

Lemma holds_eq_uuid (a b : uuid) :
  Sql.holds (Sql.eq_uuid (Some a) (Some b)) = Nat.eqb a b.
Proof. simpl. now destruct (Nat.eqb a b). Qed.

(** The trigger function on a first write of [true], or on a write of
    [true] over [false]: it fails when a counter of the user is at the
    largest INTEGER, and adds one to each otherwise. *)
Lemma update_mission_count_on_attendance_fires
    (OLD : option attendance_row) (new : attendance_row) (db : database) :
  att_attended new = true ->
  Sql.field att_attended OLD <> Some true ->
  update_mission_count_on_attendance OLD (Some new) db
  = if forallb (fun p => int4_range (Sql.coalesce (prof_mission_count p) 0 + 1))
               (filter (fun p => Nat.eqb (prof_id p) (att_user_id new)) (profiles db))
    then Ok (set_profiles
               (map (fun p => if Nat.eqb (prof_id p) (att_user_id new)
                              then mk_profile (prof_id p)
                                     (Some (Sql.coalesce (prof_mission_count p) 0 + 1))
                              else p)
                    (profiles db)) db)
    else Err numeric_value_out_of_range.
Proof.
  intros Hnew Hold. unfold update_mission_count_on_attendance.
  cbn [Sql.field option_map]. rewrite Hnew.
  replace (Sql.holds _) with true.
  - rewrite (filter_ext _ (fun p => Nat.eqb (prof_id p) (att_user_id new)))
      by (intros p; apply holds_eq_uuid).
    rewrite (map_ext _ (fun p => if Nat.eqb (prof_id p) (att_user_id new)
                                 then mk_profile (prof_id p)
                                        (Some (Sql.coalesce (prof_mission_count p) 0 + 1))
                                 else p))
      by (intros p; now rewrite holds_eq_uuid).
    reflexivity.
  - destruct OLD as [old|]; [|reflexivity].
    cbn [Sql.field option_map] in *. destruct (att_attended old); [congruence | reflexivity].
Qed.

(** Under the primary key of profiles, every row with the user's id is
    the one a query finds. *)
Lemma mission_count_rows (u : uuid) (N : Z) (db : database) :
  profiles_unique db -> mission_count u db = Some N ->
  forall p, In p (profiles db) -> prof_id p = u -> prof_mission_count p = Some N.
Proof.
  intros Huniq HN p Hin Hid. unfold mission_count in HN.
  destruct (find _ (profiles db)) as [p0|] eqn:Hfind; [|discriminate].
  apply find_some in Hfind as (Hin0 & Hid0). apply Nat.eqb_eq in Hid0.
  assert (p = p0) as ->; [|exact HN].
  apply (NoDup_key_inj prof_id (profiles db)); auto. congruence.
Qed.

Lemma mission_count_bumped (u : uuid) (N : Z) (db : database) :
  mission_count u db = Some N ->
  mission_count u
    (set_profiles
       (map (fun p => if Nat.eqb (prof_id p) u
                      then mk_profile (prof_id p)
                             (Some (Sql.coalesce (prof_mission_count p) 0 + 1))
                      else p)
            (profiles db)) db)
  = Some (N + 1).
Proof.
  intros HN. unfold mission_count in *. cbn [profiles set_profiles].
  rewrite (find_map_same_hit (fun p => Nat.eqb (prof_id p) u)).
  - destruct (find _ (profiles db)) as [p|] eqn:Hfind; [|discriminate].
    simpl. apply find_some in Hfind as (_ & Hid). rewrite Hid. simpl.
    now rewrite HN.
  - intros r. destruct (Nat.eqb (prof_id r) u) eqn:E; simpl; exact E.
Qed.

(** A first write of [true] adds one to the user's counter, when the
    counter is below the largest INTEGER. *)
Lemma trigger_update_mission_count_first
    (new : attendance_row) (N : Z) (db : database) :
  att_attended new = true ->
  profiles_unique db ->
  mission_count (att_user_id new) db = Some N ->
  INT4_MIN <= N < INT4_MAX ->
  exists db',
    trigger_update_mission_count None (Some new) db = Ok db'
    /\ attendance db' = attendance db
    /\ mission_count (att_user_id new) db' = Some (N + 1).
Proof.
  intros Hnew Huniq HN Hrange. unfold trigger_update_mission_count.
  cbn [Sql.field option_map]. rewrite Hnew. cbn [Sql.eq_bool Bool.eqb Sql.holds].
  rewrite (update_mission_count_on_attendance_fires None new db Hnew)
    by discriminate.
  replace (forallb _ _) with true.
  - eexists. split; [reflexivity|]. split; [reflexivity|].
    now apply mission_count_bumped.
  - symmetry. apply forallb_forall. intros p Hp.
    apply filter_In in Hp as (Hin & Hid). apply Nat.eqb_eq in Hid.
    rewrite (mission_count_rows _ N db Huniq HN p Hin Hid). simpl.
    apply int4_range_iff. lia.
Qed.

(** C3 as stated fails at the largest INTEGER: with [mission_count =
    2147483647] the trigger's UPDATE raises "integer out of range", each
    [upsertAttendance(spot, user, true)] is rolled back, and the counter
    stays where it was. *)
Lemma upsertAttendance_at_largest_count_fails :
  ~ attendance_twice_counts_once 1%nat 2%nat 2147483647
      (set_profiles [mk_profile 2%nat (Some 2147483647)] empty_database).
Proof. intros H. specialize (H eq_refl eq_refl). vm_compute in H. discriminate. Qed.

Lemma upsertAttendance_at_largest_count_rolled_back :
  let db := set_profiles [mk_profile 2%nat (Some 2147483647)] empty_database in
  upsertAttendance None 1%nat 2%nat true db = (Err numeric_value_out_of_range, db).
Proof. reflexivity. Qed.

(** C3, amended to counters below the largest INTEGER.  For a user whose
    profile has [mission_count = N] with [N < 2147483647] and who has no
    attendance row for the spot, two successive
    [upsertAttendance(spot, user, true)] calls both succeed and leave the
    profile at [N + 1]: the first write inserts and increments, the second
    finds [attended = true] already stored and does not. *)
Theorem upsertAttendance_twice_counts_once
    (spot_id user_id : uuid) (N : Z) (db : database) :
  profiles_unique db ->
  getUserAttendance spot_id user_id db = None ->
  mission_count user_id db = Some N ->
  INT4_MIN <= N < INT4_MAX ->
  exists a1 db1 a2 db2,
    upsertAttendance None spot_id user_id true db = (Ok a1, db1)
    /\ mission_count user_id db1 = Some (N + 1)
    /\ upsertAttendance None spot_id user_id true db1 = (Ok a2, db2)
    /\ mission_count user_id db2 = Some (N + 1)
    /\ mission_count user_id
         (run (upsertAttendance None spot_id user_id true ;;;
               upsertAttendance None spot_id user_id true) db)
       = Some (N + 1).
Proof.
  intros Huniq Hnone HN Hrange. unfold getUserAttendance in Hnone.
  set (new := mk_attendance (next_uuid db) spot_id user_id true).
  destruct (trigger_update_mission_count_first new N
              (set_attendance (attendance db ++ [new]) (snd (gen_random_uuid db)))
              eq_refl Huniq HN Hrange) as (db1 & Hfired & Hatt & H1).
  assert (E1 : upsertAttendance None spot_id user_id true db = (Ok new, db1)).
  { unfold upsertAttendance, request. rewrite Hnone.
    exact (f_equal (with_trigger db new) Hfired). }
  assert (Hfind : find (att_is spot_id user_id) (attendance db1) = Some new).
  { rewrite Hatt. apply find_snoc_fresh; [exact Hnone|].
    unfold att_is, pair_is. simpl. now rewrite !Nat.eqb_refl. }
  set (new2 := mk_attendance (att_id new) spot_id user_id true).
  set (db1' := set_attendance
                 (map (fun r => if att_is spot_id user_id r
                                then mk_attendance (att_id r) spot_id user_id true
                                else r) (attendance db1)) db1).
  assert (E2 : upsertAttendance None spot_id user_id true db1 = (Ok new2, db1')).
  { unfold upsertAttendance, request. rewrite Hfind.
    now rewrite trigger_update_mission_count_repeat. }
  exists new, db1, new2, db1'. repeat split; try assumption.
  unfold run, bind. rewrite E1, E2. exact H1.
Qed.

Lemma upsertAttendance_twice_counts_once_witness :
  let db := set_profiles [mk_profile 2%nat (Some 4)] empty_database in
  mission_count 2%nat
    (run (upsertAttendance None 1%nat 2%nat true ;;;
          upsertAttendance None 1%nat 2%nat true) db)
  = Some 5.
Proof.
  intros db.
  assert (Huniq : profiles_unique db) by (repeat constructor; intros []).
  assert (Hrange : INT4_MIN <= 4 < INT4_MAX) by (unfold INT4_MIN, INT4_MAX; lia).
  destruct (upsertAttendance_twice_counts_once 1%nat 2%nat 4 db Huniq eq_refl eq_refl Hrange)
    as (a1 & db1 & a2 & db2 & _ & _ & _ & _ & H).
  exact H.
Defined.

(** ** Votes *)

Lemma single_ok {R : Type} (l : list R) (r : R) : single l = Ok r -> l = [r].
Proof. destruct l as [|a [|b l]]; simpl; intros [=]. now subst. Qed.

Lemma filter_map_replace {R : Type} (hit : R -> bool) (upd : R -> R) (l : list R) :
  (forall r, hit r = true -> hit (upd r) = true) ->
  filter hit (map (fun r => if hit r then upd r else r) l) = map upd (filter hit l).
Proof.
  intros Hupd. induction l as [|a l IH]; simpl; [reflexivity|].
  destruct (hit a) eqn:Ha.
  - rewrite (Hupd a Ha). simpl. now rewrite IH.
  - now rewrite Ha.
Qed.

Lemma existsb_eqb_In (u : uuid) (l : list uuid) :
  existsb (Nat.eqb u) l = true <-> In u l.
Proof.
  rewrite existsb_exists. split.
  - intros (x & Hin & Heq). apply Nat.eqb_eq in Heq. now subst.
  - intros Hin. exists u. split; [exact Hin | apply Nat.eqb_refl].
Qed.

Lemma filter_others_absent (u : uuid) (l : list uuid) :
  ~ In u l -> filter (fun id => negb (Nat.eqb id u)) l = l.
Proof.
  induction l as [|a l IH]; simpl; intros Hnot; [reflexivity|].
  destruct (Nat.eqb a u) eqn:Ha.
  - apply Nat.eqb_eq in Ha. exfalso. apply Hnot. now left.
  - simpl. f_equal. apply IH. tauto.
Qed.

Lemma In_filter_others (u x : uuid) (l : list uuid) :
  In x (filter (fun id => negb (Nat.eqb id u)) l) <-> In x l /\ x <> u.
Proof.
  rewrite filter_In, negb_true_iff, Nat.eqb_neq. tauto.
Qed.

(** One [voteForDrink] on a stored drink: when the new count fits the
    column, what is returned is what is stored afterwards; when it does
    not, the call fails and writes nothing. *)
Lemma voteForDrink_step (drinkId userId : uuid) (drink : drink_row) (db : database) :
  single (filter (fun d => Nat.eqb (drink_id d) drinkId) (drinks db)) = Ok drink ->
  let votedBy := or_empty (drink_voted_by drink) in
  let hasVoted := existsb (Nat.eqb userId) votedBy in
  let votes :=
    if hasVoted then Z.max 0 (or_zero (drink_votes drink) - 1)
    else or_zero (drink_votes drink) + 1 in
  let data :=
    mk_drink (drink_id drink) (drink_spot_id drink) (Some votes)
      (drink_suggested_by drink)
      (Some (if hasVoted then filter (fun id => negb (Nat.eqb id userId)) votedBy
             else votedBy ++ [userId])) in
  (int4_range votes = true ->
   exists db',
     voteForDrink None None drinkId userId db = (Ok (toDrink data), db')
     /\ single (filter (fun d => Nat.eqb (drink_id d) drinkId) (drinks db')) = Ok data)
  /\ (int4_range votes = false ->
      voteForDrink None None drinkId userId db = (Err numeric_value_out_of_range, db)).
Proof.
  intros Hsingle votedBy hasVoted votes data.
  pose proof (single_ok _ _ Hsingle) as Hrows.
  unfold voteForDrink, bind, request. rewrite Hsingle. fold votedBy hasVoted votes.
  split; intros Hfit; rewrite Hfit; cbn [negb]; [|reflexivity].
  cbn [drinks set_drinks].
  rewrite (filter_map_replace (fun d => Nat.eqb (drink_id d) drinkId)
             (fun d => mk_drink (drink_id d) (drink_spot_id d) _ (drink_suggested_by d) _))
    by (intros r Hr; exact Hr).
  rewrite Hrows. cbn [map single]. fold data.
  eexists. split; [reflexivity|].
  cbn [drinks set_drinks].
  rewrite (filter_map_replace (fun d => Nat.eqb (drink_id d) drinkId)
             (fun d => mk_drink (drink_id d) (drink_spot_id d) _ (drink_suggested_by d) _))
    by (intros r Hr; exact Hr).
  now rewrite Hrows.
Qed.

(** C5 as stated fails at the floor: with the user recorded as a voter
    and the counter at 0, the first toggle keeps 0 and the second gives 1. *)
Lemma vote_twice_at_floor_gains_a_vote :
  ~ vote_twice_restores 0%nat 7%nat floor_db.
Proof.
  intros H. destruct (H _ eq_refl) as (d2 & db2 & Hrun & _ & Hvotes & _).
  vm_compute in Hrun. injection Hrun as <- _. vm_compute in Hvotes. discriminate.
Qed.

(** It fails as well at the largest INTEGER: with the counter at
    2147483647 and the user not among the voters, the first call would
    store 2147483648 and is rejected. *)
Lemma vote_twice_at_largest_count_fails :
  ~ vote_twice_restores 0%nat 7%nat
      (set_drinks [mk_drink 0%nat 1%nat (Some 2147483647) 9%nat (Some [])] empty_database).
Proof.
  intros H. destruct (H _ eq_refl) as (d2 & db2 & Hrun & _).
  vm_compute in Hrun. discriminate.
Qed.

(** C5, amended.  For a stored drink whose counter is not negative, is at
    least 1 when the user is among its voters, is at most 2147483647 and
    is below it when the user is not among the voters, two [voteForDrink]
    calls by that user both succeed and bring the drink back to its votes
    count and to the same set of voters (the list may come back in another
    order). *)
Theorem voteForDrink_twice_restores (drinkId userId : uuid) (d : Drink) (db : database) :
  stored_drink drinkId db = Ok d ->
  0 <= Drink_votes d <= INT4_MAX ->
  (In userId (Drink_voted_by d) -> 1 <= Drink_votes d) ->
  (~ In userId (Drink_voted_by d) -> Drink_votes d < INT4_MAX) ->
  vote_twice_restores drinkId userId db.
Proof.
  intros Hd Hrange Hvoted Hroom d0 Hd0. rewrite Hd in Hd0. injection Hd0 as <-.
  unfold stored_drink in Hd.
  destruct (single (filter (fun x => Nat.eqb (drink_id x) drinkId) (drinks db)))
    as [row|] eqn:Hrow; [|discriminate].
  injection Hd as <-. cbn [toDrink Drink_votes Drink_voted_by] in *.
  destruct (voteForDrink_step drinkId userId row db Hrow) as (Hstep1 & _).
  cbv zeta in Hstep1.
  destruct (existsb (Nat.eqb userId) (or_empty (drink_voted_by row))) eqn:Hhas.
  - apply existsb_eqb_In in Hhas. specialize (Hvoted Hhas).
    destruct Hstep1 as (db1 & E1 & Hrow1);
      [apply int4_range_iff; unfold INT4_MIN, INT4_MAX in *; lia|].
    destruct (voteForDrink_step drinkId userId _ db1 Hrow1) as (Hstep2 & _).
    cbv zeta in Hstep2.
    cbn [drink_votes drink_voted_by or_zero or_empty drink_id drink_spot_id
         drink_suggested_by] in Hstep2.
    assert (Hgone : existsb (Nat.eqb userId)
              (filter (fun id => negb (Nat.eqb id userId)) (or_empty (drink_voted_by row)))
              = false).
    { apply not_true_is_false. intros Hin. apply existsb_eqb_In, In_filter_others in Hin.
      now destruct Hin. }
    rewrite Hgone in Hstep2.
    destruct Hstep2 as (db2 & E2 & Hrow2);
      [apply int4_range_iff; unfold INT4_MIN, INT4_MAX in *; lia|].
    eexists; exists db2. unfold bind. rewrite E1, E2.
    split; [reflexivity|]. unfold stored_drink. rewrite Hrow2.
    split; [reflexivity|].
    cbn [toDrink Drink_votes Drink_voted_by drink_votes drink_voted_by or_zero or_empty].
    split; [lia|].
    intros x. rewrite in_app_iff, In_filter_others. simpl.
    destruct (Nat.eq_dec x userId) as [->|Hne]; intuition congruence.
  - assert (Habsent : ~ In userId (or_empty (drink_voted_by row))).
    { intros Hin. apply existsb_eqb_In in Hin. congruence. }
    specialize (Hroom Habsent).
    destruct Hstep1 as (db1 & E1 & Hrow1);
      [apply int4_range_iff; unfold INT4_MIN, INT4_MAX in *; lia|].
    destruct (voteForDrink_step drinkId userId _ db1 Hrow1) as (Hstep2 & _).
    cbv zeta in Hstep2.
    cbn [drink_votes drink_voted_by or_zero or_empty drink_id drink_spot_id
         drink_suggested_by] in Hstep2.
    assert (Hthere : existsb (Nat.eqb userId) (or_empty (drink_voted_by row) ++ [userId])
                     = true).
    { apply existsb_eqb_In, in_app_iff. right. now left. }
    rewrite Hthere in Hstep2.
    destruct Hstep2 as (db2 & E2 & Hrow2);
      [apply int4_range_iff; unfold INT4_MIN, INT4_MAX in *; lia|].
    eexists; exists db2. unfold bind. rewrite E1, E2.
    split; [reflexivity|]. unfold stored_drink. rewrite Hrow2.
    split; [reflexivity|].
    cbn [toDrink Drink_votes Drink_voted_by drink_votes drink_voted_by or_zero or_empty].
    split; [lia|].
    intros x. rewrite In_filter_others, in_app_iff. simpl.
    destruct (Nat.eq_dec x userId) as [->|Hne]; intuition congruence.
Qed.

Lemma voteForDrink_twice_restores_witness :
  vote_twice_restores 0%nat 7%nat
    (set_drinks [mk_drink 0%nat 1%nat (Some 2) 9%nat (Some [7%nat; 8%nat])] empty_database).
Proof.
  apply (voteForDrink_twice_restores 0%nat 7%nat
           (mk_Drink 0%nat 1%nat 2 9%nat [7%nat; 8%nat])).
  - reflexivity.
  - unfold INT4_MAX. simpl. lia.
  - simpl. lia.
  - unfold INT4_MAX. simpl. lia.
Defined.

(** The amended precondition holds of every drink whose counter agrees
    with its voter list, as [createDrink] makes it and [voteForDrink]
    keeps it. *)
Lemma votes_match_toggle_ready (d : Drink) (userId : uuid) :
  votes_match d ->
  0 <= Drink_votes d /\ (In userId (Drink_voted_by d) -> 1 <= Drink_votes d).
Proof.
  intros (_ & Hlen). rewrite Hlen. split; [lia|].
  destruct (Drink_voted_by d); simpl; [contradiction | lia].
Qed.

Lemma createDrink_votes_match (spot_id suggested_by : uuid) (db : database) :
  exists d db', createDrink None spot_id suggested_by db = (Ok d, db') /\ votes_match d.
Proof.
  eexists; eexists. split; [reflexivity|]. split; [constructor | reflexivity].
Qed.

Lemma length_filter_others (u : uuid) (l : list uuid) :
  NoDup l -> In u l ->
  S (length (filter (fun id => negb (Nat.eqb id u)) l)) = length l.
Proof.
  induction l as [|a l IH]; simpl; intros Hnd Hin; [contradiction|].
  inversion Hnd as [|x xs Hnotin Hnd']; subst.
  destruct (Nat.eqb a u) eqn:Ha; simpl.
  - apply Nat.eqb_eq in Ha. subst a. now rewrite filter_others_absent.
  - apply Nat.eqb_neq in Ha. destruct Hin as [->|Hin]; [congruence|].
    now rewrite IH.
Qed.

Lemma voteForDrink_keeps_votes_match (drinkId userId : uuid) (d d' : Drink) (db db' : database) :
  stored_drink drinkId db = Ok d -> votes_match d ->
  voteForDrink None None drinkId userId db = (Ok d', db') ->
  votes_match d'.
Proof.
  intros Hd (Hnd & Hlen) Hvote. unfold stored_drink in Hd.
  destruct (single (filter (fun x => Nat.eqb (drink_id x) drinkId) (drinks db)))
    as [row|] eqn:Hrow; [|discriminate].
  injection Hd as <-. cbn [toDrink Drink_votes Drink_voted_by] in *.
  destruct (voteForDrink_step drinkId userId row db Hrow) as (Hfits & Hnot).
  cbv zeta in Hfits, Hnot.
  destruct (int4_range _) eqn:Hfit in Hfits;
    [|rewrite (Hnot Hfit) in Hvote; discriminate].
  destruct (Hfits eq_refl) as (db1 & E1 & _).
  rewrite E1 in Hvote. injection Hvote as <- _.
  unfold votes_match.
  cbn [toDrink Drink_votes Drink_voted_by drink_votes drink_voted_by or_zero or_empty].
  destruct (existsb (Nat.eqb userId) (or_empty (drink_voted_by row))) eqn:Hhas.
  - apply existsb_eqb_In in Hhas. split; [now apply NoDup_filter|].
    pose proof (length_filter_others userId _ Hnd Hhas). lia.
  - split.
    + apply NoDup_app; [exact Hnd | repeat constructor; intros [] |].
      intros x Hx [<-|[]]. apply existsb_eqb_In in Hx. congruence.
    + rewrite length_app. simpl. lia.
Qed.

(** ** Payments and RSVP *)

Lemma payments_of_rows (s u : uuid) (db : database) :
  payments_of s u db = map toPayment (payment_rows s u db).
Proof.
  unfold payments_of, getPayments, payment_rows, pay_is, pair_is.
  induction (payments db) as [|a l IH]; simpl; [reflexivity|].
  destruct (Nat.eqb (pay_spot_id a) s); simpl; [|exact IH].
  destruct (Nat.eqb (pay_user_id a) u); simpl; now rewrite IH.
Qed.

Lemma pay_is_key (s u : uuid) (r : payment_row) :
  pay_is s u r = true <-> pay_key r = (s, u).
Proof. apply pair_is_key. Qed.

(** [upsertPayment] on a pair that has a row: the row keeps its id and
    its drink total and takes the given status. *)
Lemma upsertPayment_existing (s u : uuid) (st : PaymentStatus) (old : payment_row) (db : database) :
  payments_unique db ->
  find (pay_is s u) (payments db) = Some old ->
  exists p db',
    upsertPayment None s u st db = (Ok p, db')
    /\ payments_unique db'
    /\ payment_rows s u db' = [mk_payment (pay_id old) s u st (pay_drink_total_amount old)].
Proof.
  intros Huniq Hfind. unfold upsertPayment, request. rewrite Hfind.
  set (upd := fun r => mk_payment (pay_id r) s u st (pay_drink_total_amount r)).
  assert (Hupd : forall r, pay_is s u r = true -> pay_key (upd r) = (s, u)) by reflexivity.
  eexists; eexists. split; [reflexivity|]. split.
  - unfold payments_unique. simpl.
    now rewrite (map_key_replace_hits pay_key (pay_is s u) (s, u) (pay_is_key s u) upd Hupd).
  - exact (filter_replace_hits pay_key (pay_is s u) (s, u) (pay_is_key s u) upd Hupd
             _ old Huniq Hfind).
Qed.

(** [upsertPayment] on a pair without a row: a fresh row with the
    column default 0. *)
Lemma upsertPayment_fresh (s u : uuid) (st : PaymentStatus) (db : database) :
  payments_unique db ->
  find (pay_is s u) (payments db) = None ->
  exists p db',
    upsertPayment None s u st db = (Ok p, db')
    /\ payments_unique db'
    /\ payments db' = payments db ++ [mk_payment (next_uuid db) s u st 0]
    /\ payment_rows s u db' = [mk_payment (next_uuid db) s u st 0].
Proof.
  intros Huniq Hfind. unfold upsertPayment, request. rewrite Hfind.
  eexists; eexists. split; [reflexivity|]. simpl. repeat split.
  - apply (NoDup_snoc_fresh pay_key (pay_is s u) (s, u) (pay_is_key s u));
      [exact Huniq | exact Hfind | reflexivity].
  - apply (filter_snoc_fresh (pay_is s u)); [exact Hfind|]. now apply pay_is_key.
Qed.

(** What [upsertPayment] does to the payments depends on the payments
    and the id supply only. *)
Lemma upsertPayment_payments_ext (s u : uuid) (st : PaymentStatus) (db1 db2 : database) :
  payments db1 = payments db2 -> next_uuid db1 = next_uuid db2 ->
  payments (run (upsertPayment None s u st) db1)
  = payments (run (upsertPayment None s u st) db2).
Proof.
  intros Hp Hn. unfold run, upsertPayment, request. rewrite Hp.
  destruct (find (pay_is s u) (payments db2)); simpl; [reflexivity|].
  now rewrite Hp, Hn.
Qed.

(** Writing invitations leaves the payments alone. *)
Lemma updateInvitationStatus_payments
    (fault : option error) (id : uuid) (st : InvitationStatus) (db : database) :
  payments (snd (updateInvitationStatus fault id st db)) = payments db
  /\ next_uuid (snd (updateInvitationStatus fault id st db)) = next_uuid db.
Proof. now destruct fault. Qed.

Lemma upsertInvitation_payments
    (fault : option error) (s u : uuid) (st : InvitationStatus) (db : database) :
  payments (snd (upsertInvitation fault s u st db)) = payments db.
Proof.
  destruct fault; [reflexivity|]. unfold upsertInvitation, request.
  now destruct (find (inv_is s u) (invitations db)).
Qed.

(** The payments after a confirming [handleRSVP]. *)
Lemma handleRSVP_confirm_payments (env : rsvp_env) (invitationId s : uuid) (db : database) :
  env_profile env = true -> env_spot env = Some s ->
  payments (run (handleRSVP env invitationId CONFIRMED) db)
  = match env_invitation_fault env, env_getUserIdAsUUID env, env_payment_fault env with
    | None, Ok u, None => payments (run (upsertPayment None s u NOT_PAID) db)
    | _, _, _ => payments db
    end.
Proof.
  destruct env as [prof spot uid ifault pfault ins].
  cbn [env_profile env_spot env_invitation_fault env_getUserIdAsUUID env_payment_fault].
  intros -> ->.
  pose proof (updateInvitationStatus_payments ifault invitationId CONFIRMED db) as (Hp & Hn).
  unfold run, handleRSVP, try_catch, bind, getUserIdAsUUID, fetchData, ret.
  cbn [env_profile env_spot env_invitation_fault env_getUserIdAsUUID env_payment_fault
       env_inserts_profile InvitationStatus_eqb].
  destruct (updateInvitationStatus ifault invitationId CONFIRMED db) as [[[]|e] db1] eqn:E;
    cbn [snd] in *.
  - assert (ifault = None) as -> by (destruct ifault; [discriminate | reflexivity]).
    destruct uid as [u|e]; [|exact Hp].
    destruct ins.
    + destruct pfault as [e|]; [exact Hp|].
      pose proof (upsertPayment_payments_ext s u NOT_PAID
                    (set_profiles (profiles db1 ++ [mk_profile u (Some 0)]) db1) db Hp Hn)
        as Hext.
      unfold run in Hext.
      destruct (upsertPayment None s u NOT_PAID _) as [[p|e] d']; exact Hext.
    + destruct pfault as [e|]; [exact Hp|].
      pose proof (upsertPayment_payments_ext s u NOT_PAID db1 db Hp Hn) as Hext.
      unfold run in Hext.
      destruct (upsertPayment None s u NOT_PAID db1) as [[p|e] d']; exact Hext.
  - destruct ifault; [exact Hp | discriminate].
Qed.

(** The payments after a confirming [handleCreateRSVP]. *)
Lemma handleCreateRSVP_confirm_payments (env : rsvp_env) (s : uuid) (db : database) :
  env_profile env = true -> env_spot env = Some s ->
  payments (run (handleCreateRSVP env CONFIRMED) db) = payments db
  \/ exists u db1,
       env_getUserIdAsUUID env = Ok u
       /\ payments db1 = payments db
       /\ payments (run (handleCreateRSVP env CONFIRMED) db)
          = payments (run (upsertPayment None s u NOT_PAID) db1).
Proof.
  destruct env as [prof spot uid ifault pfault ins].
  cbn [env_profile env_spot env_invitation_fault env_getUserIdAsUUID env_payment_fault].
  intros -> ->.
  unfold run, handleCreateRSVP, try_catch, bind, getUserIdAsUUID, fetchData, ret.
  cbn [env_profile env_spot env_invitation_fault env_getUserIdAsUUID env_payment_fault
       env_inserts_profile InvitationStatus_eqb].
  destruct uid as [u|e]; [|left; reflexivity].
  set (db0 := if ins then set_profiles (profiles db ++ [mk_profile u (Some 0)]) db else db).
  assert (Hp0 : payments db0 = payments db) by (unfold db0; now destruct ins).
  replace (if ins then (Ok u, set_profiles (profiles db ++ [mk_profile u (Some 0)]) db)
           else (Ok u, db)) with (@Ok uuid u, db0) by (unfold db0; now destruct ins).
  pose proof (upsertInvitation_payments ifault s u CONFIRMED db0) as Hp.
  rewrite Hp0 in Hp.
  destruct (upsertInvitation ifault s u CONFIRMED db0) as [[i|e] db1]; cbn [snd] in *;
    [|left; exact Hp].
  destruct pfault as [e|]; [left; exact Hp|].
  right. exists u, db1. split; [reflexivity|]. split; [exact Hp|].
  unfold run. now destruct (upsertPayment None s u NOT_PAID db1) as [[p|e] d'].
Qed.


Lemma filter_nil_find {R : Type} (hit : R -> bool) (l : list R) :
  filter hit l = [] -> find hit l = None.
Proof.
  induction l as [|a l IH]; simpl; [reflexivity|].
  destruct (hit a); [discriminate | exact IH].
Qed.

Lemma payments_of_ext (s u : uuid) (db1 db2 : database) :
  payments db1 = payments db2 -> payments_of s u db1 = payments_of s u db2.
Proof. intros H. unfold payments_of, getPayments. now rewrite H. Qed.

Lemma one_Payment_one_row (s u : uuid) (db : database) :
  length (payments_of s u db) = 1%nat ->
  exists old, find (pay_is s u) (payments db) = Some old.
Proof.
  rewrite payments_of_rows, length_map. unfold payment_rows. intros Hlen.
  destruct (filter (pay_is s u) (payments db)) as [|old [|]] eqn:Hrows; try discriminate.
  exists old. now apply filter_single_find.
Qed.

(** After [upsertPayment] on a pair that has a row, [getPayments] still
    shows one row for the user. *)
Lemma upsertPayment_existing_one_Payment
    (s u : uuid) (st : PaymentStatus) (old : payment_row) (db : database) :
  payments_unique db ->
  find (pay_is s u) (payments db) = Some old ->
  length (payments_of s u (run (upsertPayment None s u st) db)) = 1%nat.
Proof.
  intros Huniq Hfind.
  destruct (upsertPayment_existing s u st old db Huniq Hfind) as (p & db' & E & _ & Hrows).
  unfold run. rewrite E. simpl. now rewrite payments_of_rows, Hrows.
Qed.

(** *** Claims on payments and RSVP *)

(** C7.  When the payments respect their unique key and [getPayments]
    shows one row for the user, confirming through [handleRSVP] or
    [handleCreateRSVP] for that spot and user, whatever the fate of the
    requests, leaves [getPayments] with exactly one row for the user. *)
Theorem reconfirm_keeps_one_payment_row
    (env : rsvp_env) (invitationId s u : uuid) (db : database) :
  payments_unique db ->
  env_profile env = true -> env_spot env = Some s -> env_getUserIdAsUUID env = Ok u ->
  length (payments_of s u db) = 1%nat ->
  length (payments_of s u (run (handleRSVP env invitationId CONFIRMED) db)) = 1%nat
  /\ length (payments_of s u (run (handleCreateRSVP env CONFIRMED) db)) = 1%nat.
Proof.
  intros Huniq Hprof Hspot Huid Hone.
  destruct (one_Payment_one_row s u db Hone) as (old & Hfind).
  split.
  - pose proof (handleRSVP_confirm_payments env invitationId s db Hprof Hspot) as Hp.
    rewrite Huid in Hp.
    destruct (env_invitation_fault env), (env_payment_fault env);
      try (rewrite (payments_of_ext s u _ db Hp); exact Hone).
    rewrite (payments_of_ext s u _ _ Hp).
    now apply (upsertPayment_existing_one_Payment s u NOT_PAID old).
  - destruct (handleCreateRSVP_confirm_payments env s db Hprof Hspot)
      as [Hp | (u' & db1 & Hu' & Hsame & Hp)].
    + rewrite (payments_of_ext s u _ db Hp). exact Hone.
    + rewrite Huid in Hu'. injection Hu' as <-.
      rewrite (payments_of_ext s u _ _ Hp).
      apply (upsertPayment_existing_one_Payment s u NOT_PAID old).
      * unfold payments_unique. now rewrite Hsame.
      * now rewrite Hsame.
Qed.

Lemma reconfirm_keeps_one_payment_row_witness :
  let env := mk_rsvp_env true (Some 1%nat) (Ok 2%nat) None None in
  length (payments_of 1%nat 2%nat (run (handleRSVP env 0%nat CONFIRMED) paid_then_declined_db))
  = 1%nat
  /\ length (payments_of 1%nat 2%nat (run (handleCreateRSVP env CONFIRMED) paid_then_declined_db))
     = 1%nat.
Proof.
  intros env.
  apply (reconfirm_keeps_one_payment_row env 0%nat 1%nat 2%nat paid_then_declined_db).
  - repeat constructor. intros [].
  - reflexivity.
  - reflexivity.
  - reflexivity.
  - reflexivity.
Defined.

(** C8, the confirmation flow.  User 2's payment for spot 1 was marked
    paid by the admin; the user declined and now confirms again through
    [handleRSVP].  The upsert of the confirmation flow writes [not_paid]
    over the stored [paid]. *)
Theorem reconfirm_resets_paid_status :
  let env := mk_rsvp_env true (Some 1%nat) (Ok 2%nat) None None in
  map pay_status (payment_rows 1%nat 2%nat paid_then_declined_db) = [PAID]
  /\ handleRSVP env 0%nat CONFIRMED paid_then_declined_db
     = (Ok done, run (handleRSVP env 0%nat CONFIRMED) paid_then_declined_db)
  /\ map pay_status
       (payment_rows 1%nat 2%nat (run (handleRSVP env 0%nat CONFIRMED) paid_then_declined_db))
     = [NOT_PAID].
Proof. repeat split. Qed.

(** In general: where the pair has a row, a confirmation whose requests
    all succeed stores [not_paid], whatever the status was. *)
Lemma handleRSVP_confirm_overwrites_status
    (env : rsvp_env) (invitationId s u : uuid) (old : payment_row) (db : database) :
  payments_unique db ->
  env_profile env = true -> env_spot env = Some s -> env_getUserIdAsUUID env = Ok u ->
  env_invitation_fault env = None -> env_payment_fault env = None ->
  find (pay_is s u) (payments db) = Some old ->
  payment_rows s u (run (handleRSVP env invitationId CONFIRMED) db)
  = [mk_payment (pay_id old) s u NOT_PAID (pay_drink_total_amount old)].
Proof.
  intros Huniq Hprof Hspot Huid Hifault Hpfault Hfind.
  pose proof (handleRSVP_confirm_payments env invitationId s db Hprof Hspot) as Hp.
  rewrite Huid, Hifault, Hpfault in Hp.
  unfold payment_rows at 1. rewrite Hp.
  destruct (upsertPayment_existing s u NOT_PAID old db Huniq Hfind) as (p & db' & E & _ & Hrows).
  unfold run. rewrite E. exact Hrows.
Qed.

(** C10.  A successful [upsertPayment] writes the payments table only.
    Where the pair has a row, every row keeps its id, its pair and its
    [drink_total_amount]; where it has none, one row is added, with the
    given status and [drink_total_amount = 0]. *)
Theorem upsertPayment_frame (spot_id user_id : uuid) (status : PaymentStatus) (db : database) :
  let db' := run (upsertPayment None spot_id user_id status) db in
  invitations db' = invitations db
  /\ attendance db' = attendance db
  /\ user_drink_selections db' = user_drink_selections db
  /\ drinks db' = drinks db
  /\ profiles db' = profiles db
  /\ match find (pay_is spot_id user_id) (payments db) with
     | Some _ =>
         map pay_id (payments db') = map pay_id (payments db)
         /\ map pay_key (payments db') = map pay_key (payments db)
         /\ map pay_drink_total_amount (payments db')
            = map pay_drink_total_amount (payments db)
         /\ forall p, In p (payments db') ->
                      pay_is spot_id user_id p = true -> pay_status p = status
     | None =>
         payments db'
         = payments db ++ [mk_payment (next_uuid db) spot_id user_id status 0]
     end.
Proof.
  cbv zeta. unfold run, upsertPayment, request.
  destruct (find (pay_is spot_id user_id) (payments db)) as [old|] eqn:Hfind; simpl.
  - repeat split.
    + rewrite map_map. apply map_ext. intros r. now destruct (pay_is spot_id user_id r).
    + rewrite map_map. apply map_ext. intros r.
      destruct (pay_is spot_id user_id r) eqn:Hr; [|reflexivity].
      symmetry. now apply pay_is_key.
    + rewrite map_map. apply map_ext. intros r. now destruct (pay_is spot_id user_id r).
    + intros p Hin Hp. apply in_map_iff in Hin as (r & <- & _).
      destruct (pay_is spot_id user_id r) eqn:Hr; [reflexivity | congruence].
  - repeat split.
Qed.

Lemma upsertInvitation_stores (s u : uuid) (st : InvitationStatus) (db : database) :
  exists r, In r (invitations (run (upsertInvitation None s u st) db))
            /\ inv_spot_id r = s /\ inv_user_id r = u /\ inv_status r = st.
Proof.
  unfold run, upsertInvitation, request.
  destruct (find (inv_is s u) (invitations db)) as [old|] eqn:Hfind; simpl.
  - apply find_some in Hfind as (Hin & Hhit).
    exists (mk_invitation (inv_id old) s u st). split; [|auto].
    apply in_map_iff. exists old. now rewrite Hhit.
  - exists (mk_invitation (next_uuid db) s u st). split; [|auto].
    apply in_or_app. right. now left.
Qed.

(** What [upsertInvitation] does to the invitations depends on the
    invitations and the id supply only. *)
Lemma upsertInvitation_invitations_ext
    (s u : uuid) (st : InvitationStatus) (db1 db2 : database) :
  invitations db1 = invitations db2 -> next_uuid db1 = next_uuid db2 ->
  fst (upsertInvitation None s u st db1) = fst (upsertInvitation None s u st db2)
  /\ invitations (run (upsertInvitation None s u st) db1)
     = invitations (run (upsertInvitation None s u st) db2).
Proof.
  intros Hi Hn. unfold run, upsertInvitation, request. rewrite Hi.
  destruct (find (inv_is s u) (invitations db2)); simpl; [split; reflexivity|].
  now rewrite Hi, Hn.
Qed.

(** [getUserIdAsUUID] writes nothing but, at most, one profiles row. *)
Lemma getUserIdAsUUID_frame (env : rsvp_env) (db : database) :
  fst (getUserIdAsUUID env db) = env_getUserIdAsUUID env
  /\ invitations (snd (getUserIdAsUUID env db)) = invitations db
  /\ payments (snd (getUserIdAsUUID env db)) = payments db
  /\ next_uuid (snd (getUserIdAsUUID env db)) = next_uuid db
  /\ (env_inserts_profile env = false -> snd (getUserIdAsUUID env db) = db).
Proof.
  unfold getUserIdAsUUID.
  destruct (env_getUserIdAsUUID env); [|repeat split].
  destruct (env_inserts_profile env); repeat split. discriminate.
Qed.

(** C6.  When the invitation write of a confirmation succeeds and
    [upsertPayment] fails, [handleRSVP] and [handleCreateRSVP] end without
    an alert; the invitations are those the invitation write produced, so
    the invitation is stored as confirmed, and no payment row changed.
    Where [getUserIdAsUUID] did not have to create the profile, the whole
    database is the one the invitation write produced. *)
Theorem payment_failure_does_not_block_rsvp
    (env : rsvp_env) (invitationId spot : uuid) (e : error) (db : database) :
  env_profile env = true -> env_spot env = Some spot ->
  env_invitation_fault env = None -> env_payment_fault env = Some e ->
  (fst (handleRSVP env invitationId CONFIRMED db) = Ok done
   /\ invitations (run (handleRSVP env invitationId CONFIRMED) db)
      = invitations (run (updateInvitationStatus None invitationId CONFIRMED) db)
   /\ (forall r, In r (invitations db) -> inv_id r = invitationId ->
         In (mk_invitation invitationId (inv_spot_id r) (inv_user_id r) CONFIRMED)
            (invitations (run (handleRSVP env invitationId CONFIRMED) db)))
   /\ payments (run (handleRSVP env invitationId CONFIRMED) db) = payments db
   /\ (env_inserts_profile env = false ->
       handleRSVP env invitationId CONFIRMED db
       = (Ok done, run (updateInvitationStatus None invitationId CONFIRMED) db)))
  /\ (forall userId, env_getUserIdAsUUID env = Ok userId ->
        fst (handleCreateRSVP env CONFIRMED db) = Ok done
        /\ invitations (run (handleCreateRSVP env CONFIRMED) db)
           = invitations (run (upsertInvitation None spot userId CONFIRMED) db)
        /\ (exists r, In r (invitations (run (handleCreateRSVP env CONFIRMED) db))
                      /\ inv_spot_id r = spot /\ inv_user_id r = userId
                      /\ inv_status r = CONFIRMED)
        /\ payments (run (handleCreateRSVP env CONFIRMED) db) = payments db
        /\ (env_inserts_profile env = false ->
            handleCreateRSVP env CONFIRMED db
            = (Ok done, run (upsertInvitation None spot userId CONFIRMED) db))).
Proof.
  destruct env as [prof sp uid ifault pfault ins].
  cbn [env_profile env_spot env_invitation_fault env_getUserIdAsUUID env_payment_fault
       env_inserts_profile].
  intros -> -> -> ->.
  assert (E1 : fst (handleRSVP (make_rsvp_env true (Some spot) uid None (Some e) ins)
                      invitationId CONFIRMED db) = Ok done
               /\ invitations (run (handleRSVP (make_rsvp_env true (Some spot) uid None
                                                  (Some e) ins) invitationId CONFIRMED) db)
                  = invitations (run (updateInvitationStatus None invitationId CONFIRMED) db)
               /\ payments (run (handleRSVP (make_rsvp_env true (Some spot) uid None
                                               (Some e) ins) invitationId CONFIRMED) db)
                  = payments db
               /\ (ins = false ->
                   handleRSVP (make_rsvp_env true (Some spot) uid None (Some e) ins)
                     invitationId CONFIRMED db
                   = (Ok done, run (updateInvitationStatus None invitationId CONFIRMED) db)))
    by (destruct uid, ins; repeat split; discriminate).
  destruct E1 as (Hok1 & Hinv1 & Hpay1 & Hall1).
  split; [repeat split; try assumption|].
  - intros r Hin Hid. rewrite Hinv1. unfold run. simpl.
    apply in_map_iff. exists r. split; [|exact Hin].
    cbv beta. now rewrite Hid, Nat.eqb_refl.
  - intros userId ->.
    set (db0 := if ins then set_profiles (profiles db ++ [mk_profile userId (Some 0)]) db
                else db).
    assert (Hi0 : invitations db0 = invitations db) by (unfold db0; now destruct ins).
    assert (Hn0 : next_uuid db0 = next_uuid db) by (unfold db0; now destruct ins).
    assert (Hp0 : payments db0 = payments db) by (unfold db0; now destruct ins).
    assert (E2 : handleCreateRSVP (make_rsvp_env true (Some spot) (Ok userId) None (Some e) ins)
                   CONFIRMED db
                 = (Ok done, run (upsertInvitation None spot userId CONFIRMED) db0)).
    { unfold handleCreateRSVP, run, try_catch, bind, getUserIdAsUUID, fetchData, ret.
      cbn [env_profile env_spot env_invitation_fault env_getUserIdAsUUID
           env_payment_fault env_inserts_profile InvitationStatus_eqb].
      unfold upsertInvitation, request, db0.
      destruct ins; now destruct (find (inv_is spot userId) _). }
    destruct (upsertInvitation_invitations_ext spot userId CONFIRMED db0 db Hi0 Hn0)
      as (_ & Hinv).
    split; [now rewrite E2|]. split; [unfold run at 1; now rewrite E2|].
    split; [|split].
    + unfold run at 1. rewrite E2. cbn [snd]. rewrite Hinv. apply upsertInvitation_stores.
    + unfold run at 1. rewrite E2. cbn [snd].
      fold (run (upsertInvitation None spot userId CONFIRMED) db0).
      unfold run. now rewrite (upsertInvitation_payments None).
    + intros ->. exact E2.
Qed.

Lemma payment_failure_does_not_block_rsvp_witness :
  let env := make_rsvp_env true (Some 1%nat) (Ok 2%nat) None (Some backend_failure) true in
  (fst (handleRSVP env 0%nat CONFIRMED paid_then_declined_db) = Ok done
   /\ payments (run (handleRSVP env 0%nat CONFIRMED) paid_then_declined_db)
      = payments paid_then_declined_db)
  /\ fst (handleCreateRSVP env CONFIRMED empty_database) = Ok done
  /\ invitations (run (handleCreateRSVP env CONFIRMED) empty_database)
     = [mk_invitation 0%nat 1%nat 2%nat CONFIRMED].
Proof.
  intros env. split.
  - destruct (proj1 (payment_failure_does_not_block_rsvp env 0%nat 1%nat backend_failure
                       paid_then_declined_db eq_refl eq_refl eq_refl eq_refl))
      as (Hok & _ & _ & Hpay & _).
    split; [exact Hok | exact Hpay].
  - destruct (proj2 (payment_failure_does_not_block_rsvp env 0%nat 1%nat backend_failure
                       empty_database eq_refl eq_refl eq_refl eq_refl) 2%nat eq_refl)
      as (Hok & Hinv & _).
    split; [exact Hok | exact Hinv].
Defined.

(** *** The RSVP scenario *)

Lemma filter_map_replace_ext {R : Type} (hit hit' : R -> bool) (upd : R -> R) (l : list R) :
  (forall r, hit' r = hit r) ->
  (forall r, hit r = true -> hit (upd r) = true) ->
  filter hit (map (fun r => if hit' r then upd r else r) l) = map upd (filter hit l).
Proof.
  intros Hext Hupd. rewrite <- (filter_map_replace hit upd l Hupd).
  f_equal. apply map_ext. intros r. now rewrite Hext.
Qed.

(** C2.  The scenario on the empty database, for spot 1, user 2 and
    brand 3: the stored payment row of the pair carries
    [drink_total_amount = 0] after the confirmation and 200 after the
    order, while the row [getPayments] returns for the user carries no
    [drink_total_amount] either time, its mapper copying id, spot, user,
    profile and status only; so the scenario as the claim states it does
    not hold of what [getPayments] shows. *)
Theorem getPayments_row_has_no_drink_total :
  map pay_drink_total_amount
      (payment_rows 1%nat 2%nat (after_confirmation 1%nat 2%nat empty_database)) = [0]
  /\ map pay_drink_total_amount
         (payment_rows 1%nat 2%nat (after_order 1%nat 2%nat 3%nat empty_database)) = [200]
  /\ map Payment_drink_total_amount
         (payments_of 1%nat 2%nat (after_confirmation 1%nat 2%nat empty_database)) = [None]
  /\ map Payment_drink_total_amount
         (payments_of 1%nat 2%nat (after_order 1%nat 2%nat 3%nat empty_database)) = [None]
  /\ ~ scenario_as_stated 1%nat 2%nat 3%nat empty_database.
Proof.
  repeat split. intros ((p & Hp & _ & Htotal) & _). injection Hp as <-. discriminate.
Qed.

Lemma no_lines_no_line (s u b : uuid) (l : list selection_row) :
  filter (fun r => Nat.eqb (sel_spot_id r) s && Nat.eqb (sel_user_id r) u) l = [] ->
  find (line_is s u b) l = None.
Proof.
  unfold line_is. induction l as [|a l IH]; simpl; [reflexivity|].
  destruct (Nat.eqb (sel_spot_id a) s && Nat.eqb (sel_user_id a) u); simpl;
    [discriminate | exact IH].
Qed.

Lemma rev_nil_inv {A : Type} (l : list A) : rev l = [] -> l = [].
Proof.
  intros H. apply (f_equal (@rev A)) in H. now rewrite rev_involutive in H.
Qed.

Lemma upsertInvitation_frame (s u : uuid) (st : InvitationStatus) (db : database) :
  exists i db1,
    upsertInvitation None s u st db = (Ok i, db1)
    /\ payments db1 = payments db
    /\ user_drink_selections db1 = user_drink_selections db.
Proof.
  unfold upsertInvitation, request.
  destruct (find (inv_is s u) (invitations db)); eexists; eexists;
    (split; [reflexivity|]); split; reflexivity.
Qed.

Lemma upsertPayment_fresh_run (s u : uuid) (st : PaymentStatus) (db : database) :
  find (pay_is s u) (payments db) = None ->
  upsertPayment None s u st db
  = (Ok (toPayment (mk_payment (next_uuid db) s u st 0)),
     set_payments (payments db ++ [mk_payment (next_uuid db) s u st 0])
                  (snd (gen_random_uuid db))).
Proof. intros Hfind. unfold upsertPayment, request. now rewrite Hfind. Qed.

Lemma upsertSelection_fresh_run (now : timestamp) (s u b : uuid) (q up t : Z)
    (db : database) :
  0 < q <= INT4_MAX -> js_mul (num q) (num up) = num t ->
  find (line_is s u b) (user_drink_selections db) = None ->
  let line := mk_selection (next_uuid db) s u b q up t now in
  upsertSelection None now s u b q up db
  = (Ok line,
     update_payment_drink_total None (Some line)
       (set_user_drink_selections (user_drink_selections db ++ [line])
          (snd (gen_random_uuid db)))).
Proof.
  intros Hq Ht Hfind line. unfold upsertSelection, request, upsert_user_drink_selections.
  rewrite Ht, (int4_range_positive q Hq). cbn [negb].
  destruct (q <=? 0) eqn:Hle; [apply Z.leb_le in Hle; lia|].
  now rewrite Hfind.
Qed.

(** The scenario on the stored row.  Let the user have no invitation, no
    payment row and no selection line for the spot.  After
    [upsertInvitation(spot, user, confirmed)] and one
    [upsertPayment(spot, user, not_paid)], [getPayments(spot)] returns
    exactly one row for the user, with status [not_paid], and the stored
    payment row of the pair has [drink_total_amount = 0]; after
    [upsertSelection(spot, user, brandX, 2, 100)] the same stored row has
    [drink_total_amount = 200] and [getPayments(spot)] still returns
    exactly one row for the user, with status [not_paid]. *)
Theorem rsvp_then_order_scenario (spot user brandX : uuid) (db : database) :
  find (inv_is spot user) (invitations db) = None ->
  payment_rows spot user db = [] ->
  getUserSelections spot user db = [] ->
  exists id,
    payment_rows spot user (after_confirmation spot user db)
    = [mk_payment id spot user NOT_PAID 0]
    /\ (exists p, payments_of spot user (after_confirmation spot user db) = [p]
                  /\ Payment_user_id p = user /\ Payment_status p = NOT_PAID)
    /\ payment_rows spot user (after_order spot user brandX db)
       = [mk_payment id spot user NOT_PAID 200]
    /\ (exists p, payments_of spot user (after_order spot user brandX db) = [p]
                  /\ Payment_user_id p = user /\ Payment_status p = NOT_PAID).
Proof.
  intros _ Hpay Hsel.
  unfold payment_rows in Hpay. unfold getUserSelections in Hsel.
  apply rev_nil_inv in Hsel.
  destruct (upsertInvitation_frame spot user CONFIRMED db) as (i & db1 & E1 & Hp1 & Hs1).
  rewrite <- Hp1 in Hpay. rewrite <- Hs1 in Hsel.
  set (new := mk_payment (next_uuid db1) spot user NOT_PAID 0).
  set (db2 := set_payments (payments db1 ++ [new]) (snd (gen_random_uuid db1))).
  assert (Hconf : after_confirmation spot user db = db2).
  { unfold after_confirmation, run, bind. rewrite E1.
    now rewrite (upsertPayment_fresh_run spot user NOT_PAID db1 (filter_nil_find _ _ Hpay)). }
  assert (Hrows2 : payment_rows spot user db2 = [new]).
  { unfold payment_rows. cbn [db2 payments set_payments].
    apply filter_snoc_fresh; [now apply filter_nil_find|].
    unfold pay_is, pair_is. simpl. now rewrite !Nat.eqb_refl. }
  set (line := mk_selection (next_uuid db2) spot user brandX 2 100 200 0%nat).
  set (db3 := update_payment_drink_total None (Some line)
                (set_user_drink_selections (user_drink_selections db2 ++ [line])
                   (snd (gen_random_uuid db2)))).
  assert (Horder : after_order spot user brandX db = db3).
  { unfold after_order, run. rewrite Hconf.
    rewrite (upsertSelection_fresh_run 0%nat spot user brandX 2 100 200 db2);
      [reflexivity | unfold INT4_MAX; lia | reflexivity |].
    apply no_lines_no_line. exact Hsel. }
  assert (Htotal : Sql.coalesce
                     (Sql.sum (map sel_total_price
                        (filter (fun r => of_new_pair (Some line) (sel_spot_id r) (sel_user_id r))
                                (user_drink_selections db1 ++ [line])))) 0 = 200).
  { rewrite coalesce_sum, filter_app.
    rewrite (filter_ext _ (fun r => Nat.eqb (sel_spot_id r) spot && Nat.eqb (sel_user_id r) user))
      by (intros r; apply of_new_pair_some).
    rewrite Hsel. cbn [filter app]. rewrite of_new_pair_some. simpl.
    now rewrite !Nat.eqb_refl. }
  assert (Hrows3 : payment_rows spot user db3
                   = [mk_payment (next_uuid db1) spot user NOT_PAID 200]).
  { unfold payment_rows, db3, update_payment_drink_total.
    change (user_drink_selections
              (set_user_drink_selections (user_drink_selections db2 ++ [line])
                 (snd (gen_random_uuid db2))))
      with (user_drink_selections db1 ++ [line]).
    rewrite Htotal.
    change (payments (set_payments _ _)) with
      (map (fun p => if of_new_pair (Some line) (pay_spot_id p) (pay_user_id p)
                     then mk_payment (pay_id p) (pay_spot_id p) (pay_user_id p)
                                     (pay_status p) 200
                     else p) (payments db2)).
    rewrite (filter_map_replace_ext (pay_is spot user)
               (fun p => of_new_pair (Some line) (pay_spot_id p) (pay_user_id p))
               (fun p => mk_payment (pay_id p) (pay_spot_id p) (pay_user_id p)
                                    (pay_status p) 200)).
    - fold (payment_rows spot user db2). rewrite Hrows2. reflexivity.
    - intros r. apply of_new_pair_some.
    - intros r Hr. exact Hr. }
  exists (next_uuid db1). rewrite Hconf, Horder, !payments_of_rows, Hrows2, Hrows3.
  repeat split; eexists; (split; [reflexivity|]); split; reflexivity.
Qed.

Lemma rsvp_then_order_scenario_witness :
  exists id,
    payment_rows 1%nat 2%nat (after_confirmation 1%nat 2%nat empty_database)
    = [mk_payment id 1%nat 2%nat NOT_PAID 0]
    /\ (exists p, payments_of 1%nat 2%nat (after_confirmation 1%nat 2%nat empty_database) = [p]
                  /\ Payment_user_id p = 2%nat /\ Payment_status p = NOT_PAID)
    /\ payment_rows 1%nat 2%nat (after_order 1%nat 2%nat 3%nat empty_database)
       = [mk_payment id 1%nat 2%nat NOT_PAID 200]
    /\ (exists p, payments_of 1%nat 2%nat (after_order 1%nat 2%nat 3%nat empty_database) = [p]
                  /\ Payment_user_id p = 2%nat /\ Payment_status p = NOT_PAID).
Proof.
  apply (rsvp_then_order_scenario 1%nat 2%nat 3%nat empty_database).
  - reflexivity.
  - reflexivity.
  - reflexivity.
Defined.

(** * Further properties *)

(** ** The cart and the stored total *)

Lemma sum_rev (l : list Z) : fold_right Z.add 0 (rev l) = fold_right Z.add 0 l.
Proof.
  induction l as [|x l IH]; simpl; [reflexivity|].
  rewrite fold_right_app. simpl. rewrite <- IH.
  generalize (rev l). intros m. induction m as [|y m IHm]; simpl; lia.
Qed.

Lemma sum_abs_nonneg {A : Type} (f : A -> Z) (l : list A) :
  0 <= fold_right Z.add 0 (map (fun x => Z.abs (f x)) l).
Proof. induction l as [|x l IH]; simpl; lia. Qed.

(** While the magnitudes sum to at most [2 ^ 53], every partial sum of a
    reduce is a whole number that a double holds, and the reduce is the
    exact sum. *)
Lemma js_reduce_exact {A : Type} (f : A -> Z) (l : list A) (a : Z) :
  Z.abs a + fold_right Z.add 0 (map (fun x => Z.abs (f x)) l) <= 2 ^ 53 ->
  fold_left (fun sum x => js_add sum (num (f x))) l (num a)
  = num (a + fold_right Z.add 0 (map f l)).
Proof.
  revert a. induction l as [|x l IH]; intros a Hb; cbn [fold_left fold_right map] in *.
  - f_equal. lia.
  - pose proof (sum_abs_nonneg f l) as Hnn.
    rewrite js_add_exact by lia. rewrite IH by lia. f_equal. lia.
Qed.

(** The page's cart amount is the sum the trigger computes, while the
    cart stays within the range of exact double arithmetic. *)
Lemma totalCartAmount_lines_total (s u : uuid) (db : database) :
  cart_magnitude (getUserSelections s u db) <= 2 ^ 53 ->
  totalCartAmount (getUserSelections s u db) = num (lines_total s u db).
Proof.
  intros Hb. unfold totalCartAmount. rewrite js_reduce_exact.
  - f_equal. unfold getUserSelections, lines_total. now rewrite map_rev, sum_rev.
  - exact Hb.
Qed.

(** What [upsertSelection] does, case by case: a rejected call writes
    nothing; an accepted one replaces the line of the key or appends a
    fresh one, and fires the trigger. *)
Lemma upsertSelection_cases (fault : option error) (now : timestamp)
    (s u b : uuid) (q up : Z) (db : database) :
  (exists e, upsertSelection fault now s u b q up db = (Err e, db))
  \/ (fault = None /\ 0 < q <= INT4_MAX
      /\ exists t,
           js_mul (num q) (num up) = num t
           /\ upsertSelection fault now s u b q up db
              = match find (line_is s u b) (user_drink_selections db) with
                | Some old =>
                    (Ok (mk_selection (sel_id old) s u b q up t now),
                     update_payment_drink_total (Some old)
                       (Some (mk_selection (sel_id old) s u b q up t now))
                       (set_user_drink_selections
                          (map (fun r => if line_is s u b r
                                         then mk_selection (sel_id r) s u b q up t now
                                         else r)
                               (user_drink_selections db)) db))
                | None =>
                    (Ok (mk_selection (next_uuid db) s u b q up t now),
                     update_payment_drink_total None
                       (Some (mk_selection (next_uuid db) s u b q up t now))
                       (set_user_drink_selections
                          (user_drink_selections db
                           ++ [mk_selection (next_uuid db) s u b q up t now])
                          (snd (gen_random_uuid db))))
                end).
Proof.
  unfold upsertSelection, request, upsert_user_drink_selections.
  destruct fault as [e|]; [left; now exists e|].
  destruct (int4_range q) eqn:Hr; cbn [negb]; [|left; now eexists].
  destruct (js_mul (num q) (num up)) as [t|]; [|left; now eexists].
  destruct (q <=? 0) eqn:Hle; [left; now eexists|].
  apply Z.leb_gt in Hle. apply int4_range_iff in Hr.
  right. split; [reflexivity|]. split; [lia|]. exists t. split; [reflexivity|].
  now destruct (find (line_is s u b) (user_drink_selections db)).
Qed.

Lemma upsertSelection_failure_unchanged
    (fault : option error) (now : timestamp) (s u b : uuid) (q up : Z)
    (db db' : database) (e : error) :
  upsertSelection fault now s u b q up db = (Err e, db') -> db' = db.
Proof.
  destruct (upsertSelection_cases fault now s u b q up db)
    as [(e0 & E) | (_ & _ & t & _ & E)]; rewrite E.
  - now intros [= _ <-].
  - destruct (find (line_is s u b) (user_drink_selections db)); discriminate.
Qed.

Lemma upsertSelection_in_sync (now : timestamp) (s u b : uuid) (q up : Z)
    (r : selection_row) (db db' : database) :
  upsertSelection None now s u b q up db = (Ok r, db') -> payment_in_sync s u db'.
Proof.
  destruct (upsertSelection_cases None now s u b q up db)
    as [(e0 & E) | (_ & _ & t & _ & E)]; rewrite E; [discriminate|].
  destruct (find (line_is s u b) (user_drink_selections db)) as [old|];
    intros [= _ <-].
  - exact (update_payment_drink_total_in_sync (Some old)
             (mk_selection (sel_id old) s u b q up t now) _).
  - exact (update_payment_drink_total_in_sync None
             (mk_selection (next_uuid db) s u b q up t now) _).
Qed.

(** X1.  After a successful [upsertSelection], and while the user's line
    totals are whole numbers whose magnitudes sum to at most [2 ^ 53],
    every payment row of the pair stores exactly the cart amount the
    drinks page computes from [getUserSelections]. *)
Theorem upsertSelection_total_is_cart_amount
    (now : timestamp) (s u b : uuid) (q up : Z) (r : selection_row)
    (db db' : database) (p : payment_row) :
  upsertSelection None now s u b q up db = (Ok r, db') ->
  cart_magnitude (getUserSelections s u db') <= 2 ^ 53 ->
  In p (payment_rows s u db') ->
  num (pay_drink_total_amount p) = totalCartAmount (getUserSelections s u db').
Proof.
  intros E Hb Hp. unfold payment_rows in Hp.
  apply filter_In in Hp as (Hin & Hhit). apply pay_is_key in Hhit.
  injection Hhit as Hs Hu.
  rewrite (totalCartAmount_lines_total s u db' Hb). f_equal.
  exact (upsertSelection_in_sync now s u b q up r db db' E p Hin Hs Hu).
Qed.

Lemma upsertSelection_total_is_cart_amount_witness :
  num (pay_drink_total_amount (mk_payment 0%nat 1%nat 2%nat NOT_PAID 350))
  = totalCartAmount (getUserSelections 1%nat 2%nat
      (run (upsertSelection None 5%nat 1%nat 2%nat 4%nat 3 50) one_line_db)).
Proof.
  apply (upsertSelection_total_is_cart_amount 5%nat 1%nat 2%nat 4%nat 3 50
           (mk_selection 2%nat 1%nat 2%nat 4%nat 3 50 150 5%nat) one_line_db).
  - reflexivity.
  - vm_compute. discriminate.
  - left. reflexivity.
Defined.

(** X2.  [upsertSelection] fails exactly when the request fails, when the
    quantity is not between 1 and 2147483647, or when the product of
    quantity and unit price is not a finite number; a failed call leaves
    the database as it was. *)
Theorem upsertSelection_fails_iff
    (fault : option error) (now : timestamp) (s u b : uuid) (q up : Z) (db : database) :
  ((exists e, fst (upsertSelection fault now s u b q up db) = Err e)
   <-> (fault <> None \/ ~ 0 < q <= INT4_MAX
        \/ js_mul (num q) (num up) = not_finite))
  /\ (forall e db', upsertSelection fault now s u b q up db = (Err e, db') -> db' = db).
Proof.
  split; [|intros e db'; apply upsertSelection_failure_unchanged].
  unfold upsertSelection, request, upsert_user_drink_selections.
  destruct fault as [e0|].
  { split; [intros _; left; discriminate | intros _; now exists e0]. }
  destruct (int4_range q) eqn:Hr; cbn [negb].
  - apply int4_range_iff in Hr.
    destruct (js_mul (num q) (num up)) as [t|].
    + destruct (q <=? 0) eqn:Hle.
      * apply Z.leb_le in Hle.
        split; [intros _; right; left; lia | intros _; now eexists].
      * apply Z.leb_gt in Hle.
        destruct (find (line_is s u b) (user_drink_selections db)); simpl;
          (split; [intros (e & [=])
                  | intros [H|[H|H]]; [congruence | lia | discriminate]]).
    + split; [intros _; right; right; reflexivity | intros _; now eexists].
  - split; [|intros _; now eexists].
    intros _. right. left. intros Hq.
    rewrite (int4_range_positive q Hq) in Hr. discriminate.
Qed.

(** ** Selection writes: invariants, idempotence, deletions *)

Lemma set_user_drink_selections_same (db : database) :
  set_user_drink_selections (user_drink_selections db) db = db.
Proof. now destruct db. Qed.

Lemma fold_update_payment_drink_total_null (deleted : list selection_row) (db : database) :
  fold_left (fun d old => update_payment_drink_total (Some old) None d) deleted db = db.
Proof.
  revert db. induction deleted as [|a l IH]; intros db; simpl; [reflexivity|].
  rewrite update_payment_drink_total_null. apply IH.
Qed.

Lemma deleteAllUserSelections_run (fault : option error) (s u : uuid) (db : database) :
  deleteAllUserSelections fault s u db
  = match fault with
    | Some e => (Err e, db)
    | None =>
        (Ok tt,
         set_user_drink_selections
           (filter (fun r => negb (Nat.eqb (sel_spot_id r) s && Nat.eqb (sel_user_id r) u))
                   (user_drink_selections db)) db)
    end.
Proof.
  destruct fault; [reflexivity|].
  unfold deleteAllUserSelections, request, delete_user_drink_selections_of.
  now rewrite fold_update_payment_drink_total_null.
Qed.

Lemma NoDup_map_filter {R K : Type} (key : R -> K) (keep : R -> bool) (l : list R) :
  NoDup (map key l) -> NoDup (map key (filter keep l)).
Proof.
  induction l as [|a l IH]; simpl; intros Hnd; [constructor|].
  inversion Hnd as [|x xs Hnotin Hnd']; subst.
  destruct (keep a); simpl; [|now apply IH].
  constructor; [|now apply IH].
  intros Hin. apply Hnotin. apply in_map_iff in Hin as (r & Hr & Hin).
  apply filter_In in Hin as (Hin & _). apply in_map_iff. now exists r.
Qed.

Lemma upsertSelection_rows (fault : option error) (now : timestamp) (s u b : uuid)
    (q up : Z) (db : database) (r : selection_row) :
  In r (user_drink_selections (run (upsertSelection fault now s u b q up) db)) ->
  In r (user_drink_selections db)
  \/ (0 < q <= INT4_MAX
      /\ exists t, js_mul (num q) (num up) = num t
                   /\ r = mk_selection (sel_id r) s u b q up t now).
Proof.
  unfold run.
  destruct (upsertSelection_cases fault now s u b q up db)
    as [(e0 & E) | (_ & Hq & t & Ht & E)]; rewrite E; [now left|].
  destruct (find (line_is s u b) (user_drink_selections db)); simpl.
  - intros Hin. apply in_map_iff in Hin as (x & Hx & Hin).
    destruct (line_is s u b x); subst r; [right | left]; eauto.
  - intros Hin. apply in_app_or in Hin as [Hin|[<-|[]]]; [left | right]; eauto.
Qed.

Lemma upsertSelection_unique (fault : option error) (now : timestamp) (s u b : uuid)
    (q up : Z) (db : database) :
  selections_unique db ->
  selections_unique (run (upsertSelection fault now s u b q up) db).
Proof.
  intros Huniq. unfold run.
  destruct (upsertSelection_cases fault now s u b q up db)
    as [(e0 & E) | (-> & Hq & t & Ht & _)]; [now rewrite E|].
  destruct (upsertSelection_step now s u b q up t db Huniq Hq Ht) as (r & db' & E & Hu & _).
  now rewrite E.
Qed.

(** X3.  The writes of the selection service and the quantity handler
    keep the table's invariants: one row per (spot, user, brand), and on
    every row a quantity between 1 and 2147483647 with the [total_price]
    the client computed, the double product of quantity and unit price. *)
Theorem selection_writes_keep_invariants
    (fault : option error) (now : timestamp) (s u b id : uuid) (q up newQuantity : Z)
    (selection : selection_row) (db : database) :
  selections_unique db -> lines_priced db ->
  (selections_unique (run (upsertSelection fault now s u b q up) db)
   /\ lines_priced (run (upsertSelection fault now s u b q up) db))
  /\ (selections_unique (run (deleteSelection fault id) db)
      /\ lines_priced (run (deleteSelection fault id) db))
  /\ (selections_unique (run (deleteAllUserSelections fault s u) db)
      /\ lines_priced (run (deleteAllUserSelections fault s u) db))
  /\ (selections_unique (run (handleUpdateQuantity fault now selection newQuantity) db)
      /\ lines_priced (run (handleUpdateQuantity fault now selection newQuantity) db)).
Proof.
  intros Huniq Hpriced.
  assert (Hup : forall s u b q up,
             selections_unique (run (upsertSelection fault now s u b q up) db)
             /\ lines_priced (run (upsertSelection fault now s u b q up) db)).
  { intros s0 u0 b0 q0 up0. split; [now apply upsertSelection_unique|].
    intros r Hr. apply upsertSelection_rows in Hr as [Hr|(Hq & t & Ht & Hr)];
      [now apply Hpriced|].
    rewrite Hr. cbn [sel_quantity sel_unit_price sel_total_price].
    split; [exact Hq | now symmetry]. }
  assert (Hdel : forall id,
             selections_unique (run (deleteSelection fault id) db)
             /\ lines_priced (run (deleteSelection fault id) db)).
  { intros id0. unfold run. rewrite deleteSelection_run.
    destruct fault; [now split|]. simpl. split.
    - now apply NoDup_map_filter.
    - intros r Hr. apply filter_In in Hr as (Hr & _). now apply Hpriced. }
  split; [apply Hup|]. split; [apply Hdel|]. split.
  - unfold run. rewrite deleteAllUserSelections_run.
    destruct fault; [now split|]. simpl. split.
    + now apply NoDup_map_filter.
    + intros r Hr. apply filter_In in Hr as (Hr & _). now apply Hpriced.
  - unfold handleUpdateQuantity, run, bind, fetchData, ret.
    destruct (newQuantity <=? 0).
    + specialize (Hdel (sel_id selection)). unfold run in Hdel.
      destruct (deleteSelection fault (sel_id selection) db) as [[[]|e] d']; exact Hdel.
    + specialize (Hup (sel_spot_id selection) (sel_user_id selection)
                      (sel_drink_brand_id selection) newQuantity (sel_unit_price selection)).
      unfold run in Hup.
      destruct (upsertSelection fault now (sel_spot_id selection) (sel_user_id selection)
                  (sel_drink_brand_id selection) newQuantity (sel_unit_price selection) db)
        as [[r|e] d']; exact Hup.
Qed.

Lemma selection_writes_keep_invariants_witness :
  selections_unique (run (upsertSelection None 5%nat 1%nat 2%nat 4%nat 3 50) one_line_db)
  /\ lines_priced (run (upsertSelection None 5%nat 1%nat 2%nat 4%nat 3 50) one_line_db).
Proof.
  apply (selection_writes_keep_invariants None 5%nat 1%nat 2%nat 4%nat 1%nat 3 50 0
           (mk_selection 1%nat 1%nat 2%nat 3%nat 2 100 200 0%nat) one_line_db).
  - repeat constructor. intros [].
  - intros r [<-|[]]. unfold INT4_MAX. simpl. split; [lia | reflexivity].
Defined.

(** The trigger function is idempotent: recomputing again for the same
    row changes nothing. *)
Lemma update_payment_drink_total_idempotent
    (OLD1 OLD2 NEW : option selection_row) (db : database) :
  update_payment_drink_total OLD2 NEW (update_payment_drink_total OLD1 NEW db)
  = update_payment_drink_total OLD1 NEW db.
Proof.
  unfold update_payment_drink_total, set_payments. simpl. f_equal.
  rewrite map_map. apply map_ext. intros p.
  destruct (of_new_pair NEW (pay_spot_id p) (pay_user_id p)) eqn:Hp; simpl; now rewrite Hp.
Qed.

Lemma update_payment_drink_total_set_selections
    (OLD NEW : option selection_row) (l : list selection_row) (db : database) :
  user_drink_selections db = l ->
  set_user_drink_selections l (update_payment_drink_total OLD NEW db)
  = update_payment_drink_total OLD NEW db.
Proof. intros <-. now destruct db. Qed.

Lemma find_replace {R : Type} (hit : R -> bool) (upd : R -> R) (l : list R) (old : R) :
  (forall r, hit r = true -> hit (upd r) = true) ->
  find hit l = Some old ->
  find hit (map (fun r => if hit r then upd r else r) l) = Some (upd old).
Proof.
  intros Hupd. induction l as [|a l IH]; simpl; [discriminate|].
  destruct (hit a) eqn:Ha.
  - intros [= <-]. now rewrite (Hupd a Ha).
  - rewrite Ha. exact IH.
Qed.

Lemma map_replace_twice {R : Type} (hit : R -> bool) (upd : R -> R) (l : list R) :
  (forall r, hit r = true -> hit (upd r) = true) ->
  (forall r, hit r = true -> upd (upd r) = upd r) ->
  map (fun r => if hit r then upd r else r)
      (map (fun r => if hit r then upd r else r) l)
  = map (fun r => if hit r then upd r else r) l.
Proof.
  intros Hupd Hidem. rewrite map_map. apply map_ext. intros r.
  destruct (hit r) eqn:Hr; [|now rewrite Hr].
  now rewrite (Hupd r Hr), (Hidem r Hr).
Qed.

Lemma map_replace_fresh {R : Type} (hit : R -> bool) (upd : R -> R) (l : list R) (new : R) :
  find hit l = None -> hit new = true -> upd new = new ->
  map (fun r => if hit r then upd r else r) (l ++ [new]) = l ++ [new].
Proof.
  intros Hnone Hnew Hsame. rewrite map_app. f_equal.
  - rewrite <- (map_id l) at 2. apply map_ext_in. intros x Hx.
    now rewrite (find_none _ _ Hnone x Hx).
  - simpl. now rewrite Hnew, Hsame.
Qed.

(** The trigger function looks at the pair of NEW only, and at nothing
    of a line but its pair and its total. *)
Lemma update_payment_drink_total_same_pair
    (OLD1 OLD2 : option selection_row) (new1 new2 : selection_row) (db : database) :
  sel_spot_id new1 = sel_spot_id new2 -> sel_user_id new1 = sel_user_id new2 ->
  update_payment_drink_total OLD1 (Some new1) db
  = update_payment_drink_total OLD2 (Some new2) db.
Proof.
  intros Hs Hu. unfold update_payment_drink_total.
  assert (Hpair : forall a c, of_new_pair (Some new1) a c = of_new_pair (Some new2) a c)
    by (intros a c; now rewrite !of_new_pair_some, Hs, Hu).
  rewrite (filter_ext _ _ (fun r => Hpair (sel_spot_id r) (sel_user_id r))).
  f_equal. apply map_ext. intros p. now rewrite Hpair.
Qed.

Lemma filter_map_without_updated_at (keep : selection_row -> bool) (l : list selection_row) :
  (forall r, keep (without_updated_at r) = keep r) ->
  filter keep (map without_updated_at l) = map without_updated_at (filter keep l).
Proof.
  intros Hk. induction l as [|a l IH]; simpl; [reflexivity|].
  rewrite Hk. destruct (keep a); simpl; now rewrite IH.
Qed.

Lemma forget_updated_at_trigger (OLD NEW : option selection_row) (db : database) :
  forget_updated_at (update_payment_drink_total OLD NEW db)
  = update_payment_drink_total OLD NEW (forget_updated_at db).
Proof.
  unfold forget_updated_at, update_payment_drink_total, set_user_drink_selections,
    set_payments.
  cbn [invitations payments attendance user_drink_selections drinks profiles next_uuid].
  rewrite filter_map_without_updated_at by reflexivity.
  now rewrite map_map.
Qed.

Lemma forget_updated_at_set (l : list selection_row) (db : database) :
  forget_updated_at (set_user_drink_selections l db)
  = set_user_drink_selections (map without_updated_at l) db.
Proof. reflexivity. Qed.

(** X4.  [upsertSelection] is idempotent but for the [updated_at] stamp:
    after a successful call, the same call again at any time succeeds,
    returns the same row with the new stamp, and leaves every table, the
    payment totals included, as the first call left it, stamps apart; at
    the same reading of the clock it changes nothing at all. *)
Theorem upsertSelection_idempotent
    (t1 t2 : timestamp) (s u b : uuid) (q up : Z) (r : selection_row) (db db1 : database) :
  upsertSelection None t1 s u b q up db = (Ok r, db1) ->
  (exists db2,
     upsertSelection None t2 s u b q up db1
     = (Ok (mk_selection (sel_id r) (sel_spot_id r) (sel_user_id r) (sel_drink_brand_id r)
                         (sel_quantity r) (sel_unit_price r) (sel_total_price r) t2), db2)
     /\ forget_updated_at db2 = forget_updated_at db1)
  /\ upsertSelection None t1 s u b q up db1 = (Ok r, db1).
Proof.
  intros E1.
  destruct (upsertSelection_cases None t1 s u b q up db)
    as [(e0 & E) | (_ & Hq & t & Ht & E)]; rewrite E in E1; [discriminate|].
  assert (Hc : forall now x, line_is s u b x = true ->
                 line_is s u b (mk_selection (sel_id x) s u b q up t now) = true)
    by (intros now x _; unfold line_is; simpl; now rewrite !Nat.eqb_refl).
  assert (Hnew : forall now id, line_is s u b (mk_selection id s u b q up t now) = true)
    by (intros now id; unfold line_is; simpl; now rewrite !Nat.eqb_refl).
  assert (Hagain : forall now,
            exists old,
              find (line_is s u b) (user_drink_selections db1) = Some old
              /\ old = r
              /\ upsertSelection None now s u b q up db1
                 = (Ok (mk_selection (sel_id old) s u b q up t now),
                    update_payment_drink_total (Some old)
                      (Some (mk_selection (sel_id old) s u b q up t now))
                      (set_user_drink_selections
                         (map (fun x => if line_is s u b x
                                        then mk_selection (sel_id x) s u b q up t now
                                        else x)
                              (user_drink_selections db1)) db1))).
  { intros now.
    assert (Hfind1 : find (line_is s u b) (user_drink_selections db1) = Some r).
    { destruct (find (line_is s u b) (user_drink_selections db)) as [old|] eqn:Hfind;
        injection E1 as <- <-; rewrite update_payment_drink_total_selections;
        cbn [user_drink_selections set_user_drink_selections gen_random_uuid snd].
      - exact (find_replace (line_is s u b)
                 (fun x => mk_selection (sel_id x) s u b q up t t1) _ old (Hc t1) Hfind).
      - exact (find_snoc_fresh (line_is s u b) _ _ Hfind (Hnew t1 _)). }
    exists r. split; [exact Hfind1|]. split; [reflexivity|].
    destruct (upsertSelection_cases None now s u b q up db1)
      as [(e0 & E') | (_ & _ & t' & Ht' & E')].
    - exfalso. revert E'.
      unfold upsertSelection, request, upsert_user_drink_selections.
      rewrite Ht, (int4_range_positive q Hq). cbn [negb].
      destruct (q <=? 0) eqn:Hle; [apply Z.leb_le in Hle; lia|].
      rewrite Hfind1. discriminate.
    - rewrite Ht in Ht'. injection Ht' as <-. rewrite E', Hfind1. reflexivity. }
  assert (Hr : r = mk_selection (sel_id r) s u b q up t t1).
  { destruct (find (line_is s u b) (user_drink_selections db)); injection E1 as <- _;
      reflexivity. }
  assert (Hdb1 : exists OLD dbm,
             db1 = update_payment_drink_total OLD (Some r) dbm).
  { destruct (find (line_is s u b) (user_drink_selections db)); injection E1 as <- <-;
      eexists; eexists; reflexivity. }
  destruct Hdb1 as (OLD & dbm & Hdb1).
  assert (Hrows1 : forall x, In x (user_drink_selections db1) -> line_is s u b x = true ->
                     x = mk_selection (sel_id x) s u b q up t t1).
  { destruct (find (line_is s u b) (user_drink_selections db)) as [old|] eqn:Hfind;
      injection E1 as _ <-; rewrite update_payment_drink_total_selections;
      cbn [user_drink_selections set_user_drink_selections gen_random_uuid snd];
      intros x Hx Hhit.
    - apply in_map_iff in Hx as (y & Hy & _).
      destruct (line_is s u b y) eqn:Hhy; subst x; [reflexivity|congruence].
    - apply in_app_or in Hx as [Hx|[<-|[]]]; [|reflexivity].
      rewrite (find_none _ _ Hfind x Hx) in Hhit. discriminate. }
  split.
  - destruct (Hagain t2) as (old & _ & -> & E2). rewrite E2.
    eexists. split.
    + f_equal. rewrite Hr. reflexivity.
    + rewrite forget_updated_at_trigger, forget_updated_at_set.
      replace (map without_updated_at
                 (map (fun x => if line_is s u b x
                                then mk_selection (sel_id x) s u b q up t t2 else x)
                      (user_drink_selections db1)))
        with (map without_updated_at (user_drink_selections db1)).
      * change (set_user_drink_selections (map without_updated_at (user_drink_selections db1))
                  db1) with (forget_updated_at db1).
        rewrite (update_payment_drink_total_same_pair (Some r) OLD _ r)
          by (rewrite Hr; reflexivity).
        rewrite <- forget_updated_at_trigger. f_equal.
        rewrite Hdb1. apply update_payment_drink_total_idempotent.
      * rewrite map_map. apply map_ext_in. intros x Hx.
        destruct (line_is s u b x) eqn:Hhit; [|reflexivity].
        rewrite (Hrows1 x Hx Hhit) at 1. reflexivity.
  - destruct (Hagain t1) as (old & _ & -> & E2). rewrite E2.
    f_equal; [f_equal; now rewrite Hr at 2|].
    replace (map (fun x => if line_is s u b x
                           then mk_selection (sel_id x) s u b q up t t1 else x)
                 (user_drink_selections db1))
      with (user_drink_selections db1).
    + rewrite set_user_drink_selections_same.
      rewrite (update_payment_drink_total_same_pair (Some r) OLD _ r)
        by (rewrite Hr; reflexivity).
      rewrite Hdb1. apply update_payment_drink_total_idempotent.
    + rewrite <- (map_id (user_drink_selections db1)) at 1.
      apply map_ext_in. intros x Hx.
      destruct (line_is s u b x) eqn:Hhit; [|reflexivity].
      now apply Hrows1.
Qed.

Lemma upsertSelection_idempotent_witness :
  upsertSelection None 0%nat 1%nat 2%nat 3%nat 2 100 one_line_db
  = (Ok (mk_selection 1%nat 1%nat 2%nat 3%nat 2 100 200 0%nat), one_line_db).
Proof.
  apply (upsertSelection_idempotent 0%nat 9%nat 1%nat 2%nat 3%nat 2 100 _
           (run (upsertPayment None 1%nat 2%nat NOT_PAID) empty_database)).
  reflexivity.
Defined.

Lemma filter_all {A : Type} (keep : A -> bool) (l : list A) :
  (forall x, In x l -> keep x = true) -> filter keep l = l.
Proof.
  induction l as [|a l IH]; simpl; intros H; [reflexivity|].
  rewrite (H a (or_introl eq_refl)). f_equal. apply IH. intros x Hx. apply H. now right.
Qed.

Lemma filter_filter_imp {A : Type} (p keep : A -> bool) (l : list A) :
  (forall x, p x = true -> keep x = true) ->
  filter p (filter keep l) = filter p l.
Proof.
  intros Himp. induction l as [|a l IH]; simpl; [reflexivity|].
  destruct (keep a) eqn:Hk; simpl.
  - destruct (p a); now rewrite IH.
  - destruct (p a) eqn:Hp; [rewrite (Himp a Hp) in Hk; discriminate | exact IH].
Qed.

Lemma filter_none {A : Type} (p : A -> bool) (l : list A) :
  (forall x, In x l -> p x = false) -> filter p l = [].
Proof.
  induction l as [|a l IH]; simpl; intros H; [reflexivity|].
  rewrite (H a (or_introl eq_refl)). apply IH. intros x Hx. apply H. now right.
Qed.

(** X5.  Deleting a selection id that no line carries is not an error:
    the call succeeds and the database is exactly as before. *)
Theorem deleteSelection_unknown_id (id : uuid) (db : database) :
  (forall r, In r (user_drink_selections db) -> sel_id r <> id) ->
  deleteSelection None id db = (Ok tt, db).
Proof.
  intros Hnone. rewrite deleteSelection_run. f_equal.
  rewrite filter_all; [apply set_user_drink_selections_same|].
  intros r Hr. apply negb_true_iff, Nat.eqb_neq. now apply Hnone.
Qed.

Lemma deleteSelection_unknown_id_witness :
  deleteSelection None 9%nat one_line_db = (Ok tt, one_line_db).
Proof.
  apply (deleteSelection_unknown_id 9%nat one_line_db).
  intros r [<-|[]]. simpl. lia.
Defined.

(** X6.  [deleteAllUserSelections] empties the user's cart for the spot,
    leaves the cart of every other (spot, user) pair as it was, and
    changes no payment row: the drink total of the pair is not recomputed. *)
Theorem deleteAllUserSelections_effect (s u : uuid) (db : database) :
  deleteAllUserSelections None s u db
  = (Ok tt, run (deleteAllUserSelections None s u) db)
  /\ getUserSelections s u (run (deleteAllUserSelections None s u) db) = []
  /\ (forall s' u', (s', u') <> (s, u) ->
        getUserSelections s' u' (run (deleteAllUserSelections None s u) db)
        = getUserSelections s' u' db)
  /\ payments (run (deleteAllUserSelections None s u) db) = payments db.
Proof.
  unfold run. rewrite deleteAllUserSelections_run. simpl.
  split; [reflexivity|]. split; [|split; [|reflexivity]].
  - unfold getUserSelections. simpl.
    rewrite filter_none; [reflexivity|].
    intros r Hr. apply filter_In in Hr as (_ & Hr).
    now apply negb_true_iff in Hr.
  - intros s' u' Hne. unfold getUserSelections. simpl. f_equal.
    apply filter_filter_imp. intros r Hr.
    apply negb_true_iff, not_true_is_false. intros Hr'.
    apply andb_true_iff in Hr as (H1 & H2). apply andb_true_iff in Hr' as (H3 & H4).
    apply Nat.eqb_eq in H1, H2, H3, H4. apply Hne. congruence.
Qed.

(** X7.  The admin view and the user view agree: a user's selections for
    a spot are the lines of [getAllSelections] that belong to the user,
    in the same order. *)
Theorem getUserSelections_of_getAllSelections (s u : uuid) (db : database) :
  getUserSelections s u db
  = filter (fun r => Nat.eqb (sel_user_id r) u) (getAllSelections s db).
Proof.
  unfold getUserSelections, getAllSelections. rewrite filter_rev. f_equal.
  induction (user_drink_selections db) as [|a l IH]; simpl; [reflexivity|].
  destruct (Nat.eqb (sel_spot_id a) s); simpl; [|exact IH].
  destruct (Nat.eqb (sel_user_id a) u); now rewrite IH.
Qed.

(** X8.  [handleAddToCart] sets the quantity, it does not add to it: for
    a quantity between 1 and 2147483647 whose product with the brand's
    base price is a finite number, it succeeds, and the (spot, user,
    brand) key holds one row with exactly the given quantity, the brand's
    current base price and that product, whatever quantity and price a
    previous line had; that line's id is kept. *)
Theorem handleAddToCart_sets_quantity
    (env : cart_env) (brand : DrinkBrand) (quantity total_price : Z) (spot userId : uuid)
    (db : database) :
  selections_unique db ->
  cart_profile env = true -> cart_spot env = Some spot ->
  cart_getUserIdAsUUID env = Ok userId -> cart_fault env = None ->
  0 < quantity <= INT4_MAX ->
  js_mul (num quantity) (num (DrinkBrand_base_price brand)) = num total_price ->
  exists id,
    fst (handleAddToCart env brand quantity db) = Ok done
    /\ filter (line_is spot userId (DrinkBrand_id brand))
         (user_drink_selections (run (handleAddToCart env brand quantity) db))
       = [mk_selection id spot userId (DrinkBrand_id brand) quantity
            (DrinkBrand_base_price brand) total_price (cart_now env)]
    /\ (forall old, find (line_is spot userId (DrinkBrand_id brand))
                      (user_drink_selections db) = Some old -> id = sel_id old).
Proof.
  destruct env as [prof sp uid fault now]. simpl. intros Huniq -> -> -> -> Hq Ht.
  destruct (upsertSelection_step now spot userId (DrinkBrand_id brand) quantity
              (DrinkBrand_base_price brand) total_price db Huniq Hq Ht)
    as (r & db1 & E & _ & Hr & Hrows & Hid & _).
  exists (sel_id r).
  unfold run, handleAddToCart, try_catch, bind, fetchData, ret.
  cbn [cart_profile cart_spot cart_getUserIdAsUUID cart_fault cart_now].
  rewrite E. cbn [fst snd]. split; [reflexivity|]. split; [|exact Hid].
  now rewrite Hrows, Hr at 1.
Qed.

Lemma handleAddToCart_sets_quantity_witness :
  exists id,
    fst (handleAddToCart (mk_cart_env true (Some 1%nat) (Ok 2%nat) None 5%nat)
           (mk_DrinkBrand 3%nat 120) 1 one_line_db) = Ok done
    /\ filter (line_is 1%nat 2%nat 3%nat)
         (user_drink_selections
            (run (handleAddToCart (mk_cart_env true (Some 1%nat) (Ok 2%nat) None 5%nat)
                    (mk_DrinkBrand 3%nat 120) 1) one_line_db))
       = [mk_selection id 1%nat 2%nat 3%nat 1 120 120 5%nat]
    /\ (forall old, find (line_is 1%nat 2%nat 3%nat)
                      (user_drink_selections one_line_db) = Some old -> id = sel_id old).
Proof.
  apply (handleAddToCart_sets_quantity (mk_cart_env true (Some 1%nat) (Ok 2%nat) None 5%nat)
           (mk_DrinkBrand 3%nat 120) 1 120 1%nat 2%nat one_line_db).
  - repeat constructor. intros [].
  - reflexivity.
  - reflexivity.
  - reflexivity.
  - reflexivity.
  - unfold INT4_MAX. lia.
  - reflexivity.
Defined.

(** X9.  The drinks-page handlers never leave a partial write: when
    [handleAddToCart] or [handleRemoveSelection] ends in an alert, or the
    removal is not confirmed, the database is as it was. *)
Theorem cart_handlers_alert_without_writing
    (env : cart_env) (brand : DrinkBrand) (quantity : Z)
    (confirmed : bool) (fault : option error) (selectionId : uuid) (db : database) :
  (fst (handleAddToCart env brand quantity db) = Ok alerted ->
   run (handleAddToCart env brand quantity) db = db)
  /\ (fst (handleRemoveSelection confirmed fault selectionId db) = Ok alerted ->
      run (handleRemoveSelection confirmed fault selectionId) db = db)
  /\ run (handleRemoveSelection false fault selectionId) db = db.
Proof.
  split; [|split; [|reflexivity]].
  - destruct env as [prof sp uid cfault now].
    unfold run, handleAddToCart, try_catch, bind, fetchData, ret.
    cbn [cart_profile cart_spot cart_getUserIdAsUUID cart_fault cart_now].
    destruct sp as [spot|]; [|discriminate]. destruct prof; [|discriminate].
    destruct uid as [userId|e]; [|reflexivity].
    pose proof (upsertSelection_failure_unchanged cfault now spot userId (DrinkBrand_id brand)
                  quantity (DrinkBrand_base_price brand) db) as Hfail.
    destruct (upsertSelection cfault now spot userId (DrinkBrand_id brand) quantity
                (DrinkBrand_base_price brand) db) as [[r|e] d'].
    + discriminate.
    + intros _. exact (Hfail d' e eq_refl).
  - unfold run, handleRemoveSelection, try_catch, bind, fetchData, ret.
    destruct confirmed; [|discriminate]. cbn [negb].
    rewrite deleteSelection_run. destruct fault; [reflexivity | discriminate].
Qed.

Lemma cart_handlers_alert_without_writing_witness :
  run (handleAddToCart (mk_cart_env true (Some 1%nat) (Ok 2%nat) None 5%nat)
         (mk_DrinkBrand 3%nat 120) 0) one_line_db = one_line_db
  /\ run (handleRemoveSelection true (Some backend_failure) 1%nat) one_line_db = one_line_db.
Proof.
  split.
  - apply (proj1 (cart_handlers_alert_without_writing
                    (mk_cart_env true (Some 1%nat) (Ok 2%nat) None 5%nat)
                    (mk_DrinkBrand 3%nat 120) 0 true None 1%nat one_line_db)).
    reflexivity.
  - apply (proj1 (proj2 (cart_handlers_alert_without_writing
                    (mk_cart_env true (Some 1%nat) (Ok 2%nat) None 5%nat)
                    (mk_DrinkBrand 3%nat 120) 0 true (Some backend_failure) 1%nat
                    one_line_db))).
    reflexivity.
Defined.

(** ** Attendance and the mission count, further *)

Lemma bump_mission_count (g : profile_row -> bool) (target user : uuid) (d : database) :
  (forall p, g p = Nat.eqb (prof_id p) target) ->
  mission_count user
    (set_profiles
       (map (fun p => if g p
                      then mk_profile (prof_id p)
                             (Some (Sql.coalesce (prof_mission_count p) 0 + 1))
                      else p) (profiles d)) d) = mission_count user d
  \/ (user = target
      /\ mission_count user
           (set_profiles
              (map (fun p => if g p
                             then mk_profile (prof_id p)
                                    (Some (Sql.coalesce (prof_mission_count p) 0 + 1))
                             else p) (profiles d)) d)
         = Some (Sql.coalesce (mission_count user d) 0 + 1)).
Proof.
  intros Hg. unfold mission_count. simpl.
  rewrite (find_map_same_hit (fun p => Nat.eqb (prof_id p) user)).
  - destruct (find (fun p => Nat.eqb (prof_id p) user) (profiles d)) as [p|] eqn:Hfind;
      [|now left].
    simpl. apply find_some in Hfind as (_ & Hid). apply Nat.eqb_eq in Hid.
    rewrite Hg. destruct (Nat.eqb (prof_id p) target) eqn:Hhit; [|now left].
    apply Nat.eqb_eq in Hhit. right. split; [congruence | reflexivity].
  - intros r. destruct (g r); reflexivity.
Qed.

(** What the trigger does for a written row: nothing, when the row says
    [false] or the old row said [true] already; otherwise the guarded
    increment, which fails when a counter does not fit. *)
Lemma trigger_update_mission_count_cases
    (OLD : option attendance_row) (new : attendance_row) (db : database) :
  ((att_attended new = false \/ Sql.field att_attended OLD = Some true)
   /\ trigger_update_mission_count OLD (Some new) db = Ok db)
  \/ (att_attended new = true /\ Sql.field att_attended OLD <> Some true
      /\ trigger_update_mission_count OLD (Some new) db
         = if forallb (fun p => int4_range (Sql.coalesce (prof_mission_count p) 0 + 1))
                      (filter (fun p => Nat.eqb (prof_id p) (att_user_id new)) (profiles db))
           then Ok (set_profiles
                      (map (fun p => if Nat.eqb (prof_id p) (att_user_id new)
                                     then mk_profile (prof_id p)
                                            (Some (Sql.coalesce (prof_mission_count p) 0 + 1))
                                     else p)
                           (profiles db)) db)
           else Err numeric_value_out_of_range).
Proof.
  unfold trigger_update_mission_count. cbn [Sql.field option_map].
  destruct (att_attended new) eqn:Hnew; [|left; split; [now left | reflexivity]].
  cbn [Sql.eq_bool Bool.eqb Sql.holds].
  destruct OLD as [old|].
  - destruct (att_attended old) eqn:Hold.
    + left. split; [right; simpl; now rewrite Hold|].
      unfold update_mission_count_on_attendance. simpl. now rewrite Hnew, Hold.
    + right. split; [reflexivity|].
      assert (Hne : Sql.field att_attended (Some old) <> Some true)
        by (simpl; rewrite Hold; discriminate).
      split; [exact Hne|].
      exact (update_mission_count_on_attendance_fires (Some old) new db Hnew Hne).
  - right. split; [reflexivity|]. split; [discriminate|].
    apply (update_mission_count_on_attendance_fires None new db Hnew). discriminate.
Qed.

(** What one row event does to a counter when it commits: nothing, or
    one more on the attending user's profile. *)
Lemma trigger_update_mission_count_step
    (OLD : option attendance_row) (new : attendance_row) (user : uuid) (db db' : database) :
  trigger_update_mission_count OLD (Some new) db = Ok db' ->
  mission_count user db' = mission_count user db
  \/ (user = att_user_id new /\ att_attended new = true
      /\ Sql.field att_attended OLD <> Some true
      /\ mission_count user db' = Some (Sql.coalesce (mission_count user db) 0 + 1)).
Proof.
  destruct (trigger_update_mission_count_cases OLD new db)
    as [(_ & E) | (Hnew & Hold & E)]; rewrite E.
  - intros [= <-]. now left.
  - destruct (forallb _ _); [|discriminate]. intros [= <-].
    destruct (bump_mission_count (fun p => Nat.eqb (prof_id p) (att_user_id new))
                (att_user_id new) user db (fun p => eq_refl)) as [H|(Hu & H)];
      [now left | right; auto].
Qed.

Lemma trigger_update_mission_count_attendance
    (OLD : option attendance_row) (new : attendance_row) (db db' : database) :
  trigger_update_mission_count OLD (Some new) db = Ok db' ->
  attendance db' = attendance db /\ map prof_id (profiles db') = map prof_id (profiles db).
Proof.
  destruct (trigger_update_mission_count_cases OLD new db)
    as [(_ & E) | (Hnew & Hold & E)]; rewrite E.
  - intros [= <-]. now split.
  - destruct (forallb _ _); [|discriminate]. intros [= <-].
    split; [reflexivity|]. cbn [profiles set_profiles].
    rewrite map_map. apply map_ext. intros p.
    now destruct (Nat.eqb (prof_id p) (att_user_id new)).
Qed.

(** X10.  A write of [attended = false] never changes a profile: there
    is no decrement, whatever was stored before. *)
Theorem upsertAttendance_false_keeps_profiles
    (fault : option error) (s u : uuid) (db : database) :
  profiles (run (upsertAttendance fault s u false) db) = profiles db.
Proof.
  unfold run, upsertAttendance, request. destruct fault; [reflexivity|].
  now destruct (find (att_is s u) (attendance db)).
Qed.

(** The statement [upsertAttendance] runs: the row it writes and the
    table it leaves, before the trigger. *)
Lemma upsertAttendance_statement (s u : uuid) (a : bool) (db : database) :
  exists OLD new db0,
    upsertAttendance None s u a db
    = with_trigger db new (trigger_update_mission_count OLD (Some new) db0)
    /\ OLD = getUserAttendance s u db
    /\ new = mk_attendance (att_id new) s u a
    /\ profiles db0 = profiles db
    /\ find (att_is s u) (attendance db0) = Some new
    /\ (attendance_unique db -> attendance_unique db0).
Proof.
  unfold upsertAttendance, request, getUserAttendance.
  destruct (find (att_is s u) (attendance db)) as [old|] eqn:Hfind.
  - eexists; eexists; eexists. split; [reflexivity|].
    split; [reflexivity|]. split; [reflexivity|]. split; [reflexivity|].
    cbn [attendance set_attendance]. split.
    + exact (find_replace (att_is s u) (fun r => mk_attendance (att_id r) s u a) _ old
               (fun r _ => pair_is_refl s u (att_id r) a) Hfind).
    + intros Huniq. unfold attendance_unique. cbn [attendance set_attendance].
      now rewrite (map_key_replace_hits att_key (att_is s u) (s, u) (pair_is_key _ _ s u)
                     (fun r => mk_attendance (att_id r) s u a) (fun r _ => eq_refl)).
  - eexists; eexists; eexists. split; [reflexivity|].
    split; [reflexivity|]. split; [reflexivity|]. split; [reflexivity|].
    cbn [attendance set_attendance gen_random_uuid]. split.
    + apply find_snoc_fresh; [exact Hfind | apply pair_is_refl].
    + intros Huniq. unfold attendance_unique. cbn [attendance set_attendance].
      apply (NoDup_snoc_fresh att_key (att_is s u) (s, u) (pair_is_key _ _ s u));
        [exact Huniq | exact Hfind | reflexivity].
Qed.

Lemma upsertAttendance_counter_moves
    (fault : option error) (s u user : uuid) (a : bool) (db : database) :
  mission_count user (run (upsertAttendance fault s u a) db) = mission_count user db
  \/ (user = u /\ a = true
      /\ mission_count user (run (upsertAttendance fault s u a) db)
         = Some (Sql.coalesce (mission_count user db) 0 + 1)).
Proof.
  destruct fault; [now left|].
  destruct (upsertAttendance_statement s u a db)
    as (OLD & new & db0 & E & _ & Hnew & Hprof & _).
  unfold run. rewrite E. unfold with_trigger.
  destruct (trigger_update_mission_count OLD (Some new) db0) as [db2|e] eqn:Hfired;
    [|now left].
  assert (Hsame : mission_count user db0 = mission_count user db)
    by (unfold mission_count; now rewrite Hprof).
  destruct (trigger_update_mission_count_step OLD new user db0 db2 Hfired)
    as [H|(Hu & Ha & _ & H)]; cbn [snd]; rewrite <- Hsame.
  - now left.
  - right. rewrite Hnew in Hu, Ha. auto.
Qed.

(** X11.  One [upsertAttendance] moves at most one counter, and only up:
    the counter of every other user is unchanged, and the counter of the
    attending user is unchanged or one more than before (a NULL counter
    counting as 0).  The same holds of the page's [handleAttendance],
    where the attending user is the session profile; without a session
    it writes nothing. *)
Theorem upsertAttendance_counter_step
    (fault : option error) (s u user : uuid) (a : bool) (profile : option uuid)
    (db : database) :
  (mission_count user (run (upsertAttendance fault s u a) db) = mission_count user db
   \/ (user = u /\ a = true
       /\ mission_count user (run (upsertAttendance fault s u a) db)
          = Some (Sql.coalesce (mission_count user db) 0 + 1)))
  /\ (mission_count user (run (handleAttendance profile fault s a) db) = mission_count user db
      \/ (profile = Some user /\ a = true
          /\ mission_count user (run (handleAttendance profile fault s a) db)
             = Some (Sql.coalesce (mission_count user db) 0 + 1)))
  /\ run (handleAttendance None fault s a) db = db.
Proof.
  split; [apply upsertAttendance_counter_moves|]. split; [|reflexivity].
  destruct profile as [pid|]; [|now left].
  assert (Hrun : run (handleAttendance (Some pid) fault s a) db
                 = run (upsertAttendance fault s pid a) db).
  { unfold run, handleAttendance, try_catch, bind, ret.
    now destruct (upsertAttendance fault s pid a db) as [[r|e] d']. }
  rewrite Hrun.
  destruct (upsertAttendance_counter_moves fault s pid user a db) as [H|(Hu & Ha & H)];
    [now left | right]. split; [now subst | now split].
Qed.

(** [upsertAttendance] succeeds when it writes [false], and when every
    counter of the user has room for one more. *)
Lemma upsertAttendance_succeeds (s u : uuid) (a : bool) (db : database) :
  (a = false
   \/ forall p, In p (profiles db) -> prof_id p = u ->
                int4_range (Sql.coalesce (prof_mission_count p) 0 + 1) = true) ->
  exists row db1, upsertAttendance None s u a db = (Ok row, db1).
Proof.
  intros Hfit.
  destruct (upsertAttendance_statement s u a db)
    as (OLD & new & db0 & E & _ & Hnew & Hprof & _).
  rewrite E.
  destruct (trigger_update_mission_count_cases OLD new db0)
    as [(_ & Hfired) | (Ha & _ & Hfired)]; rewrite Hfired; [now eexists; eexists|].
  replace (forallb _ _) with true; [now eexists; eexists|].
  symmetry. apply forallb_forall. intros p Hp.
  apply filter_In in Hp as (Hin & Hid). apply Nat.eqb_eq in Hid.
  rewrite Hnew in Ha, Hid. cbn [att_attended att_user_id] in Ha, Hid.
  destruct Hfit as [->|Hfit]; [discriminate|].
  apply Hfit; [now rewrite <- Hprof | exact Hid].
Qed.

Lemma upsertAttendance_succeeds_below_largest (s u : uuid) (a : bool) (N : Z)
    (db : database) :
  profiles_unique db -> mission_count u db = Some N -> INT4_MIN <= N < INT4_MAX ->
  exists row db1, upsertAttendance None s u a db = (Ok row, db1).
Proof.
  intros Huniq HN Hrange. apply upsertAttendance_succeeds. right.
  intros p Hin Hid. rewrite (mission_count_rows u N db Huniq HN p Hin Hid). simpl.
  apply int4_range_iff. lia.
Qed.

(** After a successful [upsertAttendance] the written row is the one a
    lookup of the pair finds. *)
Lemma upsertAttendance_find (s u : uuid) (a : bool) (row : attendance_row)
    (db db1 : database) :
  upsertAttendance None s u a db = (Ok row, db1) ->
  find (att_is s u) (attendance db1) = Some row
  /\ att_spot_id row = s /\ att_user_id row = u /\ att_attended row = a
  /\ (attendance_unique db -> attendance_unique db1)
  /\ map prof_id (profiles db1) = map prof_id (profiles db).
Proof.
  destruct (upsertAttendance_statement s u a db)
    as (OLD & new & db0 & E & _ & Hnew & Hprof & Hfind & Huniq).
  rewrite E. unfold with_trigger.
  destruct (trigger_update_mission_count OLD (Some new) db0) as [db2|e] eqn:Hfired;
    [|discriminate].
  intros [= <- <-].
  destruct (trigger_update_mission_count_attendance OLD new db0 db2 Hfired) as (Hatt & Hids).
  rewrite Hatt, Hids, Hprof. unfold attendance_unique. rewrite Hatt.
  split; [exact Hfind|]. rewrite Hnew. cbn [att_spot_id att_user_id att_attended]. auto.
Qed.



Lemma upsertAttendance_counts (s u : uuid) (a : bool) (N : Z) (row : attendance_row)
    (db db1 : database) :
  upsertAttendance None s u a db = (Ok row, db1) ->
  mission_count u db = Some N ->
  mission_count u db1
  = Some (if a && negb (match getUserAttendance s u db with
                        | Some old => att_attended old
                        | None => false
                        end)
          then N + 1 else N).
Proof.
  destruct (upsertAttendance_statement s u a db)
    as (OLD & new & db0 & E & HOLD & Hnew & Hprof & _).
  rewrite E. unfold with_trigger. intros Hrun HN.
  assert (HN0 : mission_count u db0 = Some N)
    by (unfold mission_count in *; now rewrite Hprof).
  rewrite <- HOLD.
  destruct (trigger_update_mission_count_cases OLD new db0)
    as [(Hquiet & Hfired) | (Ha & Hold & Hfired)]; rewrite Hfired in Hrun.
  - injection Hrun as _ <-. rewrite HN0. f_equal.
    rewrite Hnew in Hquiet. cbn [att_attended] in Hquiet.
    destruct Hquiet as [->|Hold]; [reflexivity|].
    destruct OLD as [old|]; [|discriminate]. simpl in Hold. injection Hold as ->.
    now rewrite andb_false_r.
  - destruct (forallb _ _); [|discriminate]. injection Hrun as _ <-.
    rewrite Hnew in Ha |- *. cbn [att_attended att_user_id] in Ha |- *. subst a.
    rewrite (mission_count_bumped u N db0 HN0). f_equal.
    destruct OLD as [old|]; [|reflexivity].
    simpl in Hold. now destruct (att_attended old).
Qed.

(** X13.  The counting rule in full: for a user whose counter is [N], a
    successful [upsertAttendance] leaves [N + 1] exactly when it writes
    [true] over a pair that had no row or a row saying [false], and [N]
    in every other case; and under the primary key of profiles the call
    succeeds whenever [N] is below 2147483647. *)
Theorem upsertAttendance_counting_rule (s u : uuid) (a : bool) (N : Z) (db : database) :
  mission_count u db = Some N ->
  (forall row db1,
     upsertAttendance None s u a db = (Ok row, db1) ->
     mission_count u db1
     = Some (if a && negb (match getUserAttendance s u db with
                           | Some old => att_attended old
                           | None => false
                           end)
             then N + 1 else N))
  /\ (profiles_unique db -> INT4_MIN <= N < INT4_MAX ->
      exists row db1, upsertAttendance None s u a db = (Ok row, db1)).
Proof.
  intros HN. split.
  - intros row db1 E. exact (upsertAttendance_counts s u a N row db db1 E HN).
  - intros Huniq Hrange.
    exact (upsertAttendance_succeeds_below_largest s u a N db Huniq HN Hrange).
Qed.

Lemma upsertAttendance_counting_rule_witness :
  mission_count 2%nat
    (run (upsertAttendance None 1%nat 2%nat true)
         (set_profiles [mk_profile 2%nat (Some 4)] empty_database))
  = Some 5.
Proof.
  apply (proj1 (upsertAttendance_counting_rule 1%nat 2%nat true 4
                  (set_profiles [mk_profile 2%nat (Some 4)] empty_database) eq_refl)
           (mk_attendance 0%nat 1%nat 2%nat true)).
  reflexivity.
Defined.

(** X14.  Attendance can be counted again: for a user with counter [N],
    at most 2147483645, and no row for the spot, writing [true], then
    [false], then [true] succeeds each time and leaves [N + 2]; the write
    of [false] takes nothing back and the second [true] counts as a new
    transition. *)
Theorem attendance_toggle_counts_again (s u : uuid) (N : Z) (db : database) :
  profiles_unique db ->
  getUserAttendance s u db = None ->
  mission_count u db = Some N ->
  INT4_MIN <= N <= INT4_MAX - 2 ->
  exists row db',
    (upsertAttendance None s u true ;;;
     upsertAttendance None s u false ;;;
     upsertAttendance None s u true) db = (Ok row, db')
    /\ mission_count u db' = Some (N + 2).
Proof.
  intros Huniq Hnone HN Hrange.
  assert (Hkeep : forall a row d d1, upsertAttendance None s u a d = (Ok row, d1) ->
                    profiles_unique d -> profiles_unique d1).
  { intros a row d d1 E Hd. unfold profiles_unique.
    destruct (upsertAttendance_find s u a row d d1 E) as (_ & _ & _ & _ & _ & Hids).
    now rewrite Hids. }
  destruct (upsertAttendance_succeeds_below_largest s u true N db Huniq HN)
    as (r1 & db1 & E1); [lia|].
  pose proof (upsertAttendance_counts s u true N r1 db db1 E1 HN) as H1.
  rewrite Hnone in H1. cbn [andb negb] in H1.
  pose proof (Hkeep _ _ _ _ E1 Huniq) as Huniq1.
  destruct (upsertAttendance_succeeds s u false db1 (or_introl eq_refl))
    as (r2 & db2 & E2).
  pose proof (upsertAttendance_counts s u false (N + 1) r2 db1 db2 E2 H1) as H2.
  cbn [andb] in H2.
  pose proof (Hkeep _ _ _ _ E2 Huniq1) as Huniq2.
  destruct (upsertAttendance_find s u false r2 db1 db2 E2) as (F2 & _ & _ & A2 & _).
  destruct (upsertAttendance_succeeds_below_largest s u true (N + 1) db2 Huniq2 H2)
    as (r3 & db3 & E3); [lia|].
  pose proof (upsertAttendance_counts s u true (N + 1) r3 db2 db3 E3 H2) as H3.
  unfold getUserAttendance in H3. rewrite F2, A2 in H3. cbn [andb negb] in H3.
  exists r3, db3. unfold bind. rewrite E1, E2, E3.
  split; [reflexivity|]. rewrite H3. f_equal. lia.
Qed.

Lemma attendance_toggle_counts_again_witness :
  exists row db',
    (upsertAttendance None 1%nat 2%nat true ;;;
     upsertAttendance None 1%nat 2%nat false ;;;
     upsertAttendance None 1%nat 2%nat true)
      (set_profiles [mk_profile 2%nat (Some 4)] empty_database) = (Ok row, db')
    /\ mission_count 2%nat db' = Some (4 + 2).
Proof.
  apply (attendance_toggle_counts_again 1%nat 2%nat 4
           (set_profiles [mk_profile 2%nat (Some 4)] empty_database)).
  - repeat constructor. intros [].
  - reflexivity.
  - reflexivity.
  - unfold INT4_MIN, INT4_MAX. lia.
Defined.

(** ** Votes, further *)

Lemma set_drinks_same (db : database) : set_drinks (drinks db) db = db.
Proof. now destruct db. Qed.

Lemma voteForDrink_failure_unchanged
    (fetch_fault update_fault : option error) (drinkId userId : uuid)
    (db db' : database) (e : error) :
  voteForDrink fetch_fault update_fault drinkId userId db = (Err e, db') -> db' = db.
Proof.
  unfold voteForDrink, bind, request.
  destruct fetch_fault; [now intros [= _ <-]|].
  destruct (single (filter (fun d => Nat.eqb (drink_id d) drinkId) (drinks db)))
    as [drink|e0]; [|now intros [= _ <-]].
  destruct update_fault; [now intros [= _ <-]|].
  destruct (negb (int4_range _)); [now intros [= _ <-]|].
  destruct (single _); [discriminate | now intros [= _ <-]].
Qed.

(** X15.  A failed [voteForDrink] writes nothing, whichever request
    failed; a vote for an id that no drink carries, such as a drink
    removed by [deleteDrink], fails with the single-row error; and the
    page's [handleVote], when it ends in an alert, has written nothing. *)
Theorem voteForDrink_failure_writes_nothing
    (fetch_fault update_fault : option error) (drinkId userId : uuid)
    (env : cart_env) (db : database) :
  (forall e db', voteForDrink fetch_fault update_fault drinkId userId db = (Err e, db') ->
                 db' = db)
  /\ ((forall d, In d (drinks db) -> drink_id d <> drinkId) ->
      voteForDrink None None drinkId userId db = (Err not_single_row, db))
  /\ voteForDrink None None drinkId userId (run (deleteDrink None drinkId) db)
     = (Err not_single_row, run (deleteDrink None drinkId) db)
  /\ (fst (handleVote env fetch_fault (Some drinkId) db) = Ok alerted ->
      run (handleVote env fetch_fault (Some drinkId)) db = db).
Proof.
  assert (Hmissing : forall d0 : database,
             (forall d, In d (drinks d0) -> drink_id d <> drinkId) ->
             voteForDrink None None drinkId userId d0 = (Err not_single_row, d0)).
  { intros d0 Hnone. unfold voteForDrink, bind, request.
    rewrite filter_none; [reflexivity|].
    intros d Hd. apply Nat.eqb_neq. now apply Hnone. }
  split; [|split; [apply Hmissing|split]].
  - intros e db' H. exact (voteForDrink_failure_unchanged _ _ _ _ _ _ _ H).
  - apply Hmissing. unfold run, deleteDrink, request. simpl.
    intros d Hd. apply filter_In in Hd as (_ & Hd).
    now apply negb_true_iff, Nat.eqb_neq in Hd.
  - destruct env as [prof sp uid cfault].
    unfold run, handleVote, try_catch, bind, fetchData, ret.
    cbn [cart_profile cart_spot cart_getUserIdAsUUID cart_fault].
    destruct prof; [|discriminate]. destruct uid as [u|e]; [|reflexivity].
    pose proof (voteForDrink_failure_unchanged fetch_fault cfault drinkId u db) as Hfail.
    destruct (voteForDrink fetch_fault cfault drinkId u db) as [[d|e] d'];
      [discriminate | intros _; exact (Hfail d' e eq_refl)].
Qed.

Lemma voteForDrink_other_drinks
    (drinkId userId : uuid) (d' : Drink) (db db' : database) :
  voteForDrink None None drinkId userId db = (Ok d', db') ->
  forall r, drink_id r <> drinkId -> (In r (drinks db') <-> In r (drinks db)).
Proof.
  unfold voteForDrink, bind, request.
  destruct (single (filter (fun d => Nat.eqb (drink_id d) drinkId) (drinks db)))
    as [drink|e0]; [|discriminate].
  destruct (negb (int4_range _)); [discriminate|].
  match goal with
  | |- context [match single ?l with _ => _ end] => destruct (single l)
  end; [|discriminate].
  intros [= _ <-] r Hr. simpl. rewrite in_map_iff. split.
  - intros (x & Hx & Hin). destruct (Nat.eqb (drink_id x) drinkId) eqn:Hhit.
    + subst r. simpl in Hr. apply Nat.eqb_eq in Hhit. congruence.
    + now subst x.
  - intros Hin. exists r. apply Nat.eqb_neq in Hr. now rewrite Hr.
Qed.

(** X16.  One successful vote flips the membership of the voting user
    and of nobody else; the counter becomes [votes + 1] when the user was
    not a voter and [max 0 (votes - 1)] when the user was; every other
    drink is left as it was.  The vote succeeds whenever the counter is
    an INTEGER below 2147483647, and fails without writing when the user
    is not a voter and the counter is at 2147483647 or above. *)
Theorem voteForDrink_flips_one_voter
    (drinkId userId : uuid) (d : Drink) (db : database) :
  stored_drink drinkId db = Ok d ->
  (forall d' db',
     voteForDrink None None drinkId userId db = (Ok d', db') ->
     stored_drink drinkId db' = Ok d'
     /\ (In userId (Drink_voted_by d') <-> ~ In userId (Drink_voted_by d))
     /\ (forall x, x <> userId -> (In x (Drink_voted_by d') <-> In x (Drink_voted_by d)))
     /\ (In userId (Drink_voted_by d) -> Drink_votes d' = Z.max 0 (Drink_votes d - 1))
     /\ (~ In userId (Drink_voted_by d) -> Drink_votes d' = Drink_votes d + 1)
     /\ (forall r, drink_id r <> drinkId -> (In r (drinks db') <-> In r (drinks db))))
  /\ (INT4_MIN <= Drink_votes d < INT4_MAX ->
      exists d' db', voteForDrink None None drinkId userId db = (Ok d', db'))
  /\ (~ In userId (Drink_voted_by d) -> INT4_MAX <= Drink_votes d ->
      voteForDrink None None drinkId userId db = (Err numeric_value_out_of_range, db)).
Proof.
  intros Hd. unfold stored_drink in Hd.
  destruct (single (filter (fun x => Nat.eqb (drink_id x) drinkId) (drinks db)))
    as [row|] eqn:Hrow; [|discriminate].
  injection Hd as <-.
  destruct (voteForDrink_step drinkId userId row db Hrow) as (Hfits & Hnot).
  cbv zeta in Hfits, Hnot.
  cbn [toDrink Drink_votes Drink_voted_by].
  split; [|split].
  - intros d' db' E.
    destruct (int4_range _) eqn:Hfit in Hfits;
      [|rewrite (Hnot Hfit) in E; discriminate].
    destruct (Hfits eq_refl) as (db1 & E1 & Hrow').
    rewrite E1 in E. injection E as <- <-.
    split; [unfold stored_drink; now rewrite Hrow'|].
    pose proof (voteForDrink_other_drinks drinkId userId _ db db1 E1) as Hothers.
    cbn [toDrink Drink_votes Drink_voted_by drink_votes drink_voted_by or_zero or_empty].
    destruct (existsb (Nat.eqb userId) (or_empty (drink_voted_by row))) eqn:Hhas.
    + apply existsb_eqb_In in Hhas.
      split; [|split; [|split; [reflexivity | split; [tauto | exact Hothers]]]].
      * rewrite In_filter_others. tauto.
      * intros x Hx. rewrite In_filter_others. tauto.
    + assert (Habsent : ~ In userId (or_empty (drink_voted_by row))).
      { intros Hin. apply existsb_eqb_In in Hin. congruence. }
      split; [|split; [|split; [tauto | split; [reflexivity | exact Hothers]]]].
      * rewrite in_app_iff. simpl. tauto.
      * intros x Hx. rewrite in_app_iff. simpl. intuition congruence.
  - intros Hrange.
    destruct Hfits as (db1 & E1 & _); [|now eexists; eexists; exact E1].
    apply int4_range_iff.
    destruct (existsb _ _); unfold INT4_MIN, INT4_MAX in *; lia.
  - intros Habsent Hlarge. apply Hnot.
    replace (existsb (Nat.eqb userId) (or_empty (drink_voted_by row))) with false.
    + apply not_true_is_false. intros Hfit. apply int4_range_iff in Hfit. lia.
    + symmetry. apply not_true_is_false. intros Hin.
      apply existsb_eqb_In in Hin. now apply Habsent.
Qed.

Lemma voteForDrink_flips_one_voter_witness :
  exists d' db',
    voteForDrink None None 0%nat 8%nat floor_db = (Ok d', db')
    /\ stored_drink 0%nat db' = Ok d'
    /\ Drink_votes d' = 0 + 1.
Proof.
  destruct (voteForDrink_flips_one_voter 0%nat 8%nat
              (mk_Drink 0%nat 1%nat 0 9%nat [7%nat]) floor_db eq_refl)
    as (Hflip & Hok & _).
  destruct Hok as (d' & db' & E); [unfold INT4_MIN, INT4_MAX; simpl; lia|].
  exists d', db'. split; [exact E|].
  destruct (Hflip d' db' E) as (Hstored & _ & _ & _ & Hvotes & _).
  split; [exact Hstored|]. apply Hvotes. simpl. intros [H|[]]. discriminate.
Defined.

(** X28.  The votes counter counts the voters: a drink made by
    [createDrink] has counter 0 and no voter, and when a stored drink's
    counter equals the length of its duplicate-free voter list, the same
    holds of the drink after a successful [voteForDrink], whose counter
    is then never negative. *)
Theorem votes_counter_counts_voters
    (drinkId userId spot_id suggested_by : uuid) (d d' : Drink) (db db' : database) :
  stored_drink drinkId db = Ok d -> votes_match d ->
  voteForDrink None None drinkId userId db = (Ok d', db') ->
  votes_match d' /\ 0 <= Drink_votes d'
  /\ exists d0 db0, createDrink None spot_id suggested_by db = (Ok d0, db0) /\ votes_match d0.
Proof.
  intros Hd Hm Hvote.
  pose proof (voteForDrink_keeps_votes_match drinkId userId d d' db db' Hd Hm Hvote) as Hm'.
  split; [exact Hm'|]. split; [|apply createDrink_votes_match].
  destruct Hm' as (_ & Hlen). rewrite Hlen. lia.
Qed.

Lemma votes_counter_counts_voters_witness :
  votes_match (mk_Drink 0%nat 1%nat 1 9%nat [7%nat]).
Proof.
  apply (votes_counter_counts_voters 0%nat 7%nat 1%nat 9%nat
           (mk_Drink 0%nat 1%nat 0 9%nat [])
           (mk_Drink 0%nat 1%nat 1 9%nat [7%nat])
           (run (createDrink None 1%nat 9%nat) empty_database)
           (snd (voteForDrink None None 0%nat 7%nat
                   (run (createDrink None 1%nat 9%nat) empty_database)))).
  - reflexivity.
  - split; [constructor | reflexivity].
  - reflexivity.
Defined.

(** ** Payments and RSVP, further *)

Lemma map_replace_none {R : Type} (hit : R -> bool) (upd : R -> R) (l : list R) :
  (forall r, In r l -> hit r = false) ->
  map (fun r => if hit r then upd r else r) l = l.
Proof.
  intros Hnone. rewrite <- (map_id l) at 2. apply map_ext_in.
  intros r Hr. now rewrite (Hnone r Hr).
Qed.

Lemma set_payments_same (db : database) : set_payments (payments db) db = db.
Proof. now destruct db. Qed.

(** X17.  [updatePaymentStatus] touches the status column only: no other
    table changes, every payment row keeps its id, pair and drink total,
    rows with another id are untouched, the rows with the id take the
    given status, and an id that no row carries changes nothing (and is
    not an error). *)
Theorem updatePaymentStatus_frame
    (paymentId : uuid) (status : PaymentStatus) (db : database) :
  updatePaymentStatus None paymentId status db
  = (Ok tt, run (updatePaymentStatus None paymentId status) db)
  /\ set_payments (payments db) (run (updatePaymentStatus None paymentId status) db) = db
  /\ map pay_id (payments (run (updatePaymentStatus None paymentId status) db))
     = map pay_id (payments db)
  /\ map pay_key (payments (run (updatePaymentStatus None paymentId status) db))
     = map pay_key (payments db)
  /\ map pay_drink_total_amount (payments (run (updatePaymentStatus None paymentId status) db))
     = map pay_drink_total_amount (payments db)
  /\ (forall p, In p (payments db) -> pay_id p <> paymentId ->
        In p (payments (run (updatePaymentStatus None paymentId status) db)))
  /\ (forall p, In p (payments (run (updatePaymentStatus None paymentId status) db)) ->
        pay_id p = paymentId -> pay_status p = status)
  /\ ((forall p, In p (payments db) -> pay_id p <> paymentId) ->
      run (updatePaymentStatus None paymentId status) db = db).
Proof.
  unfold run, updatePaymentStatus, request. cbn [snd payments set_payments].
  split; [reflexivity|]. split; [now destruct db|].
  split; [|split; [|split; [|split; [|split]]]].
  - rewrite map_map. apply map_ext. intros r. now destruct (Nat.eqb (pay_id r) paymentId).
  - rewrite map_map. apply map_ext. intros r. now destruct (Nat.eqb (pay_id r) paymentId).
  - rewrite map_map. apply map_ext. intros r. now destruct (Nat.eqb (pay_id r) paymentId).
  - intros p Hin Hne. apply in_map_iff. exists p. split; [|exact Hin].
    apply Nat.eqb_neq in Hne. now rewrite Hne.
  - intros p Hin Hid. apply in_map_iff in Hin as (r & <- & _).
    destruct (Nat.eqb (pay_id r) paymentId) eqn:Hr; [reflexivity|].
    apply Nat.eqb_neq in Hr. now destruct (Nat.eqb (pay_id r) paymentId).
  - intros Hnone.
    rewrite (map_replace_none (fun r => Nat.eqb (pay_id r) paymentId)
               (fun r => mk_payment (pay_id r) (pay_spot_id r) (pay_user_id r) status
                                    (pay_drink_total_amount r))).
    + apply set_payments_same.
    + intros r Hr. apply Nat.eqb_neq. now apply Hnone.
Qed.

Lemma handler_status_not_confirmed (st : InvitationStatus) :
  st <> CONFIRMED -> InvitationStatus_eqb st CONFIRMED = false.
Proof. destruct st; [congruence | reflexivity | reflexivity]. Qed.

(** X18.  Only a confirmation reaches the payments: [handleRSVP] and
    [handleCreateRSVP] with [pending] or [declined] leave every payment
    row as it was, so declining removes no payment row and changes no
    status. *)
Theorem rsvp_other_status_keeps_payments
    (env : rsvp_env) (invitationId : uuid) (status : InvitationStatus) (db : database) :
  status <> CONFIRMED ->
  payments (run (handleRSVP env invitationId status) db) = payments db
  /\ payments (run (handleCreateRSVP env status) db) = payments db.
Proof.
  intros Hst. apply handler_status_not_confirmed in Hst.
  destruct env as [prof spot uid ifault pfault ins].
  unfold run, handleRSVP, handleCreateRSVP, try_catch, bind, getUserIdAsUUID, fetchData, ret.
  cbn [env_profile env_spot env_invitation_fault env_getUserIdAsUUID env_payment_fault
       env_inserts_profile].
  rewrite Hst.
  destruct prof; [|now split]. destruct spot as [spot|]; [|now split]. split.
  - pose proof (updateInvitationStatus_payments ifault invitationId status db) as (Hp & _).
    now destruct (updateInvitationStatus ifault invitationId status db) as [[[]|e] d'].
  - destruct uid as [u|e]; [|reflexivity].
    destruct ins.
    + pose proof (upsertInvitation_payments ifault spot u status
                    (set_profiles (profiles db ++ [mk_profile u (Some 0)]) db)) as Hp.
      now destruct (upsertInvitation ifault spot u status _) as [[i|e] d'].
    + pose proof (upsertInvitation_payments ifault spot u status db) as Hp.
      now destruct (upsertInvitation ifault spot u status db) as [[i|e] d'].
Qed.

Lemma rsvp_other_status_keeps_payments_witness :
  payments (run (handleRSVP (mk_rsvp_env true (Some 1%nat) (Ok 2%nat) None None)
                   0%nat DECLINED) paid_then_declined_db)
  = payments paid_then_declined_db
  /\ payments (run (handleCreateRSVP (mk_rsvp_env true (Some 1%nat) (Ok 2%nat) None None)
                      DECLINED) paid_then_declined_db)
     = payments paid_then_declined_db.
Proof.
  apply (rsvp_other_status_keeps_payments
           (mk_rsvp_env true (Some 1%nat) (Ok 2%nat) None None) 0%nat DECLINED
           paid_then_declined_db).
  discriminate.
Defined.

(** X19.  An RSVP handler that ends in an alert has written no
    invitation and no payment.  [handleRSVP] alerts only when the
    invitation update fails, and the database is then as it was.
    [handleCreateRSVP] alerts only when the user lookup or the invitation
    upsert fails; the database is then as it was, but for the profiles
    row that [getUserIdAsUUID] inserted when it had to create the profile
    before the invitation upsert failed. *)
Theorem rsvp_alert_without_writing
    (env : rsvp_env) (invitationId : uuid) (status : InvitationStatus) (db : database) :
  (fst (handleRSVP env invitationId status db) = Ok alerted ->
   env_invitation_fault env <> None
   /\ run (handleRSVP env invitationId status) db = db)
  /\ (fst (handleCreateRSVP env status db) = Ok alerted ->
      (env_invitation_fault env <> None \/ exists e, env_getUserIdAsUUID env = Err e)
      /\ run (handleCreateRSVP env status) db = snd (getUserIdAsUUID env db)
      /\ invitations (run (handleCreateRSVP env status) db) = invitations db
      /\ payments (run (handleCreateRSVP env status) db) = payments db
      /\ (env_inserts_profile env = false -> run (handleCreateRSVP env status) db = db)).
Proof.
  destruct env as [prof spot uid ifault pfault ins].
  unfold run, handleRSVP, handleCreateRSVP, try_catch, bind, getUserIdAsUUID, fetchData, ret.
  cbn [env_profile env_spot env_invitation_fault env_getUserIdAsUUID env_payment_fault
       env_inserts_profile].
  destruct prof; [|split; discriminate].
  destruct spot as [spot|]; [|split; discriminate]. split.
  - destruct ifault as [e|]; [intros _; split; [discriminate | reflexivity]|].
    cbn [updateInvitationStatus request fst snd].
    destruct (InvitationStatus_eqb status CONFIRMED); [|discriminate].
    destruct uid as [u|e]; [|discriminate].
    destruct ins; now destruct (upsertPayment pfault spot u NOT_PAID _) as [[p|e] d'].
  - destruct uid as [u|e];
      [|intros _; split; [right; now exists e | repeat split]].
    destruct ifault as [e|].
    + intros _. split; [left; discriminate|].
      destruct ins; cbn [upsertInvitation request fst snd]; repeat split. discriminate.
    + unfold upsertInvitation, request.
      destruct ins;
        (match goal with
         | |- context [find ?h ?l] => destruct (find h l)
         end;
         cbn [fst snd gen_random_uuid];
         (destruct (InvitationStatus_eqb status CONFIRMED); [|discriminate]);
         now destruct (upsertPayment pfault spot u NOT_PAID _) as [[p|e] d']).
Qed.

Lemma pay_is_written (s u id : uuid) (st : PaymentStatus) (t : Z) :
  pay_is s u (mk_payment id s u st t) = true.
Proof. unfold pay_is, pair_is. simpl. now rewrite !Nat.eqb_refl. Qed.

Lemma inv_is_written (s u id : uuid) (st : InvitationStatus) :
  inv_is s u (mk_invitation id s u st) = true.
Proof. unfold inv_is, pair_is. simpl. now rewrite !Nat.eqb_refl. Qed.

Lemma inv_is_key (s u : uuid) (r : invitation_row) :
  inv_is s u r = true <-> inv_key r = (s, u).
Proof. apply pair_is_key. Qed.

(** X20.  The RSVP upserts are idempotent on the whole database: after a
    successful [upsertPayment] or [upsertInvitation], the same call again
    returns the same object and changes nothing. *)
Theorem rsvp_upserts_idempotent
    (s u : uuid) (pst : PaymentStatus) (ist : InvitationStatus) (db : database) :
  (forall p db1, upsertPayment None s u pst db = (Ok p, db1) ->
                 upsertPayment None s u pst db1 = (Ok p, db1))
  /\ (forall i db1, upsertInvitation None s u ist db = (Ok i, db1) ->
                    upsertInvitation None s u ist db1 = (Ok i, db1)).
Proof.
  split.
  - intros p db1. unfold upsertPayment, request.
    destruct (find (pay_is s u) (payments db)) as [old|] eqn:Hfind.
    + intros [= <- <-]. cbn [payments set_payments].
      rewrite (find_replace (pay_is s u)
                 (fun r => mk_payment (pay_id r) s u pst (pay_drink_total_amount r)) _ old
                 (fun r _ => pay_is_written s u _ pst _) Hfind).
      cbn [pay_id pay_drink_total_amount]. f_equal.
      unfold set_payments. cbn [payments invitations attendance user_drink_selections
                                drinks profiles next_uuid]. f_equal.
      exact (map_replace_twice (pay_is s u)
               (fun r => mk_payment (pay_id r) s u pst (pay_drink_total_amount r)) _
               (fun r _ => pay_is_written s u _ pst _) (fun r _ => eq_refl)).
    + intros [= <- <-]. cbn [payments set_payments gen_random_uuid snd].
      rewrite (find_snoc_fresh (pay_is s u) _ (mk_payment (next_uuid db) s u pst 0) Hfind
                 (pay_is_written s u _ pst 0)).
      cbn [pay_id pay_drink_total_amount]. f_equal.
      unfold set_payments. cbn [payments invitations attendance user_drink_selections
                                drinks profiles next_uuid]. f_equal.
      exact (map_replace_fresh (pay_is s u)
               (fun r => mk_payment (pay_id r) s u pst (pay_drink_total_amount r)) _ _
               Hfind (pay_is_written s u _ pst 0) eq_refl).
  - intros i db1. unfold upsertInvitation, request.
    destruct (find (inv_is s u) (invitations db)) as [old|] eqn:Hfind.
    + intros [= <- <-]. cbn [invitations set_invitations].
      rewrite (find_replace (inv_is s u)
                 (fun r => mk_invitation (inv_id r) s u ist) _ old
                 (fun r _ => inv_is_written s u _ ist) Hfind).
      cbn [inv_id]. f_equal.
      unfold set_invitations. cbn [payments invitations attendance user_drink_selections
                                   drinks profiles next_uuid]. f_equal.
      exact (map_replace_twice (inv_is s u)
               (fun r => mk_invitation (inv_id r) s u ist) _
               (fun r _ => inv_is_written s u _ ist) (fun r _ => eq_refl)).
    + intros [= <- <-]. cbn [invitations set_invitations gen_random_uuid snd].
      rewrite (find_snoc_fresh (inv_is s u) _ (mk_invitation (next_uuid db) s u ist) Hfind
                 (inv_is_written s u _ ist)).
      cbn [inv_id]. f_equal.
      unfold set_invitations. cbn [payments invitations attendance user_drink_selections
                                   drinks profiles next_uuid]. f_equal.
      exact (map_replace_fresh (inv_is s u)
               (fun r => mk_invitation (inv_id r) s u ist) _ _
               Hfind (inv_is_written s u _ ist) eq_refl).
Qed.

(** *** Unique keys under the RSVP flow *)

Lemma preserves_ret {A : Type} (P : database -> Prop) (a : A) : preserves P (ret a).
Proof. intros db H. exact H. Qed.

Lemma preserves_bind {A B : Type} (P : database -> Prop) (m : M A) (k : A -> M B) :
  preserves P m -> (forall a, preserves P (k a)) -> preserves P (bind m k).
Proof.
  intros Hm Hk db H. unfold bind. specialize (Hm db H).
  destruct (m db) as [[a|e] db']; simpl in *; [now apply Hk | exact Hm].
Qed.

Lemma preserves_try_catch {A : Type} (P : database -> Prop) (m : M A) (h : error -> M A) :
  preserves P m -> (forall e, preserves P (h e)) -> preserves P (try_catch m h).
Proof.
  intros Hm Hh db H. unfold try_catch. specialize (Hm db H).
  destruct (m db) as [[a|e] db']; simpl in *; [exact Hm | now apply Hh].
Qed.

Lemma preserves_request {A : Type} (P : database -> Prop) (fault : option error) (m : M A) :
  preserves P m -> preserves P (request fault m).
Proof. intros Hm. destruct fault; [intros db H; exact H | exact Hm]. Qed.

Lemma upsertPayment_keeps_keys (fault : option error) (s u : uuid) (st : PaymentStatus) :
  preserves rsvp_keys_unique (upsertPayment fault s u st).
Proof.
  apply preserves_request. intros db (Hi & Hp). split.
  - unfold invitations_unique. now destruct (find (pay_is s u) (payments db)).
  - destruct (find (pay_is s u) (payments db)) as [old|] eqn:Hfind; unfold payments_unique; simpl.
    + now rewrite (map_key_replace_hits pay_key (pay_is s u) (s, u) (pay_is_key s u)
                     (fun r => mk_payment (pay_id r) s u st (pay_drink_total_amount r))
                     (fun r _ => eq_refl)).
    + apply (NoDup_snoc_fresh pay_key (pay_is s u) (s, u) (pay_is_key s u));
        [exact Hp | exact Hfind | reflexivity].
Qed.

Lemma upsertInvitation_keeps_keys (fault : option error) (s u : uuid) (st : InvitationStatus) :
  preserves rsvp_keys_unique (upsertInvitation fault s u st).
Proof.
  apply preserves_request. intros db (Hi & Hp). split.
  - destruct (find (inv_is s u) (invitations db)) as [old|] eqn:Hfind;
      unfold invitations_unique; simpl.
    + now rewrite (map_key_replace_hits inv_key (inv_is s u) (s, u) (inv_is_key s u)
                     (fun r => mk_invitation (inv_id r) s u st) (fun r _ => eq_refl)).
    + apply (NoDup_snoc_fresh inv_key (inv_is s u) (s, u) (inv_is_key s u));
        [exact Hi | exact Hfind | reflexivity].
  - unfold payments_unique. now destruct (find (inv_is s u) (invitations db)).
Qed.

Lemma updateInvitationStatus_keeps_keys (fault : option error) (id : uuid) (st : InvitationStatus) :
  preserves rsvp_keys_unique (updateInvitationStatus fault id st).
Proof.
  apply preserves_request. intros db (Hi & Hp). split; [|exact Hp].
  unfold invitations_unique. simpl. rewrite map_map.
  erewrite map_ext; [exact Hi|]. intros r. now destruct (Nat.eqb (inv_id r) id).
Qed.

Lemma updatePaymentStatus_keeps_keys (fault : option error) (id : uuid) (st : PaymentStatus) :
  preserves rsvp_keys_unique (updatePaymentStatus fault id st).
Proof.
  apply preserves_request. intros db (Hi & Hp). split; [exact Hi|].
  unfold payments_unique. simpl. rewrite map_map.
  erewrite map_ext; [exact Hp|]. intros r. now destruct (Nat.eqb (pay_id r) id).
Qed.

Lemma bootstrap_payments_keeps_keys (fault : uuid -> option error) (spot : uuid)
    (users : list uuid) :
  preserves rsvp_keys_unique (bootstrap_payments fault spot users).
Proof.
  induction users as [|u rest IH]; simpl; [apply preserves_ret|].
  apply preserves_bind; [|intros _; exact IH].
  apply preserves_try_catch; [|intros e; apply preserves_ret].
  apply preserves_bind; [apply upsertPayment_keeps_keys | intros p; apply preserves_ret].
Qed.

Lemma PaymentPage_fetchData_keeps_keys (env : payment_page_env) (prev : list Payment) :
  preserves rsvp_keys_unique (PaymentPage_fetchData env prev).
Proof.
  unfold PaymentPage_fetchData.
  apply preserves_try_catch; [|intros e; apply preserves_ret].
  apply preserves_bind; [intros db H; exact H|].
  intros [spot|]; [|apply preserves_ret].
  apply preserves_bind; [apply preserves_request; intros db H; exact H|]. intros invs.
  apply preserves_bind; [apply preserves_request; intros db H; exact H|]. intros pays.
  apply preserves_bind; [apply bootstrap_payments_keeps_keys|]. intros _.
  apply preserves_request. intros db H. exact H.
Qed.

Lemma getUserIdAsUUID_keeps_keys (env : rsvp_env) :
  preserves rsvp_keys_unique (getUserIdAsUUID env).
Proof.
  intros db H. unfold getUserIdAsUUID.
  destruct (env_getUserIdAsUUID env); [|exact H].
  destruct (env_inserts_profile env); exact H.
Qed.

(** X21.  The unique (spot, user) keys of invitations and payments
    survive every handler that writes them, whatever the arguments and
    whichever requests fail: both RSVP handlers, the payment page's
    [fetchData] and the admin's mark paid and mark unpaid. *)
Theorem rsvp_handlers_keep_unique_keys
    (env : rsvp_env) (penv : payment_page_env) (prev : list Payment)
    (fault : option error) (id : uuid) (status : InvitationStatus) (db : database) :
  rsvp_keys_unique db ->
  rsvp_keys_unique (run (handleRSVP env id status) db)
  /\ rsvp_keys_unique (run (handleCreateRSVP env status) db)
  /\ rsvp_keys_unique (run (PaymentPage_fetchData penv prev) db)
  /\ rsvp_keys_unique (run (handleMarkPaid penv prev fault id) db)
  /\ rsvp_keys_unique (run (handleMarkUnpaid penv prev fault id) db).
Proof.
  intros H.
  assert (Hpay : forall spot, preserves rsvp_keys_unique
            (try_catch
               (userId <- getUserIdAsUUID env ;;
                _ <- upsertPayment (env_payment_fault env) spot userId NOT_PAID ;;
                ret tt)
               (fun paymentError => ret tt))).
  { intros spot. apply preserves_try_catch; [|intros e; apply preserves_ret].
    apply preserves_bind; [apply getUserIdAsUUID_keeps_keys|]. intros userId.
    apply preserves_bind; [apply upsertPayment_keeps_keys | intros p; apply preserves_ret]. }
  assert (Hmark : forall st, preserves rsvp_keys_unique
            (try_catch
               (updatePaymentStatus fault id st ;;;
                _ <- PaymentPage_fetchData penv prev ;; ret done)
               (fun error => ret alerted))).
  { intros st. apply preserves_try_catch; [|intros e; apply preserves_ret].
    apply preserves_bind; [apply updatePaymentStatus_keeps_keys|]. intros _.
    apply preserves_bind; [apply PaymentPage_fetchData_keeps_keys|].
    intros _. apply preserves_ret. }
  split; [|split; [|split; [|split]]].
  - unfold handleRSVP. destruct (env_profile env); [|exact H].
    destruct (env_spot env) as [spot|]; [|exact H].
    refine (preserves_try_catch _ _ _ _ (fun e => preserves_ret _ _) db H).
    apply preserves_bind; [apply updateInvitationStatus_keeps_keys|]. intros _.
    apply preserves_bind;
      [destruct (InvitationStatus_eqb status CONFIRMED);
         [apply Hpay | apply preserves_ret]|].
    intros _. apply preserves_bind; [apply preserves_ret|].
    intros _. apply preserves_ret.
  - unfold handleCreateRSVP. destruct (env_profile env); [|exact H].
    destruct (env_spot env) as [spot|]; [|exact H].
    refine (preserves_try_catch _ _ _ _ (fun e => preserves_ret _ _) db H).
    apply preserves_bind; [apply getUserIdAsUUID_keeps_keys|]. intros userId.
    apply preserves_bind; [apply upsertInvitation_keeps_keys|]. intros _.
    apply preserves_bind;
      [destruct (InvitationStatus_eqb status CONFIRMED); [|apply preserves_ret];
       apply preserves_try_catch; [|intros e; apply preserves_ret];
       apply preserves_bind;
         [apply upsertPayment_keeps_keys | intros p; apply preserves_ret]|].
    intros _. apply preserves_bind; [apply preserves_ret|].
    intros _. apply preserves_ret.
  - exact (PaymentPage_fetchData_keeps_keys penv prev db H).
  - unfold handleMarkPaid. destruct (negb (pp_isAdmin penv)); [exact H|].
    exact (Hmark PAID db H).
  - unfold handleMarkUnpaid. destruct (negb (pp_isAdmin penv)); [exact H|].
    exact (Hmark NOT_PAID db H).
Qed.

Lemma rsvp_handlers_keep_unique_keys_witness :
  rsvp_keys_unique
    (run (handleRSVP (mk_rsvp_env true (Some 1%nat) (Ok 2%nat) None None) 0%nat CONFIRMED)
         paid_then_declined_db).
Proof.
  apply (rsvp_handlers_keep_unique_keys
           (mk_rsvp_env true (Some 1%nat) (Ok 2%nat) None None)
           (mk_payment_page_env (Ok (Some 1%nat)) None None (fun _ => None) None true)
           [] None 1%nat CONFIRMED paid_then_declined_db).
  split; repeat constructor; intros [].
Defined.

(** *** The payment page's bootstrap *)

Lemma bootstrapped_row_fixed (spot u : uuid) (r : payment_row) :
  bootstrapped spot r -> pay_is spot u r = true ->
  mk_payment (pay_id r) spot u NOT_PAID (pay_drink_total_amount r) = r.
Proof.
  intros (Hs & Hst & _) Hhit. apply pay_is_key in Hhit. injection Hhit as _ Hu.
  destruct r; simpl in *. now subst.
Qed.

(** One bootstrap request on payments of the form [base ++ extra], where
    [base] has no row of the pair and [extra] holds bootstrapped rows. *)
Lemma bootstrap_one (fault : option error) (spot u : uuid)
    (base extra : list payment_row) (db : database) :
  payments db = base ++ extra ->
  Forall (bootstrapped spot) extra ->
  (forall p, In p base -> pay_is spot u p = false) ->
  exists tail db',
    try_catch (_ <- upsertPayment fault spot u NOT_PAID ;; ret tt)
              (fun err => ret tt) db = (Ok tt, db')
    /\ payments db' = base ++ (extra ++ tail)
    /\ Forall (bootstrapped spot) tail
    /\ (fault = None -> exists p, In p (extra ++ tail) /\ pay_is spot u p = true)
    /\ invitations db' = invitations db
    /\ user_drink_selections db' = user_drink_selections db
    /\ attendance db' = attendance db
    /\ drinks db' = drinks db
    /\ profiles db' = profiles db.
Proof.
  intros Hpay Hextra Hbase.
  unfold try_catch, bind, upsertPayment, request, ret.
  destruct fault as [e|].
  - exists [], db. rewrite app_nil_r. repeat split; auto. discriminate.
  - destruct (find (pay_is spot u) (payments db)) as [old|] eqn:Hfind.
    + exists []. eexists. split; [reflexivity|]. cbn [payments set_payments].
      rewrite app_nil_r. repeat split; auto.
      * rewrite Hpay, map_app.
        rewrite (map_replace_none (pay_is spot u) _ base Hbase). f_equal.
        rewrite <- (map_id extra) at 2. apply map_ext_in. intros r Hr.
        destruct (pay_is spot u r) eqn:Hhit; [|reflexivity].
        apply bootstrapped_row_fixed; [|exact Hhit].
        rewrite Forall_forall in Hextra. now apply Hextra.
      * intros _. apply find_some in Hfind as (Hin & Hhit). exists old.
        split; [|exact Hhit]. rewrite Hpay in Hin.
        apply in_app_or in Hin as [Hin|Hin]; [|exact Hin].
        rewrite (Hbase old Hin) in Hhit. discriminate.
    + exists [mk_payment (next_uuid db) spot u NOT_PAID 0]. eexists.
      split; [reflexivity|]. cbn [payments set_payments gen_random_uuid snd].
      repeat split; auto.
      * now rewrite Hpay, app_assoc.
      * repeat constructor.
      * intros _. exists (mk_payment (next_uuid db) spot u NOT_PAID 0).
        split; [apply in_or_app; right; now left | apply pay_is_written].
Qed.

Lemma bootstrap_payments_appends (fault : uuid -> option error) (spot : uuid)
    (users : list uuid) (base extra : list payment_row) (db : database) :
  payments db = base ++ extra ->
  Forall (bootstrapped spot) extra ->
  (forall u, In u users -> forall p, In p base -> pay_is spot u p = false) ->
  exists tail db',
    bootstrap_payments fault spot users db = (Ok tt, db')
    /\ payments db' = base ++ (extra ++ tail)
    /\ Forall (bootstrapped spot) tail
    /\ (forall u, In u users -> fault u = None ->
          exists p, In p (extra ++ tail) /\ pay_is spot u p = true)
    /\ invitations db' = invitations db
    /\ user_drink_selections db' = user_drink_selections db
    /\ attendance db' = attendance db
    /\ drinks db' = drinks db
    /\ profiles db' = profiles db.
Proof.
  revert extra db. induction users as [|u rest IH]; intros extra db Hpay Hextra Hbase.
  - exists [], db. rewrite app_nil_r. repeat split; auto. intros u [].
  - destruct (bootstrap_one (fault u) spot u base extra db Hpay Hextra
                (Hbase u (or_introl eq_refl)))
      as (t1 & db1 & E1 & Hp1 & Ht1 & Hc1 & Hi1 & Hs1 & Ha1 & Hd1 & Hpr1).
    destruct (IH (extra ++ t1) db1 Hp1)
      as (t2 & db2 & E2 & Hp2 & Ht2 & Hc2 & Hi2 & Hs2 & Ha2 & Hd2 & Hpr2).
    + apply Forall_app. now split.
    + intros u' Hu'. apply Hbase. now right.
    + exists (t1 ++ t2), db2. cbn [bootstrap_payments]. unfold bind at 1.
      rewrite E1, E2. split; [reflexivity|].
      split; [now rewrite Hp2, <- !app_assoc|].
      split; [apply Forall_app; now split|].
      split; [|repeat split; congruence].
      intros u' [<-|Hu'] Hf.
      * destruct (Hc1 Hf) as (p & Hin & Hhit). exists p. split; [|exact Hhit].
        rewrite app_assoc. apply in_or_app. now left.
      * destruct (Hc2 u' Hu' Hf) as (p & Hin & Hhit). exists p. split; [|exact Hhit].
        now rewrite app_assoc.
Qed.

Lemma not_listed_no_row (spot u : uuid) (db : database) :
  existsb (Nat.eqb u) (map Payment_user_id (getPayments spot db)) = false ->
  forall p, In p (payments db) -> pay_is spot u p = false.
Proof.
  intros Hnot p Hin. apply not_true_is_false. intros Hhit.
  apply pay_is_key in Hhit. injection Hhit as Hs Hu.
  apply not_true_iff_false in Hnot. apply Hnot. apply existsb_eqb_In.
  unfold getPayments. rewrite map_map. simpl. apply in_map_iff. exists p.
  split; [exact Hu|]. apply filter_In. split; [exact Hin | now apply Nat.eqb_eq].
Qed.

Lemma PaymentPage_fetchData_appends
    (env : payment_page_env) (prev : list Payment) (db : database) :
  exists extra,
    payments (run (PaymentPage_fetchData env prev) db) = payments db ++ extra
    /\ Forall (fun r => pay_status r = NOT_PAID /\ pay_drink_total_amount r = 0) extra
    /\ invitations (run (PaymentPage_fetchData env prev) db) = invitations db
    /\ user_drink_selections (run (PaymentPage_fetchData env prev) db)
       = user_drink_selections db
    /\ attendance (run (PaymentPage_fetchData env prev) db) = attendance db
    /\ drinks (run (PaymentPage_fetchData env prev) db) = drinks db
    /\ profiles (run (PaymentPage_fetchData env prev) db) = profiles db.
Proof.
  assert (Hsame : exists extra,
             payments db = payments db ++ extra
             /\ Forall (fun r => pay_status r = NOT_PAID /\ pay_drink_total_amount r = 0) extra
             /\ invitations db = invitations db
             /\ user_drink_selections db = user_drink_selections db
             /\ attendance db = attendance db /\ drinks db = drinks db
             /\ profiles db = profiles db).
  { exists []. rewrite app_nil_r. repeat split; auto. }
  unfold run, PaymentPage_fetchData, try_catch, bind, ret.
  destruct (pp_getUpcomingSpot env) as [[spot|]|e]; cbn [fst snd]; try exact Hsame.
  destruct (pp_getInvitations_fault env); cbn [request throw fst snd]; [exact Hsame|].
  destruct (pp_getPayments_fault env); cbn [request throw fst snd]; [exact Hsame|].
  match goal with
  | |- context [bootstrap_payments ?f spot ?users db] =>
      destruct (bootstrap_payments_appends f spot users (payments db) [] db)
        as (tail & db' & E & Hp & Ht & _ & Hi & Hs & Ha & Hd & Hpr)
  end.
  - now rewrite app_nil_r.
  - constructor.
  - intros u Hu. apply in_map_iff in Hu as (inv & <- & Hinv).
    apply filter_In in Hinv as (_ & Hnot). apply negb_true_iff in Hnot.
    now apply not_listed_no_row.
  - rewrite E.
    assert (Hres : exists extra,
               payments db' = payments db ++ extra
               /\ Forall (fun r => pay_status r = NOT_PAID /\ pay_drink_total_amount r = 0)
                         extra
               /\ invitations db' = invitations db
               /\ user_drink_selections db' = user_drink_selections db
               /\ attendance db' = attendance db /\ drinks db' = drinks db
               /\ profiles db' = profiles db).
    { exists tail. repeat split; auto.
      eapply Forall_impl; [|exact Ht]. intros r (_ & H1 & H2). now split. }
    destruct (pp_refetch_fault env); exact Hres.
Qed.

(** X22.  The payment page's [fetchData] only adds: whatever the
    invitations, the prior payments and the fate of each request, every
    payment row that existed is still there, unchanged and in place,
    followed by the rows the bootstrap created, each [not_paid] with
    drink total 0; no other table changes. *)
Theorem PaymentPage_fetchData_only_adds
    (env : payment_page_env) (prev : list Payment) (db : database) :
  exists extra,
    payments (run (PaymentPage_fetchData env prev) db) = payments db ++ extra
    /\ Forall (fun r => pay_status r = NOT_PAID /\ pay_drink_total_amount r = 0) extra
    /\ invitations (run (PaymentPage_fetchData env prev) db) = invitations db
    /\ user_drink_selections (run (PaymentPage_fetchData env prev) db)
       = user_drink_selections db
    /\ attendance (run (PaymentPage_fetchData env prev) db) = attendance db
    /\ drinks (run (PaymentPage_fetchData env prev) db) = drinks db
    /\ profiles (run (PaymentPage_fetchData env prev) db) = profiles db.
Proof. apply PaymentPage_fetchData_appends. Qed.

(** X23.  When every request of the payment page's [fetchData] succeeds
    for spot [spot], each confirmed invitation of the spot has a payment
    row afterwards, and the page shows what [getPayments] then returns. *)
Theorem PaymentPage_fetchData_covers_confirmed
    (env : payment_page_env) (prev : list Payment) (spot : uuid) (db : database) :
  pp_getUpcomingSpot env = Ok (Some spot) ->
  pp_getInvitations_fault env = None -> pp_getPayments_fault env = None ->
  (forall u, pp_upsert_fault env u = None) -> pp_refetch_fault env = None ->
  fst (PaymentPage_fetchData env prev db)
  = Ok (getPayments spot (run (PaymentPage_fetchData env prev) db))
  /\ forall inv, In inv (invitations db) ->
       inv_spot_id inv = spot -> inv_status inv = CONFIRMED ->
       exists p, In p (payments (run (PaymentPage_fetchData env prev) db))
                 /\ pay_spot_id p = spot /\ pay_user_id p = inv_user_id inv.
Proof.
  intros Hspot Hif Hpf Huf Hrf.
  unfold run, PaymentPage_fetchData, try_catch, bind, ret.
  rewrite Hspot, Hif, Hpf, Hrf. cbn [request fst snd].
  match goal with
  | |- context [bootstrap_payments ?f spot ?users db] =>
      destruct (bootstrap_payments_appends f spot users (payments db) [] db)
        as (tail & db' & E & Hp & _ & Hc & _);
        [now rewrite app_nil_r | constructor | | ]
  end.
  - intros u Hu. apply in_map_iff in Hu as (inv & <- & Hinv).
    apply filter_In in Hinv as (_ & Hnot). apply negb_true_iff in Hnot.
    now apply not_listed_no_row.
  - rewrite E. unfold request. cbn [fst snd]. split; [reflexivity|].
    intros inv Hin Hs Hst.
    destruct (existsb (Nat.eqb (inv_user_id inv))
                (map Payment_user_id (getPayments spot db))) eqn:Hlisted.
    + apply existsb_eqb_In in Hlisted. unfold getPayments in Hlisted.
      rewrite map_map in Hlisted. apply in_map_iff in Hlisted as (p & Hu & Hp0).
      simpl in Hu. apply filter_In in Hp0 as (Hp0 & Hsp). apply Nat.eqb_eq in Hsp.
      exists p. split; [|now split]. rewrite Hp. apply in_or_app. now left.
    + destruct (Hc (inv_user_id inv)) as (p & Hp0 & Hhit).
      * apply in_map_iff. exists (toInvitation inv). split; [reflexivity|].
        apply filter_In. split; [|simpl; now rewrite Hlisted].
        apply filter_In. split; [|simpl; now rewrite Hst].
        unfold getInvitations. apply in_map. apply filter_In.
        split; [exact Hin | now apply Nat.eqb_eq].
      * apply Huf.
      * apply pay_is_key in Hhit. injection Hhit as H1 H2.
        exists p. split; [|now split]. rewrite Hp. apply in_or_app. now right.
Qed.

Lemma PaymentPage_fetchData_covers_confirmed_witness :
  exists p,
    In p (payments
            (run (PaymentPage_fetchData
                    (mk_payment_page_env (Ok (Some 1%nat)) None None (fun _ => None) None false)
                    [])
                 (run (upsertInvitation None 1%nat 2%nat CONFIRMED) empty_database)))
    /\ pay_spot_id p = 1%nat
    /\ pay_user_id p = inv_user_id (mk_invitation 0%nat 1%nat 2%nat CONFIRMED).
Proof.
  apply (proj2 (PaymentPage_fetchData_covers_confirmed
                  (mk_payment_page_env (Ok (Some 1%nat)) None None (fun _ => None) None false)
                  [] 1%nat
                  (run (upsertInvitation None 1%nat 2%nat CONFIRMED) empty_database)
                  eq_refl eq_refl eq_refl (fun _ => eq_refl) eq_refl)
               (mk_invitation 0%nat 1%nat 2%nat CONFIRMED)).
  - left. reflexivity.
  - reflexivity.
  - reflexivity.
Defined.

(** X24.  Mark paid and mark unpaid: for a profile that is not an admin
    the handlers write nothing; a failed status update alerts and writes
    nothing; and for an admin whose update succeeds, the payments are
    those of [updatePaymentStatus] followed only by rows the page's
    bootstrap added, each [not_paid] with drink total 0. *)
Theorem handleMarkPaid_effect
    (env : payment_page_env) (prev : list Payment) (e : error)
    (paymentId : uuid) (db : database) :
  (pp_isAdmin env = false ->
   forall fault,
     run (handleMarkPaid env prev fault paymentId) db = db
     /\ run (handleMarkUnpaid env prev fault paymentId) db = db)
  /\ (handleMarkPaid env prev (Some e) paymentId db
      = (Ok (if pp_isAdmin env then alerted else done), db)
      /\ handleMarkUnpaid env prev (Some e) paymentId db
         = (Ok (if pp_isAdmin env then alerted else done), db))
  /\ (pp_isAdmin env = true ->
      (exists extra,
         payments (run (handleMarkPaid env prev None paymentId) db)
         = payments (run (updatePaymentStatus None paymentId PAID) db) ++ extra
         /\ Forall (fun r => pay_status r = NOT_PAID /\ pay_drink_total_amount r = 0) extra)
      /\ (exists extra,
            payments (run (handleMarkUnpaid env prev None paymentId) db)
            = payments (run (updatePaymentStatus None paymentId NOT_PAID) db) ++ extra
            /\ Forall (fun r => pay_status r = NOT_PAID /\ pay_drink_total_amount r = 0)
                      extra)).
Proof.
  split; [|split].
  - intros Hadmin fault. unfold run, handleMarkPaid, handleMarkUnpaid.
    rewrite Hadmin. now split.
  - unfold handleMarkPaid, handleMarkUnpaid. destruct (pp_isAdmin env); now split.
  - intros Hadmin.
    assert (Hgen : forall st, exists extra,
               payments (run (try_catch
                                (updatePaymentStatus None paymentId st ;;;
                                 _ <- PaymentPage_fetchData env prev ;; ret done)
                                (fun error => ret alerted)) db)
               = payments (run (updatePaymentStatus None paymentId st) db) ++ extra
               /\ Forall (fun r => pay_status r = NOT_PAID /\ pay_drink_total_amount r = 0)
                         extra).
    { intros st.
      destruct (PaymentPage_fetchData_appends env prev
                  (run (updatePaymentStatus None paymentId st) db))
        as (extra & Hp & Hextra & _).
      exists extra. split; [|exact Hextra].
      rewrite <- Hp. unfold run, try_catch, bind, ret.
      cbn [updatePaymentStatus request snd].
      now destruct (PaymentPage_fetchData env prev _) as [[l|e0] d']. }
    unfold handleMarkPaid, handleMarkUnpaid. rewrite Hadmin. cbn [negb].
    split; apply Hgen.
Qed.

(** ** Notifications *)

Lemma insert_notifications_appends (users : list uuid) (title message : String.string)
    (st : notification_store) :
  exists added,
    notifications (notificationService.insert_notifications users title message st)
    = notifications st ++ added
    /\ map notif_user_id added = users
    /\ Forall (fun n => notif_title n = title /\ notif_message n = message
                        /\ notif_read n = false) added.
Proof.
  revert st. induction users as [|u rest IH]; intros st; simpl.
  - exists []. rewrite app_nil_r. repeat split. constructor.
  - destruct (IH (mk_notification_store
                    (notifications st
                     ++ [mk_notification (notifications_next_uuid st) u title message false])
                    (S (notifications_next_uuid st))))
      as (added & Hn & Hu & Hall).
    exists (mk_notification (notifications_next_uuid st) u title message false :: added).
    split; [|split].
    + rewrite Hn. simpl. now rewrite <- app_assoc.
    + simpl. now rewrite Hu.
    + constructor; [simpl; auto | exact Hall].
Qed.

(** X25.  [createNotificationForAllUsers] adds exactly one unread
    notification per profile, with the given title and message, after the
    existing rows and leaving them as they were; when a request fails or
    there is no profile it adds nothing.  It never throws. *)
Theorem createNotificationForAllUsers_one_each
    (users_fault insert_fault : option error) (title message : String.string)
    (db : database) (st : notification_store) :
  exists added,
    notifications (notificationService.createNotificationForAllUsers
                     users_fault insert_fault title message db st)
    = notifications st ++ added
    /\ map notif_user_id added
       = match users_fault, insert_fault with
         | None, None => map prof_id (profiles db)
         | _, _ => []
         end
    /\ Forall (fun n => notif_title n = title /\ notif_message n = message
                        /\ notif_read n = false) added.
Proof.
  unfold notificationService.createNotificationForAllUsers.
  assert (Hnone : forall l, l = [] ->
             exists added : list notification_row,
               notifications st = notifications st ++ added
               /\ map notif_user_id added = l
               /\ Forall (fun n => notif_title n = title /\ notif_message n = message
                                   /\ notif_read n = false) added).
  { intros l ->. exists []. rewrite app_nil_r. repeat split. constructor. }
  destruct users_fault; [now apply Hnone|].
  destruct (map prof_id (profiles db)) as [|u rest] eqn:Husers.
  - destruct insert_fault; now apply Hnone.
  - destruct insert_fault; [now apply Hnone|].
    apply insert_notifications_appends.
Qed.

(** X26.  [markAllAsRead] of the service: after a successful call every
    notification of the user reads as read, the notifications of every
    other user are returned as before, no row is added or removed, and a
    second call changes nothing. *)
Theorem markAllAsRead_effect (userId : uuid) (st : notification_store) :
  let st' := snd (notificationService.markAllAsRead None userId st) in
  (forall n, In n (notificationService.getNotifications userId st') ->
             Notification_read n = true)
  /\ (forall other, other <> userId ->
        notificationService.getNotifications other st'
        = notificationService.getNotifications other st)
  /\ map notif_id (notifications st') = map notif_id (notifications st)
  /\ snd (notificationService.markAllAsRead None userId st') = st'.
Proof.
  cbv zeta. unfold notificationService.markAllAsRead. cbn [snd].
  split; [|split; [|split]].
  - intros n Hn. unfold notificationService.getNotifications in Hn. simpl in Hn.
    apply in_map_iff in Hn as (r & <- & Hr). apply in_rev in Hr.
    apply filter_In in Hr as (Hr & Hu). apply in_map_iff in Hr as (x & Hx & _).
    destruct (Nat.eqb (notif_user_id x) userId) eqn:Hxu; simpl in Hx.
    + destruct (notif_read x) eqn:Hread; simpl in Hx; subst r; simpl; auto.
    + subst r. congruence.
  - intros other Hne. unfold notificationService.getNotifications. simpl. do 2 f_equal.
    induction (notifications st) as [|a l IH]; simpl; [reflexivity|].
    destruct (Nat.eqb (notif_user_id a) userId) eqn:Hau; simpl.
    + apply Nat.eqb_eq in Hau.
      assert (Hao : Nat.eqb (notif_user_id a) other = false)
        by (apply Nat.eqb_neq; congruence).
      destruct (Bool.eqb (notif_read a) false); simpl; rewrite Hao; exact IH.
    + destruct (Nat.eqb (notif_user_id a) other); now rewrite IH.
  - simpl. rewrite map_map. apply map_ext. intros r.
    now destruct (Nat.eqb (notif_user_id r) userId && Bool.eqb (notif_read r) false).
  - simpl. f_equal. rewrite map_map. apply map_ext. intros r.
    destruct (Nat.eqb (notif_user_id r) userId) eqn:Hu; simpl; [|now rewrite Hu].
    destruct (notif_read r) eqn:Hr; simpl; rewrite Hu; simpl; [now rewrite Hr | reflexivity].
Qed.

Lemma unreadCount_map_le (f : Notification -> Notification) (local : list Notification) :
  (forall n, Notification_read n = true -> Notification_read (f n) = true) ->
  (NotificationsContext.unreadCount (map f local)
   <= NotificationsContext.unreadCount local)%nat.
Proof.
  intros Hf. unfold NotificationsContext.unreadCount.
  induction local as [|a l IH]; simpl; [lia|].
  destruct (Notification_read a) eqn:Ha; simpl.
  - rewrite (Hf a Ha). simpl. exact IH.
  - destruct (Notification_read (f a)); simpl; lia.
Qed.

(** X27.  The context updates its list whether or not the backend call
    succeeds: after its [markAllAsRead] the unread count is 0, after its
    [markAsRead] every listed notification with the id is read and the
    unread count has not grown; and when the backend call fails the stored
    rows are unchanged, so the list and the table then disagree. *)
Theorem context_marks_read_locally
    (fault : option error) (e : error) (session : option uuid) (id : uuid)
    (st : notification_store) (local : list Notification) :
  NotificationsContext.unreadCount
    (snd (NotificationsContext.markAllAsRead fault session st local)) = 0%nat
  /\ (forall n, In n (snd (NotificationsContext.markAsRead fault id st local)) ->
                Notification_id n = id -> Notification_read n = true)
  /\ (NotificationsContext.unreadCount
        (snd (NotificationsContext.markAsRead fault id st local))
      <= NotificationsContext.unreadCount local)%nat
  /\ snd (NotificationsContext.markAsRead fault id st local)
     = snd (NotificationsContext.markAsRead None id st local)
  /\ fst (NotificationsContext.markAsRead (Some e) id st local) = st
  /\ fst (NotificationsContext.markAllAsRead (Some e) session st local) = st.
Proof.
  assert (Hall : NotificationsContext.unreadCount
                   (map NotificationsContext.read_locally local) = 0%nat).
  { unfold NotificationsContext.unreadCount.
    induction local as [|a l IH]; simpl; [reflexivity | exact IH]. }
  assert (Hone : snd (NotificationsContext.markAsRead fault id st local)
                 = map (fun n => if Nat.eqb (Notification_id n) id
                                 then NotificationsContext.read_locally n else n) local).
  { unfold NotificationsContext.markAsRead, notificationService.markAsRead.
    now destruct fault. }
  split; [|split; [|split; [|split; [|split]]]].
  - unfold NotificationsContext.markAllAsRead, notificationService.markAllAsRead.
    destruct session; [destruct fault|]; exact Hall.
  - rewrite Hone. intros n Hn Hid. apply in_map_iff in Hn as (x & <- & _).
    destruct (Nat.eqb (Notification_id x) id) eqn:Hx; [reflexivity|].
    apply Nat.eqb_neq in Hx. contradiction.
  - rewrite Hone. apply unreadCount_map_le. intros n Hn.
    now destruct (Nat.eqb (Notification_id n) id).
  - rewrite Hone. reflexivity.
  - reflexivity.
  - now destruct session.
Qed.
